(** * llmsnap: metrics monitor, TTL unload monitor and model configuration

    A shallow embedding of the Go code of llmsnap's [proxy] and
    [proxy/config] packages:

    - [proxy/metrics_monitor.go]: the bounded ring of [TokenMetrics]
      ([addMetrics]), the response tee ([responseBodyCopier]), the parser of
      the captured response ([parseMetrics], [processStreamingResponse]) and
      the handler wrapper ([wrapHandler]);
    - the [UnloadAfter] goroutine of [Process.start];
    - [ModelConfig.UnmarshalYAML].

    Go's [int] is the 64-bit two's-complement integer, written as [Z] with
    the wrap-around spelled out; [float64] is the kernel's binary64; a panic
    of the Go runtime (slice bounds) is the [None] of an [option]. *)

From Stdlib Require Import ZArith List Bool Lia.
From Stdlib Require Import Strings.String Strings.Ascii Strings.Byte.
From Stdlib Require Import Floats.PrimFloat Floats.FloatOps Floats.SpecFloat.
From Stdlib Require Import Numbers.Cyclic.Int63.Uint63.
From stdpp Require Import base option list strings gmap sorting.

Open Scope Z_scope.
Set Warnings "-register-all".

(* ================================================================== *)
(** * Part I: the embedding                                            *)
(* ================================================================== *)

(** ** The Go runtime: integers, slices, time, float conversions *)

Module Go.

Definition min_int : Z := - 2 ^ 63.
Definition max_int : Z := 2 ^ 63 - 1.

(** Two's-complement wrap-around of [int] arithmetic. *)
Definition wrap (z : Z) : Z := (z + 2 ^ 63) `mod` 2 ^ 64 - 2 ^ 63.

(** [len(s)]. *)
Definition len {A} (s : list A) : Z := Z.of_nat (length s).

(** [s[lo:hi]]; out of range the runtime panics.  The upper bound checked
    here is [len(s)], which is never above the capacity Go checks. *)
Definition slice {A} (s : list A) (lo hi : Z) : option (list A) :=
  if (0 <=? lo) && (lo <=? hi) && (hi <=? len s)
  then Some (take (Z.to_nat (hi - lo)) (drop (Z.to_nat lo) s))
  else None.

(** [s[lo:]] and [s[:hi]]. *)
Definition slice_from {A} (s : list A) (lo : Z) : option (list A) :=
  slice s lo (len s).

Definition slice_to {A} (s : list A) (hi : Z) : option (list A) :=
  slice s 0 hi.

(** [time.Time] as nanoseconds elapsed since the zero time, and
    [time.Duration] as a count of nanoseconds. *)
Definition Time : Type := Z.
Definition Duration : Type := Z.

Definition IsZero (t : Time) : bool := t =? 0.

(** [t.Sub(u)] saturates at the largest and smallest [Duration]. *)
Definition Sub (t u : Time) : Duration :=
  if t - u <? min_int then min_int
  else if max_int <? t - u then max_int
  else t - u.

(** [time.Since(start)], read when the clock shows [now]. *)
Definition Since (now start : Time) : Duration := Sub now start.

(** [d.Milliseconds()]: integer division truncating towards zero. *)
Definition Milliseconds (d : Duration) : Z := d ÷ 1000000.

Definition Second : Duration := 1000000000.

(** [float64(n)] for an [int] [n], rounded to nearest. *)
Definition float64_of_int (n : Z) : float :=
  if n =? min_int then (-0x1p63)%float
  else if n <? 0 then PrimFloat.opp (PrimFloat.of_uint63 (Uint63.of_Z (- n)))
  else PrimFloat.of_uint63 (Uint63.of_Z n).

(** [int(f)] for a [float64] [f]: the fraction is discarded.  Go leaves the
    result unspecified when the value does not fit; the value written here is
    the one amd64 produces. *)
Definition int_of_float64 (f : float) : Z :=
  match Prim2SF f with
  | S754_zero _ => 0
  | S754_finite s m e =>
      let v := if 0 <=? e then Z.pos m * 2 ^ e else Z.pos m / 2 ^ (- e) in
      let t := if s then - v else v in
      if (min_int <=? t) && (t <=? max_int) then t else min_int
  | _ => min_int
  end.

(** [error]: the message; the nil error is [None]. *)
Definition error : Type := string.

End Go.

(** ** Package [bytes] and [strings] *)

Module Bytes.

Definition bytes : Type := list byte.

Definition of_string (s : string) : bytes := String.list_byte_of_string s.

Definition newline : byte := "010"%byte.

Fixpoint Equal (a b : bytes) : bool :=
  match a, b with
  | [], [] => true
  | x :: a', y :: b' => Byte.eqb x y && Equal a' b'
  | _, _ => false
  end.

Fixpoint HasPrefix (s prefix : bytes) : bool :=
  match prefix, s with
  | [], _ => true
  | p :: prefix', c :: s' => Byte.eqb c p && HasPrefix s' prefix'
  | _ :: _, [] => false
  end.

(** Index of the last [c] in [s], or [-1]. *)
Fixpoint LastIndexByte (s : bytes) (c : byte) : Z :=
  match s with
  | [] => -1
  | x :: s' =>
      let i := LastIndexByte s' c in
      if 0 <=? i then i + 1
      else if Byte.eqb x c then 0 else -1
  end.

(** [strings.Contains]. *)
Fixpoint Contains (s substr : string) : bool :=
  String.prefix substr s ||
  match s with
  | EmptyString => false
  | String _ s' => Contains s' substr
  end.

End Bytes.

Export Bytes.

(** ** External collaborators

    [github.com/tidwall/gjson] and the Unicode-aware [bytes.TrimSpace] and
    [strings.ToUpper] are not part of the repository.  The embedding is
    parametric in them; what the proofs need of them is stated as laws. *)

Class GJson := {
  Result : Type;
  (** The zero value [gjson.Result{}]. *)
  zeroResult : Result;
  ValidBytes : bytes -> bool;
  ParseBytes : bytes -> Result;
  Get : Result -> string -> Result;
  Exists : Result -> bool;
  (** [Result.Int], an [int64]. *)
  Int : Result -> Z;
  (** [Result.Float], a [float64]. *)
  Float : Result -> float;
}.

(** The zero [Result] does not exist, and a [Result] that does not exist
    reads as the number zero. *)
Record GJsonLaws (G : GJson) : Prop := {
  Exists_zeroResult : Exists zeroResult = false;
  Int_missing : forall r, Exists r = false -> Int r = 0;
  Float_missing : forall r, Exists r = false -> Float r = 0%float;
}.

Class GoText := {
  TrimSpace : bytes -> bytes;
  ToUpper : string -> string;
}.

Record GoTextLaws (T : GoText) : Prop := {
  TrimSpace_nil : TrimSpace [] = [];
}.

(** ** Package [proxy]: token metrics and the metrics monitor *)

Record TokenMetrics := {
  ID : Z;
  Timestamp : Go.Time;
  Model : string;
  CachedTokens : Z;
  InputTokens : Z;
  OutputTokens : Z;
  PromptPerSecond : float;
  TokensPerSecond : float;
  DurationMs : Z;
}.

(** [metric.ID = id]. *)
Definition set_ID (id : Z) (m : TokenMetrics) : TokenMetrics :=
  {| ID := id; Timestamp := Timestamp m; Model := Model m;
     CachedTokens := CachedTokens m; InputTokens := InputTokens m;
     OutputTokens := OutputTokens m; PromptPerSecond := PromptPerSecond m;
     TokensPerSecond := TokensPerSecond m; DurationMs := DurationMs m |}.

Record TokenMetricsEvent := { Metrics : TokenMetrics }.

(** The logger: what was handed to it, in order. *)
Inductive LogLevel := LevelDebug | LevelInfo | LevelWarn | LevelError.

Inductive LogMessage :=
| MsgSkippedStatus (status : Z) (path : string) (errorMsg : bytes)
| MsgSkippedEmptyBody
| MsgStreamingError (err : Go.error) (path : string)
| MsgParseError (err : Go.error) (path : string)
| MsgSkippedInvalidJSON (path : string).

Record LogLine := { level : LogLevel; message : LogMessage }.

Definition LogMonitor : Type := list LogLine.

Definition Warnf (l : LogMonitor) (m : LogMessage) : LogMonitor :=
  l ++ [{| level := LevelWarn; message := m |}].

(** [metricsMonitor].  The mutex is not modelled: every method runs under
    it from start to end.  [emitted] is the sequence of events handed to
    [event.Emit]. *)
Record metricsMonitor := {
  metrics : list TokenMetrics;
  maxMetrics : Z;
  nextID : Z;
  logger : LogMonitor;
  emitted : list TokenMetricsEvent;
}.

Definition newMetricsMonitor (logger : LogMonitor) (maxMetrics : Z)
  : metricsMonitor :=
  {| metrics := []; maxMetrics := maxMetrics; nextID := 0;
     logger := logger; emitted := [] |}.

(** [addMetrics]: [None] is the slice-bounds panic of
    [mp.metrics[len(mp.metrics)-mp.maxMetrics:]]. *)
Definition addMetrics (mp : metricsMonitor) (metric : TokenMetrics)
  : option metricsMonitor :=
  let metric := set_ID (nextID mp) metric in
  let nextID' := Go.wrap (nextID mp + 1) in
  let appended := metrics mp ++ [metric] in
  kept ← (if maxMetrics mp <? Go.len appended
          then Go.slice_from appended
                 (Go.wrap (Go.len appended - maxMetrics mp))
          else Some appended);
  Some {| metrics := kept; maxMetrics := maxMetrics mp; nextID := nextID';
          logger := logger mp;
          emitted := emitted mp ++ [{| Metrics := metric |}] |}.

Definition getMetrics (mp : metricsMonitor) : list TokenMetrics := metrics mp.

(** A sequence of [addMetrics] calls, in order. *)
Fixpoint addMetricsAll (mp : metricsMonitor) (ms : list TokenMetrics)
  : option metricsMonitor :=
  match ms with
  | [] => Some mp
  | m :: ms' => mp' ← addMetrics mp m; addMetricsAll mp' ms'
  end.

(** The records of [ms] with the IDs [i], [i+1], ... *)
Fixpoint stamp (i : Z) (ms : list TokenMetrics) : list TokenMetrics :=
  match ms with
  | [] => []
  | m :: ms' => set_ID i m :: stamp (i + 1) ms'
  end.

(** The last [n] elements of [l] (all of [l] when it is shorter). *)
Definition lastn {A} (n : nat) (l : list A) : list A :=
  drop (length l - n) l.

(** ** Parsing the captured response *)

Inductive result (A : Type) :=
| Ok (a : A)
| Err (e : Go.error).

Arguments Ok {A} a.
Arguments Err {A} e.

(** The readings of the clock during one request: [startNow] is the
    [time.Now()] of [wrapHandler], [sinceNow] the one behind
    [time.Since(start)] and [stampNow] the one of the [Timestamp]. *)
Record Clock := {
  startNow : Go.Time;
  sinceNow : Go.Time;
  stampNow : Go.Time;
}.

Definition dataPrefix : bytes := of_string "data:".
Definition doneMarker : bytes := of_string "[DONE]".
Definition noValidJSON : Go.error := "no valid JSON data found in stream".

Section Parsing.
Context {G : GJson} {T : GoText}.

Definition parseMetrics (clk : Clock) (modelID : string) (start : Go.Time)
    (usage timings : Result) : result TokenMetrics :=
  (* default values *)
  let cachedTokens := -1 in
  let outputTokens := 0 in
  let inputTokens := 0 in
  (* timings data *)
  let tokensPerSecond := (-1)%float in
  let promptPerSecond := (-1)%float in
  let durationMs := Go.Milliseconds (Go.Since (sinceNow clk) start) in
  let '(inputTokens, outputTokens, cachedTokens) :=
    if Exists usage then
      (if Exists (Get usage "prompt_tokens")
       then Int (Get usage "prompt_tokens")
       else if Exists (Get usage "input_tokens")
            then Int (Get usage "input_tokens")
            else inputTokens,
       if Exists (Get usage "completion_tokens")
       then Int (Get usage "completion_tokens")
       else if Exists (Get usage "output_tokens")
            then Int (Get usage "output_tokens")
            else outputTokens,
       if Exists (Get usage "cache_read_input_tokens")
       then Int (Get usage "cache_read_input_tokens")
       else cachedTokens)
    else (inputTokens, outputTokens, cachedTokens) in
  let '(inputTokens, outputTokens, promptPerSecond, tokensPerSecond,
        durationMs, cachedTokens) :=
    if Exists timings then
      (Int (Get timings "prompt_n"),
       Int (Get timings "predicted_n"),
       Float (Get timings "prompt_per_second"),
       Float (Get timings "predicted_per_second"),
       Go.int_of_float64 (Float (Get timings "prompt_ms")
                          + Float (Get timings "predicted_ms"))%float,
       if Exists (Get timings "cache_n")
       then Int (Get timings "cache_n")
       else cachedTokens)
    else (inputTokens, outputTokens, promptPerSecond, tokensPerSecond,
          durationMs, cachedTokens) in
  let tokensPerSecond :=
    if (tokensPerSecond =? -1)%float && (0 <? outputTokens) && (0 <? durationMs)
    then (Go.float64_of_int outputTokens
          / (Go.float64_of_int durationMs / 1000))%float
    else tokensPerSecond in
  Ok {| ID := 0;
        Timestamp := stampNow clk;
        Model := modelID;
        CachedTokens := cachedTokens;
        InputTokens := inputTokens;
        OutputTokens := outputTokens;
        PromptPerSecond := promptPerSecond;
        TokensPerSecond := tokensPerSecond;
        DurationMs := durationMs |}.

(** One iteration of the loop of [processStreamingResponse] on the line
    [raw]; [continue] is the rest of the loop, from the next position, given
    the value of [foundValidJSON]. *)
Definition scanLine (clk : Clock) (modelID : string) (start : Go.Time)
    (continue : bool -> option (result TokenMetrics))
    (raw : bytes) (foundValidJSON : bool) : option (result TokenMetrics) :=
  let line := TrimSpace raw in
  if Go.len line =? 0 then continue foundValidJSON
  (* SSE payload always follows "data:" *)
  else if negb (HasPrefix line dataPrefix) then continue foundValidJSON
  else
    rest ← Go.slice_from line (Go.len dataPrefix);
    let data := TrimSpace rest in
    if Go.len data =? 0 then continue foundValidJSON
    else if Equal data doneMarker then continue foundValidJSON
    else if ValidBytes data then
      let parsed := ParseBytes data in
      let usage := Get parsed "usage" in
      let timings := Get parsed "timings" in
      if Exists usage || Exists timings
      then Some (parseMetrics clk modelID start usage timings)
      else continue true
    else continue foundValidJSON.

(** The loop of [processStreamingResponse], from position [pos] of [body].
    Every iteration lowers [pos]; [fuel] bounds the iterations, and [None] is
    a slice-bounds panic or the end of the fuel. *)
Fixpoint scanBackwards (fuel : nat) (clk : Clock) (modelID : string)
    (start : Go.Time) (body : bytes) (pos : Z) (foundValidJSON : bool)
  : option (result TokenMetrics) :=
  if 0 <? pos then
    match fuel with
    | O => None
    | S fuel' =>
        (* find the previous newline (or start of body) *)
        head ← Go.slice_to body pos;
        let lineStart := LastIndexByte head newline in
        let lineStart := if lineStart =? -1 then 0 else lineStart + 1 in
        raw ← Go.slice body lineStart pos;
        let pos := lineStart - 1 in
        scanLine clk modelID start
          (scanBackwards fuel' clk modelID start body pos) raw foundValidJSON
    end
  else
    (* valid JSON but no usage/timings: the activity is still tracked *)
    Some (if foundValidJSON
          then parseMetrics clk modelID start zeroResult zeroResult
          else Err noValidJSON).

Definition processStreamingResponse (clk : Clock) (modelID : string)
    (start : Go.Time) (body : bytes) : option (result TokenMetrics) :=
  scanBackwards (S (length body)) clk modelID start body (Go.len body) false.

End Parsing.

(** ** The response tee *)

(** [gin.ResponseWriter], the interface the copier wraps. *)
Class ResponseWriter (W : Type) := {
  rwWrite : W -> bytes -> W * (Z * option Go.error);
  rwWriteHeader : W -> Z -> W;
  rwStatus : W -> Z;
  rwHeaderGet : W -> string -> string;
  rwHeaderSet : W -> string -> string -> W;
}.

Definition ErrShortWrite : Go.error := "short write".

Section Copier.
Context {W : Type} {RW : ResponseWriter W}.

(** [responseBodyCopier]: [inner] is the embedded [gin.ResponseWriter],
    [body] the content of the [bytes.Buffer]; the [tee] field is
    [io.MultiWriter(inner, body)]. *)
Record responseBodyCopier := {
  inner : W;
  body : bytes;
  start : Go.Time;
  requestTime : Go.Time;
}.

Definition newBodyCopier (w : W) (requestTime : Go.Time)
  : responseBodyCopier :=
  {| inner := w; body := []; start := 0; requestTime := requestTime |}.

(** [io.MultiWriter(w, buf).Write(p)]: the writers in order, stopping at the
    first error or short write; [bytes.Buffer.Write] appends all of [p]. *)
Definition teeWrite (w : W) (buf : bytes) (p : bytes)
  : W * bytes * (Z * option Go.error) :=
  let '(w', (n, err)) := rwWrite w p in
  match err with
  | Some e => (w', buf, (n, Some e))
  | None =>
      if negb (n =? Go.len p) then (w', buf, (n, Some ErrShortWrite))
      else (w', buf ++ p, (Go.len p, None))
  end.

(** [responseBodyCopier.Write], called when the clock shows [now]. *)
Definition Write (now : Go.Time) (w : responseBodyCopier) (b : bytes)
  : responseBodyCopier * (Z * option Go.error) :=
  let start' := if Go.IsZero (start w) then now else start w in
  let '(inner', body', r) := teeWrite (inner w) (body w) b in
  ({| inner := inner'; body := body'; start := start';
      requestTime := requestTime w |}, r).

Definition WriteHeader (w : responseBodyCopier) (statusCode : Z)
  : responseBodyCopier :=
  {| inner := rwWriteHeader (inner w) statusCode; body := body w;
     start := start w; requestTime := requestTime w |}.

Definition HeaderSet (w : responseBodyCopier) (k v : string)
  : responseBodyCopier :=
  {| inner := rwHeaderSet (inner w) k v; body := body w;
     start := start w; requestTime := requestTime w |}.

Definition HeaderGet (w : responseBodyCopier) (k : string) : string :=
  rwHeaderGet (inner w) k.

Definition Status (w : responseBodyCopier) : Z := rwStatus (inner w).
Definition StartTime (w : responseBodyCopier) : Go.Time := start w.
Definition RequestTime (w : responseBodyCopier) : Go.Time := requestTime w.

(** ** The wrapped handler

    What one run of the handler [next] does is the sequence of calls it makes
    on the writer it was given and the error it returns. *)
Inductive WriterCall :=
| CallHeaderSet (k v : string)
| CallWriteHeader (statusCode : Z)
| CallWrite (now : Go.Time) (b : bytes)
  (** A method promoted from the embedded [gin.ResponseWriter]
      ([WriteString], [Flush], [WriteHeaderNow], ...): it reaches the
      underlying writer without passing through the tee. *)
| CallPromoted (method : W -> W).

Record HandlerRun := {
  calls : list WriterCall;
  returned : option Go.error;
}.

Definition doCall (w : responseBodyCopier) (c : WriterCall)
  : responseBodyCopier :=
  match c with
  | CallHeaderSet k v => HeaderSet w k v
  | CallWriteHeader statusCode => WriteHeader w statusCode
  | CallWrite now b => fst (Write now w b)
  | CallPromoted method =>
      {| inner := method (inner w); body := body w; start := start w;
         requestTime := requestTime w |}
  end.

Definition runHandler (w : responseBodyCopier) (run : HandlerRun)
  : responseBodyCopier * option Go.error :=
  (foldl doCall w (calls run), returned run).

Record Request := { URLPath : string }.

Definition StatusOK : Z := 200.

(** The outcome of [wrapHandler]: the monitor, the client's writer and the
    returned error. *)
Record Wrapped := {
  monitor : metricsMonitor;
  client : W;
  result_err : option Go.error;
}.

Definition warn (mp : metricsMonitor) (m : LogMessage) : metricsMonitor :=
  {| metrics := metrics mp; maxMetrics := maxMetrics mp; nextID := nextID mp;
     logger := Warnf (logger mp) m; emitted := emitted mp |}.

Context {G : GJson} {T : GoText}.

(** [wrapHandler]; [None] is a panic. *)
Definition wrapHandler (mp : metricsMonitor) (clk : Clock) (modelID : string)
    (writer : W) (request : Request)
    (next : string -> Request -> HandlerRun) : option Wrapped :=
  let requestStartTime := startNow clk in
  let recorder := newBodyCopier writer requestStartTime in
  let '(recorder, err) := runHandler recorder (next modelID request) in
  match err with
  | Some e =>
      Some {| monitor := mp; client := inner recorder; result_err := Some e |}
  | None =>
      (* after this point data was sent to the client: errors are only logged *)
      if negb (Status recorder =? StatusOK) then
        let errorMsg := body recorder in
        Some {| monitor := warn mp (MsgSkippedStatus (Status recorder)
                                      (URLPath request) errorMsg);
                client := inner recorder; result_err := None |}
      else
        let body := body recorder in
        if Go.len body =? 0 then
          Some {| monitor := warn mp MsgSkippedEmptyBody;
                  client := inner recorder; result_err := None |}
        else if Contains (HeaderGet recorder "Content-Type") "text/event-stream"
        then
          r ← processStreamingResponse clk modelID (RequestTime recorder) body;
          match r with
          | Err e =>
              Some {| monitor := warn mp (MsgStreamingError e (URLPath request));
                      client := inner recorder; result_err := None |}
          | Ok tm =>
              mp' ← addMetrics mp tm;
              Some {| monitor := mp'; client := inner recorder;
                      result_err := None |}
          end
        else if ValidBytes body then
          let parsed := ParseBytes body in
          let usage := Get parsed "usage" in
          let timings := Get parsed "timings" in
          (* metrics are tracked even if usage/timings are missing *)
          match parseMetrics clk modelID (RequestTime recorder) usage timings with
          | Err e =>
              Some {| monitor := warn mp (MsgParseError e (URLPath request));
                      client := inner recorder; result_err := None |}
          | Ok tm =>
              mp' ← addMetrics mp tm;
              Some {| monitor := mp'; client := inner recorder;
                      result_err := None |}
          end
        else
          Some {| monitor := warn mp (MsgSkippedInvalidJSON (URLPath request));
                  client := inner recorder; result_err := None |}
  end.

End Copier.

Arguments responseBodyCopier W : clear implicits.
Arguments Wrapped W : clear implicits.
Arguments WriterCall W : clear implicits.
Arguments HandlerRun W : clear implicits.

(** ** What the specification says of a streamed response

    The words of the specification, over the lines of the body: the payloads
    of the lines prefixed by [data:], the last of them that carries [usage] or
    [timings], and whether one of them is valid JSON at all. *)

(** The lines of [s], split at the newline byte. *)
Fixpoint lines (s : bytes) : list bytes :=
  match s with
  | [] => [[]]
  | c :: s' =>
      if Byte.eqb c newline then [] :: lines s'
      else match lines s' with
           | l :: ls => (c :: l) :: ls
           | [] => [[c]]
           end
  end.

Section StreamSpec.
Context {G : GJson} {T : GoText}.

(** The payload of a line prefixed by [data:], unless it is empty or
    [[DONE]]. *)
Definition dataPayload (line : bytes) : option bytes :=
  let line := TrimSpace line in
  if HasPrefix line dataPrefix then
    let data := TrimSpace (drop (length dataPrefix) line) in
    if (Go.len data =? 0) || Equal data doneMarker then None else Some data
  else None.

Definition payloads (body : bytes) : list bytes := omap dataPayload (lines body).

Definition carriesMetrics (data : bytes) : bool :=
  ValidBytes data &&
  (Exists (Get (ParseBytes data) "usage")
   || Exists (Get (ParseBytes data) "timings")).

(** The last payload that is valid JSON and contains [usage] or [timings]. *)
Definition lastMetricsPayload (body : bytes) : option bytes :=
  last (filter (fun d => carriesMetrics d = true) (payloads body)).

Definition someValidPayload (body : bytes) : bool :=
  existsb ValidBytes (payloads body).

(** The outcome for the lines [ls], [found] telling whether a valid payload
    was met on a later line. *)
Definition specLines (clk : Clock) (modelID : string) (start : Go.Time)
    (found : bool) (ls : list bytes) : result TokenMetrics :=
  let ps := omap dataPayload ls in
  match last (filter (fun d => carriesMetrics d = true) ps) with
  | Some data =>
      parseMetrics clk modelID start
        (Get (ParseBytes data) "usage") (Get (ParseBytes data) "timings")
  | None =>
      if found || existsb ValidBytes ps
      then parseMetrics clk modelID start zeroResult zeroResult
      else Err noValidJSON
  end.

Definition streamingSpec (clk : Clock) (modelID : string) (start : Go.Time)
    (body : bytes) : result TokenMetrics :=
  specLines clk modelID start false (lines body).

End StreamSpec.

(** ** Package [config]: the model configuration *)

Module Config.

Record ModelFilters := { StripParams : string }.

Section ModelConfig.
(** [MacroList] and the values of the metadata map are declared elsewhere. *)
Variable MacroList : Type.
Variable nilMacroList : MacroList.
Variable Any : Type.

Record ModelConfig := {
  Cmd : string;
  CmdStop : string;
  Proxy : string;
  Aliases : list string;
  Env : list string;
  CheckEndpoint : string;
  UnloadAfter : Z;
  Unlisted : bool;
  UseModelName : string;
  (* HTTP-based sleep/wake configuration *)
  SleepEndpoint : string;
  SleepMethod : string;
  SleepBody : string;
  SleepTimeout : Z;
  WakeEndpoint : string;
  WakeMethod : string;
  WakeBody : string;
  WakeTimeout : Z;
  Name : string;
  Description : string;
  ConcurrencyLimit : Z;
  Filters : ModelFilters;
  Macros : MacroList;
  Metadata : gmap string Any;
  SendLoadingState : option bool;
}.

Definition set_CmdStop (v : string) (m : ModelConfig) : ModelConfig :=
  {| Cmd := Cmd m; CmdStop := v; Proxy := Proxy m; Aliases := Aliases m;
     Env := Env m; CheckEndpoint := CheckEndpoint m;
     UnloadAfter := UnloadAfter m; Unlisted := Unlisted m;
     UseModelName := UseModelName m; SleepEndpoint := SleepEndpoint m;
     SleepMethod := SleepMethod m; SleepBody := SleepBody m;
     SleepTimeout := SleepTimeout m; WakeEndpoint := WakeEndpoint m;
     WakeMethod := WakeMethod m; WakeBody := WakeBody m;
     WakeTimeout := WakeTimeout m; Name := Name m;
     Description := Description m; ConcurrencyLimit := ConcurrencyLimit m;
     Filters := Filters m; Macros := Macros m; Metadata := Metadata m;
     SendLoadingState := SendLoadingState m |}.

Definition set_SleepMethod (v : string) (m : ModelConfig) : ModelConfig :=
  {| Cmd := Cmd m; CmdStop := CmdStop m; Proxy := Proxy m; Aliases := Aliases m;
     Env := Env m; CheckEndpoint := CheckEndpoint m;
     UnloadAfter := UnloadAfter m; Unlisted := Unlisted m;
     UseModelName := UseModelName m; SleepEndpoint := SleepEndpoint m;
     SleepMethod := v; SleepBody := SleepBody m;
     SleepTimeout := SleepTimeout m; WakeEndpoint := WakeEndpoint m;
     WakeMethod := WakeMethod m; WakeBody := WakeBody m;
     WakeTimeout := WakeTimeout m; Name := Name m;
     Description := Description m; ConcurrencyLimit := ConcurrencyLimit m;
     Filters := Filters m; Macros := Macros m; Metadata := Metadata m;
     SendLoadingState := SendLoadingState m |}.

Definition set_WakeMethod (v : string) (m : ModelConfig) : ModelConfig :=
  {| Cmd := Cmd m; CmdStop := CmdStop m; Proxy := Proxy m; Aliases := Aliases m;
     Env := Env m; CheckEndpoint := CheckEndpoint m;
     UnloadAfter := UnloadAfter m; Unlisted := Unlisted m;
     UseModelName := UseModelName m; SleepEndpoint := SleepEndpoint m;
     SleepMethod := SleepMethod m; SleepBody := SleepBody m;
     SleepTimeout := SleepTimeout m; WakeEndpoint := WakeEndpoint m;
     WakeMethod := v; WakeBody := WakeBody m;
     WakeTimeout := WakeTimeout m; Name := Name m;
     Description := Description m; ConcurrencyLimit := ConcurrencyLimit m;
     Filters := Filters m; Macros := Macros m; Metadata := Metadata m;
     SendLoadingState := SendLoadingState m |}.

(** The defaults of [UnmarshalYAML]; fields it does not list have their zero
    value. *)
Definition defaults : ModelConfig :=
  {| Cmd := ""; CmdStop := ""; Proxy := "http://localhost:${PORT}";
     Aliases := []; Env := []; CheckEndpoint := "/health";
     UnloadAfter := 0; Unlisted := false; UseModelName := "";
     SleepEndpoint := ""; SleepMethod := ""; SleepBody := "";
     SleepTimeout := 0; WakeEndpoint := ""; WakeMethod := ""; WakeBody := "";
     WakeTimeout := 0; Name := ""; Description := ""; ConcurrencyLimit := 0;
     Filters := {| StripParams := "" |}; Macros := nilMacroList;
     Metadata := ∅; SendLoadingState := None |}.

(** On Windows the default [cmdStop] is [taskkill]. *)
Definition defaultsFor (goos : string) : ModelConfig :=
  if String.eqb goos "windows"
  then set_CmdStop "taskkill /f /t /pid ${PID}" defaults
  else defaults.

Definition errWakeEndpointRequired : Go.error :=
  "wakeEndpoint required when sleepEndpoint is configured".
Definition errSleepEndpointRequired : Go.error :=
  "sleepEndpoint required when wakeEndpoint is configured".
Definition errInvalidSleepMethod (method : string) : Go.error :=
  "invalid sleepMethod: " +:+ method +:+ " (must be GET, POST, PUT, or PATCH)".
Definition errInvalidWakeMethod (method : string) : Go.error :=
  "invalid wakeMethod: " +:+ method +:+ " (must be GET, POST, PUT, or PATCH)".

Definition validMethods : gmap string bool :=
  <["GET" := true]> (<["POST" := true]> (<["PUT" := true]>
    (<["PATCH" := true]> ∅))).

(** [validMethods[k]]: a missing key reads as [false]. *)
Definition isValidMethod (k : string) : bool := default false (validMethods !! k).

Definition nonEmpty (s : string) : bool := negb (String.eqb s "").

Context {T : GoText}.

(** [UnmarshalYAML] on the receiver [m]: the new value of the receiver and
    the returned error.  [unmarshal] decodes the YAML node into the struct it
    is given; [goos] is [runtime.GOOS]. *)
Definition UnmarshalYAML (goos : string) (m : ModelConfig)
    (unmarshal : ModelConfig -> ModelConfig * option Go.error)
  : ModelConfig * option Go.error :=
  let defaults := defaultsFor goos in
  let '(defaults, err) := unmarshal defaults in
  match err with
  | Some e => (m, Some e)
  | None =>
      let m := defaults in
      (* Validation: if one endpoint is set, both must be set *)
      if nonEmpty (SleepEndpoint m) && negb (nonEmpty (WakeEndpoint m))
      then (m, Some errWakeEndpointRequired)
      else if nonEmpty (WakeEndpoint m) && negb (nonEmpty (SleepEndpoint m))
      then (m, Some errSleepEndpointRequired)
      else
        (* Set default methods if endpoints are configured *)
        let m := if nonEmpty (SleepEndpoint m) && negb (nonEmpty (SleepMethod m))
                 then set_SleepMethod "POST" m else m in
        let m := if nonEmpty (WakeEndpoint m) && negb (nonEmpty (WakeMethod m))
                 then set_WakeMethod "POST" m else m in
        (* Validate HTTP methods *)
        if nonEmpty (SleepMethod m)
           && negb (isValidMethod (ToUpper (SleepMethod m)))
        then (m, Some (errInvalidSleepMethod (SleepMethod m)))
        else if nonEmpty (WakeMethod m)
                && negb (isValidMethod (ToUpper (WakeMethod m)))
        then (m, Some (errInvalidWakeMethod (WakeMethod m)))
        else
          (* Normalize methods to uppercase *)
          let m := if nonEmpty (SleepMethod m)
                   then set_SleepMethod (ToUpper (SleepMethod m)) m else m in
          let m := if nonEmpty (WakeMethod m)
                   then set_WakeMethod (ToUpper (WakeMethod m)) m else m in
          (m, None)
  end.

End ModelConfig.

Arguments Cmd {MacroList Any} m.
Arguments UnloadAfter {MacroList Any} m.
Arguments SleepEndpoint {MacroList Any} m.
Arguments SleepMethod {MacroList Any} m.
Arguments WakeEndpoint {MacroList Any} m.
Arguments WakeMethod {MacroList Any} m.
Arguments UnmarshalYAML {MacroList} nilMacroList {Any T} goos m unmarshal.
Arguments defaultsFor {MacroList} nilMacroList {Any} goos.
Arguments defaults {MacroList} nilMacroList {Any}.

End Config.

(** ** The [UnloadAfter] goroutine of [Process.start] *)

Inductive ProcessState :=
| StateStopped
| StateStarting
| StateReady
| StateStopping
| StateShutdown
| StateSleepPending
| StateAsleep
| StateWaking.

Definition isReady (s : ProcessState) : bool :=
  match s with StateReady => true | _ => false end.

(** What the goroutine reads of the process at one tick of its ticker. *)
Record TickView := {
  CurrentState : ProcessState;
  inFlightRequestsCount : Z;
  sinceLastRequestHandled : Go.Duration;
}.

(** What the goroutine does to the process. *)
Inductive ProcessCall :=
| ProcessInfof (ttl : Z)
| ProcessStop
| ProcessSleep.

Section UnloadAfter.
Context {MacroList Any : Type}.

(** The loop over the ticks: the calls made so far and whether the goroutine
    has returned ([false]: it waits for the next tick). *)
Fixpoint unloadLoop (config : Config.ModelConfig MacroList Any)
    (maxDuration : Go.Duration) (ticks : list TickView)
  : list ProcessCall * bool :=
  match ticks with
  | [] => ([], false)
  | t :: ticks' =>
      if negb (isReady (CurrentState t)) then ([], true)
      (* skip the TTL check if there are inflight requests *)
      else if negb (inFlightRequestsCount t =? 0)
      then unloadLoop config maxDuration ticks'
      else if maxDuration <? sinceLastRequestHandled t
      then ([ProcessInfof (Config.UnloadAfter config); ProcessStop], true)
      else unloadLoop config maxDuration ticks'
  end.

(** [maxDuration]: the TTL as a [Duration]. *)
Definition maxDurationOf (config : Config.ModelConfig MacroList Any)
  : Go.Duration :=
  Go.wrap (Config.UnloadAfter config * Go.Second).

(** At the tick [t] the process is ready, no request is in flight and the
    TTL has expired. *)
Definition ttlExpired (config : Config.ModelConfig MacroList Any)
    (t : TickView) : Prop :=
  CurrentState t = StateReady
  /\ inFlightRequestsCount t = 0
  /\ maxDurationOf config < sinceLastRequestHandled t.

(** At the tick [t] the process is ready, and busy or not yet idle for the
    TTL: the goroutine waits for the next tick. *)
Definition ttlPending (config : Config.ModelConfig MacroList Any)
    (t : TickView) : Prop :=
  CurrentState t = StateReady
  /\ (inFlightRequestsCount t <> 0
      \/ sinceLastRequestHandled t <= maxDurationOf config).

(** The goroutine is started only for a positive [UnloadAfter]. *)
Definition unloadAfterMonitor (config : Config.ModelConfig MacroList Any)
    (ticks : list TickView) : list ProcessCall * bool :=
  if 0 <? Config.UnloadAfter config then
    let maxDuration := maxDurationOf config in
    unloadLoop config maxDuration ticks
  else ([], true).

End UnloadAfter.

(** ** Reference collaborators

    Executable stand-ins for the external collaborators, used to run the
    embedding on concrete responses: a reader of JSON texts behind the
    [GJson] interface, the ASCII part of [bytes.TrimSpace] and
    [strings.ToUpper], and a recording [ResponseWriter] in the manner of
    gin's writer over [httptest.NewRecorder]. *)

Module Reference.

Inductive json :=
| JNull
| JFalse
| JTrue
| JNumber (num : float) (int : Z)
| JString (s : string)
| JArray (items : list json)
| JObject (members : list (string * json)).

Definition code (c : byte) : Z := Z.of_N (Byte.to_N c).

Definition isSpace (c : byte) : bool :=
  (code c =? 32) || ((9 <=? code c) && (code c <=? 13)).

(** JSON white space: space, tab, line feed, carriage return. *)
Definition isJSONSpace (c : byte) : bool :=
  (code c =? 32) || (code c =? 9) || (code c =? 10) || (code c =? 13).

Fixpoint skipSpace (s : bytes) : bytes :=
  match s with
  | c :: s' => if isJSONSpace c then skipSpace s' else s
  | [] => []
  end.

Definition digit (c : byte) : option Z :=
  if (48 <=? code c) && (code c <=? 57) then Some (code c - 48) else None.

(** A run of decimal digits: its value after [acc], how many there are, and
    the rest. *)
Fixpoint digits (acc : Z) (n : Z) (s : bytes) : Z * Z * bytes :=
  match s with
  | c :: s' =>
      match digit c with
      | Some d => digits (10 * acc + d) (n + 1) s'
      | None => (acc, n, s)
      end
  | [] => (acc, n, s)
  end.

Definition floatOfDecimal (negative : bool) (mantissa scale : Z) : float :=
  let m := Go.float64_of_int mantissa in
  let v := if 0 <=? scale
           then (m * Go.float64_of_int (10 ^ scale))%float
           else (m / Go.float64_of_int (10 ^ (- scale)))%float in
  if negative then (- v)%float else v.

Definition intOfDecimal (negative : bool) (mantissa scale : Z) : Z :=
  let v := if 0 <=? scale then mantissa * 10 ^ scale
           else mantissa / 10 ^ (- scale) in
  if negative then - v else v.

(** A JSON number: sign, integer part, fraction, exponent. *)
Definition number (s : bytes) : option (json * bytes) :=
  let '(negative, s) :=
    match s with
    | c :: s' => if code c =? 45 then (true, s') else (false, s)
    | [] => (false, s)
    end in
  let '(ip, n, s) := digits 0 0 s in
  if n =? 0 then None else
  let '(m, frac, s) :=
    match s with
    | c :: s' => if code c =? 46 then digits ip 0 s' else (ip, 0, s)
    | [] => (ip, 0, s)
    end in
  let '(e, s) :=
    match s with
    | c :: s' =>
        if (code c =? 101) || (code c =? 69) then
          match s' with
          | d :: s'' =>
              if code d =? 45 then let '(e, _, r) := digits 0 0 s'' in (- e, r)
              else if code d =? 43 then let '(e, _, r) := digits 0 0 s'' in (e, r)
              else let '(e, _, r) := digits 0 0 s' in (e, r)
          | [] => (0, s')
          end
        else (0, s)
    | [] => (0, s)
    end in
  Some (JNumber (floatOfDecimal negative m (e - frac))
                (intOfDecimal negative m (e - frac)), s).

(** The characters of a string up to its closing quote. *)
Fixpoint chars (s : bytes) : option (string * bytes) :=
  match s with
  | [] => None
  | c :: s' =>
      if code c =? 34 then Some (EmptyString, s')
      else if code c =? 92 then None
      else match chars s' with
           | Some (str, r) =>
               Some (String (Ascii.ascii_of_byte c) str, r)
           | None => None
           end
  end.

Definition startsWith (lit : string) (s : bytes) : option bytes :=
  if HasPrefix s (of_string lit)
  then Some (drop (String.length lit) s) else None.

Inductive mode :=
| MValue
| MMembers (acc : list (string * json))
| MItems (acc : list json).

Fixpoint read (fuel : nat) (m : mode) (s : bytes) : option (json * bytes) :=
  match fuel with
  | O => None
  | S fuel =>
      let s := skipSpace s in
      match m with
      | MValue =>
          match s with
          | [] => None
          | c :: r =>
              if code c =? 123 then
                match skipSpace r with
                | c' :: r' => if code c' =? 125 then Some (JObject [], r')
                              else read fuel (MMembers []) r
                | [] => None
                end
              else if code c =? 91 then
                match skipSpace r with
                | c' :: r' => if code c' =? 93 then Some (JArray [], r')
                              else read fuel (MItems []) r
                | [] => None
                end
              else if code c =? 34 then
                '(str, r') ← chars r; Some (JString str, r')
              else match startsWith "true" s with
              | Some r' => Some (JTrue, r')
              | None =>
              match startsWith "false" s with
              | Some r' => Some (JFalse, r')
              | None =>
              match startsWith "null" s with
              | Some r' => Some (JNull, r')
              | None => number s
              end end end
          end
      | MMembers acc =>
          match s with
          | c :: r =>
              if code c =? 34 then
                '(k, r1) ← chars r;
                match skipSpace r1 with
                | c1 :: r2 =>
                    if code c1 =? 58 then
                      '(v, r3) ← read fuel MValue r2;
                      match skipSpace r3 with
                      | c3 :: r4 =>
                          if code c3 =? 44
                          then read fuel (MMembers (acc ++ [(k, v)])) r4
                          else if code c3 =? 125
                          then Some (JObject (acc ++ [(k, v)]), r4)
                          else None
                      | [] => None
                      end
                    else None
                | [] => None
                end
              else None
          | [] => None
          end
      | MItems acc =>
          '(v, r1) ← read fuel MValue s;
          match skipSpace r1 with
          | c1 :: r2 =>
              if code c1 =? 44 then read fuel (MItems (acc ++ [v])) r2
              else if code c1 =? 93 then Some (JArray (acc ++ [v]), r2)
              else None
          | [] => None
          end
      end
  end.

(** The value of a JSON text, when it is one. *)
Definition decode (s : bytes) : option json :=
  match read (2 * length s + 2) MValue s with
  | Some (v, r) => match skipSpace r with [] => Some v | _ => None end
  | None => None
  end.

Fixpoint member (k : string) (ms : list (string * json)) : option json :=
  match ms with
  | [] => None
  | (k', v) :: ms' => if String.eqb k k' then Some v else member k ms'
  end.

Definition numberOfString (s : string) : option json :=
  match number (of_string s) with
  | Some (v, []) => Some v
  | _ => None
  end.

Definition maxSafeInt : float := 9007199254740991%float.

Definition intOf (v : option json) : Z :=
  match v with
  | Some JTrue => 1
  | Some (JNumber f i) =>
      if ((- maxSafeInt <=? f) && (f <=? maxSafeInt))%float
      then Go.int_of_float64 f else i
  | Some (JString s) =>
      match numberOfString s with Some (JNumber _ i) => i | _ => 0 end
  | _ => 0
  end.

Definition floatOf (v : option json) : float :=
  match v with
  | Some JTrue => 1%float
  | Some (JNumber f _) => f
  | Some (JString s) =>
      match numberOfString s with Some (JNumber f _) => f | _ => 0%float end
  | _ => 0%float
  end.

#[global] Instance gjson : GJson := {|
  Result := option json;
  zeroResult := None;
  ValidBytes s := match decode s with Some _ => true | None => false end;
  ParseBytes s := decode s;
  Get r k := match r with Some (JObject ms) => member k ms | _ => None end;
  Exists r := match r with Some _ => true | None => false end;
  Int := intOf;
  Float := floatOf;
|}.

Fixpoint dropSpace (s : bytes) : bytes :=
  match s with
  | c :: s' => if isSpace c then dropSpace s' else s
  | [] => []
  end.

Definition trimSpace (s : bytes) : bytes := rev (dropSpace (rev (dropSpace s))).

Definition upper (c : ascii) : ascii :=
  let n := N_of_ascii c in
  if ((97 <=? n) && (n <=? 122))%N then ascii_of_N (n - 32) else c.

Fixpoint toUpper (s : string) : string :=
  match s with
  | EmptyString => EmptyString
  | String c s' => String (upper c) (toUpper s')
  end.

#[global] Instance text : GoText := {|
  TrimSpace := trimSpace;
  ToUpper := toUpper;
|}.

(** A writer that records what it is sent.  As in gin, the status is 200
    until [WriteHeader] changes it, and it is fixed once the body has been
    started. *)
Record Recorder := {
  status : Z;
  written : bool;
  header : gmap string string;
  sent : bytes;
}.

Definition newRecorder : Recorder :=
  {| status := 200; written := false; header := ∅; sent := [] |}.

#[global] Instance recorderWriter : ResponseWriter Recorder := {|
  rwWrite w p :=
    ({| status := status w; written := true; header := header w;
        sent := sent w ++ p |}, (Go.len p, None));
  rwWriteHeader w statusCode :=
    if (0 <? statusCode) && negb (status w =? statusCode) && negb (written w)
    then {| status := statusCode; written := written w; header := header w;
            sent := sent w |}
    else w;
  rwStatus := status;
  rwHeaderGet w k := default "" (header w !! k);
  rwHeaderSet w k v :=
    {| status := status w; written := written w;
       header := <[k := v]> (header w); sent := sent w |};
|}.

(** A text in which the apostrophe stands for the double quote. *)
Definition quoted (s : string) : bytes :=
  (fun c => if code c =? 39 then x22 else c) <$> of_string s.

(** A handler that sets the content type and the status and writes the body
    in one piece. *)
Definition respond (contentType : string) (statusCode : Z) (b : string)
  : string -> Request -> HandlerRun Recorder :=
  fun _ _ =>
    {| calls := [CallHeaderSet "Content-Type" contentType;
                 CallWriteHeader statusCode;
                 CallWrite 1 (quoted b)];
       returned := None |}.

Definition clock (elapsedMs : Z) : Clock :=
  {| startNow := 1000000; sinceNow := 1000000 + elapsedMs * 1000000;
     stampNow := 1000000 + elapsedMs * 1000000 |}.

(** A model configuration as decoded from YAML that sets [ttl] and the two
    endpoints and leaves the rest to the defaults. *)
Definition modelConfig (ttl : Z) (sleepEndpoint wakeEndpoint : string)
  : Config.ModelConfig unit unit :=
  {| Config.Cmd := "llama-server --port ${PORT}"; Config.CmdStop := "";
     Config.Proxy := "http://localhost:${PORT}"; Config.Aliases := [];
     Config.Env := []; Config.CheckEndpoint := "/health";
     Config.UnloadAfter := ttl; Config.Unlisted := false;
     Config.UseModelName := ""; Config.SleepEndpoint := sleepEndpoint;
     Config.SleepMethod := ""; Config.SleepBody := "";
     Config.SleepTimeout := 0; Config.WakeEndpoint := wakeEndpoint;
     Config.WakeMethod := ""; Config.WakeBody := ""; Config.WakeTimeout := 0;
     Config.Name := ""; Config.Description := "";
     Config.ConcurrencyLimit := 0;
     Config.Filters := {| Config.StripParams := "" |};
     Config.Macros := tt; Config.Metadata := ∅;
     Config.SendLoadingState := None |}.

Definition testRequest : Request := {| URLPath := "/test" |}.

(** A stream of three events, the second of which carries [usage]. *)
Definition streamWithUsage : string :=
  "data: {'choices':[{'text':'First'}]}" +:+ String "010" (String "010"
  ("data: {'usage':{'prompt_tokens':100,'completion_tokens':50}}"
   +:+ String "010" (String "010" ("data: [DONE]" +:+ String "010"
   (String "010" EmptyString))))).

Definition blank : TokenMetrics :=
  {| ID := 0; Timestamp := 0; Model := ""; CachedTokens := 0;
     InputTokens := 0; OutputTokens := 0; PromptPerSecond := 0;
     TokensPerSecond := 0; DurationMs := 0 |}.

End Reference.

(** ** Vocabulary of the properties *)

(** A monitor as [newMetricsMonitor] and [addMetrics] leave it when the
    capacity is not negative. *)
Definition wellFormed (mp : metricsMonitor) : Prop :=
  0 <= maxMetrics mp /\ Go.len (metrics mp) <= maxMetrics mp.

(** [mp'] is [mp] after one [addMetrics]. *)
Definition recordsMetric (mp mp' : metricsMonitor) : Prop :=
  exists tm, addMetrics mp tm = Some mp'.

(** [mp'] is [mp] after one warning and nothing else. *)
Definition onlyWarns (mp mp' : metricsMonitor) : Prop :=
  exists msg,
    logger mp' = logger mp ++ [{| level := LevelWarn; message := msg |}]
    /\ metrics mp' = metrics mp
    /\ nextID mp' = nextID mp
    /\ maxMetrics mp' = maxMetrics mp
    /\ emitted mp' = emitted mp.

(** The quotient [parseMetrics] computes for a missing rate. *)
Definition tokensPerSecondOf (outputTokens durationMs : Z) : float :=
  (Go.float64_of_int outputTokens
   / (Go.float64_of_int durationMs / 1000))%float.

(** The key [k] is missing from the object [r]: there is no such object, or
    it has no such key. *)
Definition missing {G : GJson} (r : Result) (k : string) : Prop :=
  Exists r = false \/ Exists (Get r k) = false.

Section Served.
Context {W : Type} {RW : ResponseWriter W}.

(** The recorder [wrapHandler] holds once the handler has run. *)
Definition served (writer : W) (clk : Clock) (run : HandlerRun W)
  : responseBodyCopier W :=
  fst (runHandler (newBodyCopier writer (startNow clk)) run).

(** The chunks [bs] written one after the other through the tee. *)
Definition writeAll (now : Go.Time) (w : responseBodyCopier W)
    (bs : list bytes) : responseBodyCopier W :=
  foldl (fun w b => fst (Write now w b)) w bs.

(** The same chunks written to the underlying writer itself. *)
Definition writeAllDirect (w : W) (bs : list bytes) : W :=
  foldl (fun w b => fst (rwWrite w b)) w bs.

(** The underlying writer took all of [p] and reported no error. *)
Definition took (r : Z * option Go.error) (p : bytes) : bool :=
  match snd r with
  | None => fst r =? Go.len p
  | Some _ => false
  end.

(** Of the chunks [bs], those the underlying writer takes in full when they
    are written to it one after the other. *)
Fixpoint takenChunks (w : W) (bs : list bytes) : list bytes :=
  match bs with
  | [] => []
  | b :: bs' =>
      (if took (snd (rwWrite w b)) b then [b] else [])
      ++ takenChunks (fst (rwWrite w b)) bs'
  end.

(** The underlying writer takes every chunk in full. *)
Definition neverFails : Prop :=
  forall (w : W) (b : bytes), snd (rwWrite w b) = (Go.len b, None).

End Served.

(** ** Sequences of requests and the time of the first byte *)

Section Exchanges.
Context {W : Type} {RW : ResponseWriter W} {G : GJson} {T : GoText}.

(** One call of [wrapHandler]: its arguments and the clock during it. *)
Record Exchange := {
  exClock : Clock;
  exModelID : string;
  exWriter : W;
  exRequest : Request;
  exNext : string -> Request -> HandlerRun W;
}.

(** Calls of [wrapHandler] on one monitor, one after the other. *)
Fixpoint wrapHandlerAll (mp : metricsMonitor) (xs : list Exchange)
  : option metricsMonitor :=
  match xs with
  | [] => Some mp
  | x :: xs' =>
      out ← wrapHandler mp (exClock x) (exModelID x) (exWriter x)
              (exRequest x) (exNext x);
      wrapHandlerAll (monitor out) xs'
  end.

(** The time of the first [Write] among the calls; the zero time when there
    is none. *)
Fixpoint firstWriteTime (cs : list (WriterCall W)) : Go.Time :=
  match cs with
  | [] => 0
  | CallWrite now _ :: _ => now
  | _ :: cs' => firstWriteTime cs'
  end.

Definition writeTimes (cs : list (WriterCall W)) : list Go.Time :=
  omap (fun c => match c with CallWrite now _ => Some now | _ => None end) cs.

End Exchanges.

Arguments Exchange W : clear implicits.

(** ** Package [config]: the request filters *)

Module Filters.

(** [strings.Split(s, sep)] for a separator of one byte. *)
Fixpoint Split (s : string) (sep : ascii) : list string :=
  match s with
  | EmptyString => [EmptyString]
  | String c s' =>
      if Ascii.eqb c sep then EmptyString :: Split s' sep
      else match Split s' sep with
           | h :: t => String c h :: t
           | [] => [String c EmptyString]
           end
  end.

(** The order of [slices.Sort] on strings: byte by byte. *)
Definition stringLe (a b : string) : Prop := Is_true (String.leb a b).

#[global] Instance stringLe_dec (a b : string) : Decision (stringLe a b) :=
  Is_true_dec (String.leb a b).

(** [slices.Sort]: the sorted arrangement of the slice. *)
Definition Sort (l : list string) : list string := merge_sort stringLe l.

(** What decoding the YAML node gives at the two struct types
    [UnmarshalYAML] asks for: the filters under [stripParams], and the legacy
    struct under [strip_params]. *)
Record Node := {
  decodeFilters : Config.ModelFilters -> Config.ModelFilters * option Go.error;
  decodeLegacy : string -> string * option Go.error;
}.

Definition errLegacy (legacyErr : Go.error) : Go.error :=
  "failed to unmarshal legacy filters.strip_params: " +:+ legacyErr.

(** [ModelFilters.UnmarshalYAML]: the new value of the receiver and the
    returned error. *)
Definition UnmarshalYAML (m : Config.ModelFilters) (unmarshal : Node)
  : Config.ModelFilters * option Go.error :=
  let defaults := {| Config.StripParams := "" |} in
  let '(defaults, err) := decodeFilters unmarshal defaults in
  match err with
  | Some e => (m, Some e)
  | None =>
      (* the old field name, for backwards compatibility *)
      if String.eqb (Config.StripParams defaults) "" then
        let '(legacy, legacyErr) := decodeLegacy unmarshal "" in
        match legacyErr with
        | Some e => (m, Some (errLegacy e))
        | None => ({| Config.StripParams := legacy |}, None)
        end
      else (defaults, None)
  end.

Section Sanitize.
Context {T : GoText}.

(** [strings.TrimSpace]: [bytes.TrimSpace] on the bytes of the string. *)
Definition TrimSpaceString (s : string) : string :=
  String.string_of_list_byte (TrimSpace (String.list_byte_of_string s)).

(** The loop of [SanitizedStripParams] over the remaining [params]. *)
Fixpoint cleanLoop (params : list string) (cleaned : list string)
    (seen : gmap string bool) : list string :=
  match params with
  | [] => cleaned
  | param :: params' =>
      let trimmed := TrimSpaceString param in
      if String.eqb trimmed "model" || String.eqb trimmed ""
         || default false (seen !! trimmed)
      then cleanLoop params' cleaned seen
      else cleanLoop params' (cleaned ++ [trimmed]) (<[trimmed := true]> seen)
  end.

(** [SanitizedStripParams]; the nil slice is the empty list. *)
Definition SanitizedStripParams (f : Config.ModelFilters)
  : list string * option Go.error :=
  if String.eqb (Config.StripParams f) "" then ([], None)
  else
    let params := Split (Config.StripParams f) "," in
    let cleaned := cleanLoop params [] ∅ in
    (Sort cleaned, None).

End Sanitize.

End Filters.

(** ** The handler on the client's writer itself *)

Section Direct.
Context {W : Type} {RW : ResponseWriter W}.

(** The call [c] made on the underlying writer, without the copier. *)
Definition doCallDirect (w : W) (c : WriterCall W) : W :=
  match c with
  | CallHeaderSet k v => rwHeaderSet w k v
  | CallWriteHeader statusCode => rwWriteHeader w statusCode
  | CallWrite _ b => fst (rwWrite w b)
  | CallPromoted method => method w
  end.

End Direct.

(* ================================================================== *)
(** * Part II: properties                                              *)
(* ================================================================== *)


(** ** Go integers and slices *)

Lemma wrap_small (z : Z) : Go.min_int <= z <= Go.max_int -> Go.wrap z = z.
Proof.
  unfold Go.wrap, Go.min_int, Go.max_int. intros Hz.
  rewrite Z.mod_small by lia. lia.
Qed.

Lemma len_app {A} (a b : list A) : Go.len (a ++ b) = Go.len a + Go.len b.
Proof. unfold Go.len. rewrite length_app. lia. Qed.

Lemma len_nonneg {A} (a : list A) : 0 <= Go.len a.
Proof. unfold Go.len. lia. Qed.

Lemma slice_Some {A} (s : list A) (lo hi : Z) :
  0 <= lo -> lo <= hi -> hi <= Go.len s ->
  Go.slice s lo hi = Some (take (Z.to_nat (hi - lo)) (drop (Z.to_nat lo) s)).
Proof.
  intros H0 H1 H2. unfold Go.slice.
  rewrite (proj2 (Z.leb_le _ _) H0), (proj2 (Z.leb_le _ _) H1),
    (proj2 (Z.leb_le _ _) H2). reflexivity.
Qed.

Lemma slice_from_Some {A} (s : list A) (lo : Z) :
  0 <= lo <= Go.len s -> Go.slice_from s lo = Some (drop (Z.to_nat lo) s).
Proof.
  intros [H0 H1]. unfold Go.slice_from. rewrite slice_Some by lia.
  f_equal. apply take_ge. rewrite length_drop. unfold Go.len in *. lia.
Qed.

Lemma slice_from_None {A} (s : list A) (lo : Z) :
  lo < 0 \/ Go.len s < lo -> Go.slice_from s lo = None.
Proof.
  intros H. unfold Go.slice_from, Go.slice.
  destruct (0 <=? lo) eqn:E0; [|reflexivity].
  destruct (lo <=? Go.len s) eqn:E1; [|reflexivity].
  apply Z.leb_le in E0, E1. lia.
Qed.

(** ** The ring of metrics *)

Lemma lastn_length {A} (n : nat) (l : list A) :
  length (lastn n l) = Nat.min n (length l).
Proof. unfold lastn. rewrite length_drop. lia. Qed.

Lemma lastn_all {A} (n : nat) (l : list A) :
  (length l <= n)%nat -> lastn n l = l.
Proof.
  intros H. unfold lastn. replace (length l - n)%nat with 0%nat by lia.
  reflexivity.
Qed.

Lemma lastn_lastn_app {A} (n : nat) (a b : list A) :
  lastn n (lastn n a ++ b) = lastn n (a ++ b).
Proof.
  destruct (decide (length a <= n)%nat) as [Hle|Hgt].
  - rewrite (lastn_all n a) by exact Hle. reflexivity.
  - unfold lastn at 1 3. rewrite !length_app, lastn_length.
    unfold lastn. rewrite !drop_app, !drop_drop, !length_drop.
    f_equal; f_equal; lia.
Qed.

Lemma stamp_length (i : Z) (ms : list TokenMetrics) :
  length (stamp i ms) = length ms.
Proof. revert i. induction ms as [|m ms IH]; intros i; simpl; auto. Qed.

Lemma stamp_IDs (i : Z) (ms : list TokenMetrics) :
  ID <$> stamp i ms = seqZ i (Go.len ms).
Proof.
  revert i. induction ms as [|m ms IH]; intros i.
  - reflexivity.
  - unfold Go.len. cbn [stamp fmap list_fmap length].
    rewrite seqZ_cons by lia. cbn [ID set_ID]. f_equal.
    change (list_fmap _ _ ID (stamp (i + 1) ms)) with (ID <$> stamp (i + 1) ms).
    rewrite IH. unfold Go.len. f_equal; lia.
Qed.

Lemma seqZ_sorted (m n : Z) : StronglySorted Z.lt (seqZ m n).
Proof.
  destruct (decide (n <= 0)) as [Hn|Hn].
  - rewrite seqZ_nil by exact Hn. constructor.
  - rewrite <- (Z2Nat.id n) by lia. generalize (Z.to_nat n) as k.
    intros k. revert m. induction k as [|k IH]; intros m.
    + constructor.
    + rewrite seqZ_cons by lia. constructor.
      * replace (Z.pred (Z.of_nat (S k))) with (Z.of_nat k) by lia. apply IH.
      * apply Forall_seqZ. lia.
Qed.

Lemma drop_seqZ (k : nat) (m n : Z) :
  Z.of_nat k <= n -> drop k (seqZ m n) = seqZ (m + Z.of_nat k) (n - Z.of_nat k).
Proof.
  intros Hk. replace n with (Z.of_nat k + (n - Z.of_nat k)) at 1 by lia.
  rewrite seqZ_app by lia. apply drop_app_length'.
  rewrite length_seqZ. lia.
Qed.

(** One insertion into a well-formed monitor: the new record takes the next
    ID and, at capacity, the oldest record makes room for it. *)
Lemma addMetrics_total (mp : metricsMonitor) (m : TokenMetrics) :
  wellFormed mp ->
  exists mp',
    addMetrics mp m = Some mp'
    /\ wellFormed mp'
    /\ metrics mp' =
         lastn (Z.to_nat (maxMetrics mp)) (metrics mp ++ [set_ID (nextID mp) m])
    /\ maxMetrics mp' = maxMetrics mp
    /\ nextID mp' = Go.wrap (nextID mp + 1)
    /\ logger mp' = logger mp
    /\ emitted mp' = emitted mp ++ [{| Metrics := set_ID (nextID mp) m |}].
Proof.
  intros [Hcap Hfit]. unfold addMetrics.
  set (appended := metrics mp ++ [set_ID (nextID mp) m]).
  assert (Happ : Go.len appended = Go.len (metrics mp) + 1)
    by (unfold appended; rewrite len_app; reflexivity).
  assert (Hmax : Go.max_int = 2 ^ 63 - 1) by reflexivity.
  assert (Hmin : Go.min_int = - 2 ^ 63) by reflexivity.
  pose proof (len_nonneg (metrics mp)) as Hnn.
  assert (Hkept : (if maxMetrics mp <? Go.len appended
                   then Go.slice_from appended
                          (Go.wrap (Go.len appended - maxMetrics mp))
                   else Some appended)
                  = Some (lastn (Z.to_nat (maxMetrics mp)) appended)).
  { destruct (maxMetrics mp <? Go.len appended) eqn:E.
    - apply Z.ltb_lt in E.
      rewrite (wrap_small (Go.len appended - maxMetrics mp)) by lia.
      rewrite slice_from_Some by lia.
      unfold lastn. do 2 f_equal. unfold Go.len in *. lia.
    - apply Z.ltb_ge in E. f_equal. symmetry. apply lastn_all.
      unfold Go.len in *. lia. }
  rewrite Hkept. cbn [mbind option_bind]. eexists. split; [reflexivity|].
  cbn [metrics maxMetrics nextID logger emitted].
  split; [split; [exact Hcap|]|repeat split; reflexivity].
  cbn [metrics maxMetrics]. unfold Go.len in *. rewrite lastn_length. lia.
Qed.

Lemma addMetrics_step (mp : metricsMonitor) (m : TokenMetrics) :
  wellFormed mp ->
  0 <= nextID mp < Go.max_int ->
  exists mp',
    addMetrics mp m = Some mp'
    /\ metrics mp' =
         lastn (Z.to_nat (maxMetrics mp)) (metrics mp ++ [set_ID (nextID mp) m])
    /\ maxMetrics mp' = maxMetrics mp
    /\ nextID mp' = nextID mp + 1
    /\ logger mp' = logger mp.
Proof.
  intros Hwf Hid.
  destruct (addMetrics_total mp m Hwf) as (mp' & E & _ & Hm & Hc & Hn & Hg & _).
  exists mp'. rewrite wrap_small in Hn
    by (unfold Go.min_int, Go.max_int in *; lia).
  repeat split; assumption.
Qed.

Lemma addMetricsAll_spec (ms : list TokenMetrics) :
  forall mp : metricsMonitor,
    0 <= maxMetrics mp ->
    0 <= nextID mp ->
    nextID mp + Go.len ms <= Go.max_int ->
    Go.len (metrics mp) <= nextID mp ->
    Go.len (metrics mp) <= maxMetrics mp ->
    exists mp',
      addMetricsAll mp ms = Some mp'
      /\ metrics mp' =
           lastn (Z.to_nat (maxMetrics mp)) (metrics mp ++ stamp (nextID mp) ms)
      /\ maxMetrics mp' = maxMetrics mp
      /\ nextID mp' = nextID mp + Go.len ms
      /\ logger mp' = logger mp.
Proof.
  induction ms as [|m ms IH]; intros mp Hcap Hid Hsum Hlen Hfit.
  - exists mp. cbn [addMetricsAll stamp]. rewrite app_nil_r.
    repeat split; try reflexivity.
    + symmetry. apply lastn_all. unfold Go.len in *. lia.
    + unfold Go.len. cbn. lia.
  - assert (Hl : Go.len (m :: ms) = 1 + Go.len ms)
      by (unfold Go.len; cbn [length]; lia).
    pose proof (len_nonneg ms) as Hms.
    destruct (addMetrics_step mp m) as (mp1 & E1 & Hm1 & Hc1 & Hn1 & Hg1);
      [split; lia | lia |].
    cbn [addMetricsAll]. rewrite E1. cbn [mbind option_bind].
    destruct (IH mp1) as (mp' & E' & Hm' & Hc' & Hn' & Hg').
    + lia.
    + lia.
    + lia.
    + rewrite Hm1, Hn1. unfold Go.len. rewrite lastn_length, length_app.
      cbn [length]. unfold Go.len in Hlen. lia.
    + rewrite Hm1, Hc1. unfold Go.len. rewrite lastn_length. lia.
    + exists mp'. split; [exact E'|]. rewrite Hm', Hc', Hn', Hg', Hc1, Hm1, Hn1.
      repeat split; try reflexivity; try lia; try exact Hg1.
      rewrite lastn_lastn_app. cbn [stamp]. rewrite <- app_assoc.
      reflexivity.
Qed.

(** C1.  From a fresh monitor of capacity [cap >= 0], any sequence [ms] of
    [addMetrics] calls (short enough for the ID counter not to wrap around)
    succeeds; the k-th inserted record carries ID k (IDs start at 0); what
    the monitor retains is exactly the last [min cap (length ms)] inserted
    records, the oldest having been evicted first; so the stored count never
    exceeds [cap] and the stored IDs are consecutive, hence strictly
    increasing. *)
Theorem addMetrics_ring (lg : LogMonitor) (cap : Z) (ms : list TokenMetrics) :
  0 <= cap ->
  Go.len ms <= Go.max_int ->
  exists mp,
    addMetricsAll (newMetricsMonitor lg cap) ms = Some mp
    /\ getMetrics mp = lastn (Z.to_nat cap) (stamp 0 ms)
    /\ Go.len (getMetrics mp) <= cap
    /\ ID <$> getMetrics mp =
         seqZ (Go.len ms - Go.len (getMetrics mp)) (Go.len (getMetrics mp))
    /\ StronglySorted Z.lt (ID <$> getMetrics mp)
    /\ nextID mp = Go.len ms.
Proof.
  intros Hcap Hlen.
  destruct (addMetricsAll_spec ms (newMetricsMonitor lg cap))
    as (mp & E & Hm & Hc & Hn & _);
    cbn [newMetricsMonitor maxMetrics nextID metrics];
    try (change (Go.len (@nil TokenMetrics)) with 0); try lia.
  cbn [newMetricsMonitor maxMetrics nextID metrics app] in Hm, Hn.
  rewrite Z.add_0_l in Hn. unfold getMetrics.
  assert (HIDs : ID <$> metrics mp =
            seqZ (Go.len ms - Go.len (metrics mp)) (Go.len (metrics mp))).
  { rewrite Hm. unfold lastn at 1. rewrite fmap_drop, stamp_IDs, stamp_length.
    rewrite drop_seqZ by (unfold Go.len; lia).
    unfold Go.len. rewrite lastn_length, stamp_length. f_equal; lia. }
  exists mp. repeat split.
  - exact E.
  - exact Hm.
  - rewrite Hm. unfold Go.len. rewrite lastn_length. lia.
  - exact HIDs.
  - rewrite HIDs. apply seqZ_sorted.
  - exact Hn.
Qed.

Lemma addMetrics_ring_witness :
  exists mp,
    addMetricsAll (newMetricsMonitor [] 3)
      (replicate 5 Reference.blank) = Some mp
    /\ ID <$> getMetrics mp = [2; 3; 4].
Proof.
  destruct (addMetrics_ring [] 3
              (replicate 5 Reference.blank))
    as (mp & E & Hm & _); [lia | vm_compute; discriminate |].
  exists mp. split; [exact E|]. rewrite Hm. reflexivity.
Defined.

(** A negative capacity makes the very first insertion panic. *)
Lemma addMetrics_negative_capacity (lg : LogMonitor) (cap : Z) (m : TokenMetrics) :
  Go.min_int <= cap < 0 -> addMetrics (newMetricsMonitor lg cap) m = None.
Proof.
  intros Hc. unfold addMetrics. cbn [metrics maxMetrics newMetricsMonitor app].
  change (Go.len [set_ID (nextID (newMetricsMonitor lg cap)) m]) with 1.
  destruct (cap <? 1) eqn:E; [|apply Z.ltb_ge in E; lia].
  rewrite slice_from_None; [reflexivity|].
  change (Go.len _) with 1. unfold Go.wrap, Go.min_int in *.
  destruct (decide (1 - cap < 2 ^ 63)).
  - rewrite Z.mod_small by lia. lia.
  - left. replace (1 - cap + 2 ^ 63) with ((1 - cap - 2 ^ 63) + 1 * 2 ^ 64) by lia.
    rewrite Z.mod_add by lia. rewrite Z.mod_small by lia. lia.
Qed.

(** ** [parseMetrics] *)

Section ParseMetrics.
Context {G : GJson} {T : GoText}.

(** With a [timings] object. *)
Lemma parseMetrics_timings_eq (clk : Clock) (modelID : string)
    (start : Go.Time) (usage timings : Result) :
  Exists timings = true ->
  parseMetrics clk modelID start usage timings
  = Ok {| ID := 0;
          Timestamp := stampNow clk;
          Model := modelID;
          CachedTokens :=
            if Exists (Get timings "cache_n")
            then Int (Get timings "cache_n")
            else if Exists usage && Exists (Get usage "cache_read_input_tokens")
                 then Int (Get usage "cache_read_input_tokens")
                 else -1;
          InputTokens := Int (Get timings "prompt_n");
          OutputTokens := Int (Get timings "predicted_n");
          PromptPerSecond := Float (Get timings "prompt_per_second");
          TokensPerSecond :=
            (let durationMs :=
               Go.int_of_float64 (Float (Get timings "prompt_ms")
                                  + Float (Get timings "predicted_ms"))%float in
             if (Float (Get timings "predicted_per_second") =? -1)%float
                && (0 <? Int (Get timings "predicted_n")) && (0 <? durationMs)
             then tokensPerSecondOf (Int (Get timings "predicted_n")) durationMs
             else Float (Get timings "predicted_per_second"));
          DurationMs :=
            Go.int_of_float64 (Float (Get timings "prompt_ms")
                               + Float (Get timings "predicted_ms"))%float |}.
Proof.
  intros Ht. unfold parseMetrics. rewrite Ht.
  destruct (Exists usage); cbv beta iota zeta; cbn [andb];
    [destruct (Exists (Get usage "cache_read_input_tokens"))|]; reflexivity.
Qed.

(** Without a [timings] object. *)
Lemma parseMetrics_no_timings_eq (clk : Clock) (modelID : string)
    (start : Go.Time) (usage timings : Result) :
  Exists timings = false ->
  exists inputTokens outputTokens cachedTokens,
    parseMetrics clk modelID start usage timings
    = Ok {| ID := 0;
            Timestamp := stampNow clk;
            Model := modelID;
            CachedTokens := cachedTokens;
            InputTokens := inputTokens;
            OutputTokens := outputTokens;
            PromptPerSecond := -1;
            TokensPerSecond :=
              (let durationMs :=
                 Go.Milliseconds (Go.Since (sinceNow clk) start) in
               if (0 <? outputTokens) && (0 <? durationMs)
               then tokensPerSecondOf outputTokens durationMs
               else -1);
            DurationMs := Go.Milliseconds (Go.Since (sinceNow clk) start) |}
    /\ (missing usage "cache_read_input_tokens" -> cachedTokens = -1)
    /\ (missing usage "prompt_tokens" -> missing usage "input_tokens" ->
        inputTokens = 0)
    /\ (missing usage "completion_tokens" -> missing usage "output_tokens" ->
        outputTokens = 0).
Proof.
  intros Ht. unfold parseMetrics, missing. rewrite Ht.
  destruct (Exists usage) eqn:Eu; cbv beta iota zeta;
    change (PrimFloat.eqb (-1) (-1)) with true; cbn [andb];
    do 3 eexists; (split; [reflexivity|]);
    (repeat split);
    repeat (let H := fresh in intros [H|H]; [try discriminate H|rewrite ?H]);
    reflexivity.
Qed.

(** [parseMetrics] never fails. *)
Lemma parseMetrics_Ok (clk : Clock) (modelID : string) (start : Go.Time)
    (usage timings : Result) :
  exists tm, parseMetrics clk modelID start usage timings = Ok tm
             /\ ID tm = 0 /\ Model tm = modelID /\ Timestamp tm = stampNow clk.
Proof.
  destruct (Exists timings) eqn:Et.
  - rewrite (parseMetrics_timings_eq _ _ _ _ _ Et).
    eexists. repeat split.
  - destruct (parseMetrics_no_timings_eq clk modelID start usage timings Et)
      as (i & o & c & -> & _).
    eexists. repeat split.
Qed.

(** C4, as amended.  When the [timings] object exists, the token counts, the
    prompt rate and the duration are read from it, whatever [usage] holds,
    and so is the cached count when [cache_n] exists.  The output rate is
    [predicted_per_second], unless that number is the sentinel [-1.0] while
    [predicted_n] and the duration are positive: it is then recomputed from
    these two. *)
Theorem parseMetrics_timings (clk : Clock) (modelID : string)
    (start : Go.Time) (usage timings : Result) :
  Exists timings = true ->
  exists tm,
    parseMetrics clk modelID start usage timings = Ok tm
    /\ InputTokens tm = Int (Get timings "prompt_n")
    /\ OutputTokens tm = Int (Get timings "predicted_n")
    /\ PromptPerSecond tm = Float (Get timings "prompt_per_second")
    /\ DurationMs tm =
         Go.int_of_float64 (Float (Get timings "prompt_ms")
                            + Float (Get timings "predicted_ms"))%float
    /\ (Exists (Get timings "cache_n") = true ->
        CachedTokens tm = Int (Get timings "cache_n"))
    /\ TokensPerSecond tm =
         (if (Float (Get timings "predicted_per_second") =? -1)%float
             && (0 <? OutputTokens tm) && (0 <? DurationMs tm)
          then tokensPerSecondOf (OutputTokens tm) (DurationMs tm)
          else Float (Get timings "predicted_per_second"))
    /\ ((Float (Get timings "predicted_per_second") =? -1)%float = false ->
        TokensPerSecond tm = Float (Get timings "predicted_per_second")).
Proof.
  intros Ht. rewrite (parseMetrics_timings_eq _ _ _ _ _ Ht).
  eexists. split; [reflexivity|].
  cbn [InputTokens OutputTokens PromptPerSecond DurationMs CachedTokens
       TokensPerSecond].
  repeat split; try reflexivity; intros Hc; rewrite Hc; reflexivity.
Qed.

(** C5.  When the [timings] object is absent, [DurationMs] is the number of
    milliseconds elapsed since the start of the request, and
    [TokensPerSecond] is the quotient [OutputTokens / (DurationMs / 1000)]
    exactly when both are positive; otherwise it stays [-1.0].  The quotient
    is thus never formed with [DurationMs = 0]. *)
Theorem parseMetrics_no_timings (clk : Clock) (modelID : string)
    (start : Go.Time) (usage timings : Result) :
  Exists timings = false ->
  exists tm,
    parseMetrics clk modelID start usage timings = Ok tm
    /\ DurationMs tm = Go.Milliseconds (Go.Since (sinceNow clk) start)
    /\ TokensPerSecond tm =
         (if (0 <? OutputTokens tm) && (0 <? DurationMs tm)
          then tokensPerSecondOf (OutputTokens tm) (DurationMs tm)
          else (-1)%float)
    /\ (OutputTokens tm <= 0 \/ DurationMs tm <= 0 ->
        TokensPerSecond tm = (-1)%float)
    /\ (TokensPerSecond tm <> (-1)%float ->
        0 < OutputTokens tm /\ 0 < DurationMs tm /\ DurationMs tm <> 0).
Proof.
  intros Ht.
  destruct (parseMetrics_no_timings_eq clk modelID start usage timings Ht)
    as (i & o & c & -> & _).
  eexists. split; [reflexivity|].
  cbn [OutputTokens DurationMs TokensPerSecond]. cbv zeta.
  split; [reflexivity|]. split; [reflexivity|].
  set (d := Go.Milliseconds (Go.Since (sinceNow clk) start)).
  destruct (0 <? o) eqn:Eo; destruct (0 <? d) eqn:Ed; cbn [andb];
    try apply Z.ltb_lt in Eo; try apply Z.ltb_ge in Eo;
    try apply Z.ltb_lt in Ed; try apply Z.ltb_ge in Ed;
    (split; [intros; try reflexivity; lia
            | intros Hne; try lia; exfalso; apply Hne; reflexivity]).
Qed.

End ParseMetrics.

Lemma parseMetrics_no_timings_witness :
  exists tm,
    parseMetrics (G := Reference.gjson) (Reference.clock 2000) "m"
      (startNow (Reference.clock 2000))
      (ParseBytes (Reference.quoted "{'completion_tokens':20}")) zeroResult
      = Ok tm
    /\ DurationMs tm = 2000 /\ TokensPerSecond tm = 10%float.
Proof.
  destruct (parseMetrics_no_timings (G := Reference.gjson)
              (Reference.clock 2000) "m" (startNow (Reference.clock 2000))
              (ParseBytes (Reference.quoted "{'completion_tokens':20}"))
              zeroResult)
    as (tm & E & Hd & Ht & _); [reflexivity|].
  exists tm. split; [exact E|]. split; [rewrite Hd; reflexivity|].
  rewrite Ht. vm_compute in E. injection E as <-. reflexivity.
Defined.


Section Defaults.
Context {G : GJson} {T : GoText}.
Hypothesis laws : GJsonLaws G.

(** C6, as amended.  A recorded metric has [CachedTokens = -1] when neither
    [usage.cache_read_input_tokens] nor [timings.cache_n] exists; a token
    count is [0] when the response has none of its keys; [PromptPerSecond] is
    [-1.0] when the [timings] object is absent; and [TokensPerSecond] is
    [-1.0] when the [timings] object is absent and [OutputTokens] or
    [DurationMs] is not positive (when both are positive it is computed from
    them). *)
Theorem parseMetrics_defaults (clk : Clock) (modelID : string)
    (start : Go.Time) (usage timings : Result) :
  exists tm,
    parseMetrics clk modelID start usage timings = Ok tm
    /\ (missing usage "cache_read_input_tokens" -> missing timings "cache_n" ->
        CachedTokens tm = -1)
    /\ (missing usage "prompt_tokens" -> missing usage "input_tokens" ->
        missing timings "prompt_n" -> InputTokens tm = 0)
    /\ (missing usage "completion_tokens" -> missing usage "output_tokens" ->
        missing timings "predicted_n" -> OutputTokens tm = 0)
    /\ (Exists timings = false -> PromptPerSecond tm = (-1)%float)
    /\ (Exists timings = false ->
        OutputTokens tm <= 0 \/ DurationMs tm <= 0 ->
        TokensPerSecond tm = (-1)%float).
Proof.
  destruct (Exists timings) eqn:Et.
  - rewrite (parseMetrics_timings_eq _ _ _ _ _ Et).
    eexists. split; [reflexivity|].
    cbn [CachedTokens InputTokens OutputTokens PromptPerSecond].
    split; [|split; [|split; [|split; intros; discriminate]]].
    + intros Hu [Hm|Hm]; [congruence|]. rewrite Hm.
      destruct Hu as [-> | ->]; [reflexivity|].
      rewrite andb_false_r. reflexivity.
    + intros _ _ [Hm|Hm]; [congruence|].
      apply (Int_missing G laws). exact Hm.
    + intros _ _ [Hm|Hm]; [congruence|].
      apply (Int_missing G laws). exact Hm.
  - destruct (parseMetrics_no_timings_eq clk modelID start usage timings Et)
      as (i & o & c & -> & Hc & Hi & Ho).
    eexists. split; [reflexivity|].
    cbn [CachedTokens InputTokens OutputTokens PromptPerSecond
         TokensPerSecond DurationMs]. cbv zeta.
    split; [intros Hu _; exact (Hc Hu)|].
    split; [intros H1 H2 _; exact (Hi H1 H2)|].
    split; [intros H1 H2 _; exact (Ho H1 H2)|].
    split; [reflexivity|]. intros _ Hz.
    set (d := Go.Milliseconds (Go.Since (sinceNow clk) start)) in *.
    destruct (0 <? o) eqn:Eo; destruct (0 <? d) eqn:Ed; cbn [andb];
      try reflexivity.
    apply Z.ltb_lt in Eo, Ed. lia.
Qed.

End Defaults.

(** The reference reader of JSON satisfies the laws asked of [gjson]. *)
Lemma Reference_gjson_laws : GJsonLaws Reference.gjson.
Proof.
  split.
  - reflexivity.
  - intros [v|]; [discriminate|reflexivity].
  - intros [v|]; [discriminate|reflexivity].
Qed.

Lemma Reference_text_laws : GoTextLaws Reference.text.
Proof. split. reflexivity. Qed.

Lemma parseMetrics_defaults_witness :
  exists tm,
    parseMetrics (G := Reference.gjson) (Reference.clock 0) "m"
      (startNow (Reference.clock 0))
      zeroResult (ParseBytes (Reference.quoted "{'prompt_n':7}")) = Ok tm
    /\ CachedTokens tm = -1 /\ OutputTokens tm = 0.
Proof.
  destruct (parseMetrics_defaults (G := Reference.gjson) Reference_gjson_laws
              (Reference.clock 0) "m" (startNow (Reference.clock 0))
              zeroResult (ParseBytes (Reference.quoted "{'prompt_n':7}")))
    as (tm & E & Hc & _ & Ho & _).
  exists tm. split; [exact E|]. split.
  - apply Hc; [left|right]; reflexivity.
  - apply Ho; [left|left|right]; reflexivity.
Defined.

(** C6 as stated fails.  The body
    [{"usage":{"prompt_tokens":10,"completion_tokens":20}}], read two seconds
    after the request started, has no [timings] object and no rate in
    [usage], and yet the recorded [TokensPerSecond] is [10], not [-1.0]. *)
Lemma parseMetrics_defaults_counterexample :
  let response :=
    ParseBytes (GJson := Reference.gjson)
      (Reference.quoted "{'usage':{'prompt_tokens':10,'completion_tokens':20}}") in
  let usage := Get response "usage" in
  let timings := Get response "timings" in
  Exists timings = false
  /\ Exists (Get usage "predicted_per_second") = false
  /\ Exists (Get usage "tokens_per_second") = false
  /\ exists tm,
       parseMetrics (Reference.clock 2000) "m" (startNow (Reference.clock 2000))
         usage timings = Ok tm
       /\ TokensPerSecond tm = 10%float
       /\ TokensPerSecond tm <> (-1)%float.
Proof.
  cbv zeta. repeat split; try reflexivity.
  eexists. split; [vm_compute; reflexivity|].
  cbn [TokensPerSecond]. split; [reflexivity|discriminate].
Qed.

(** A [timings] object that exists but has no rates yields the rates [0],
    not [-1.0]. *)
Example parseMetrics_empty_timings :
  exists tm,
    parseMetrics (G := Reference.gjson) (Reference.clock 5) "m"
      (startNow (Reference.clock 5)) zeroResult
      (ParseBytes (Reference.quoted "{}")) = Ok tm
    /\ PromptPerSecond tm = 0%float /\ TokensPerSecond tm = 0%float
    /\ InputTokens tm = 0 /\ OutputTokens tm = 0 /\ CachedTokens tm = -1
    /\ DurationMs tm = 0.
Proof. eexists. split; [vm_compute; reflexivity|]. repeat split. Qed.

(** C4 as stated fails.  With the [timings] object
    [{"predicted_n":10,"predicted_per_second":-1.0,"prompt_ms":500.0,
    "predicted_ms":500.0}] the recorded [TokensPerSecond] is [10], not the
    [predicted_per_second] of the object. *)
Lemma parseMetrics_timings_counterexample :
  let timings :=
    ParseBytes (GJson := Reference.gjson)
      (Reference.quoted
         "{'predicted_n':10,'predicted_per_second':-1.0,'prompt_ms':500.0,'predicted_ms':500.0}") in
  Exists timings = true
  /\ Float (Get timings "predicted_per_second") = (-1)%float
  /\ exists tm,
       parseMetrics (Reference.clock 3) "m" (startNow (Reference.clock 3))
         zeroResult timings = Ok tm
       /\ TokensPerSecond tm = 10%float
       /\ TokensPerSecond tm <> Float (Get timings "predicted_per_second").
Proof.
  cbv zeta. repeat split; try reflexivity.
  eexists. split; [vm_compute; reflexivity|].
  cbn [TokensPerSecond]. split; [reflexivity|vm_compute; discriminate].
Qed.

Lemma parseMetrics_timings_witness :
  exists tm,
    parseMetrics (G := Reference.gjson) (Reference.clock 3) "m"
      (startNow (Reference.clock 3))
      (ParseBytes (Reference.quoted "{'prompt_tokens':50,'completion_tokens':25}"))
      (ParseBytes (Reference.quoted
         "{'prompt_n':100,'predicted_n':50,'prompt_per_second':150.5,'predicted_per_second':25.5,'prompt_ms':500.0,'predicted_ms':1500.0}"))
      = Ok tm
    /\ InputTokens tm = 100 /\ OutputTokens tm = 50
    /\ PromptPerSecond tm = 150.5%float /\ TokensPerSecond tm = 25.5%float
    /\ DurationMs tm = 2000 /\ CachedTokens tm = -1.
Proof.
  destruct (parseMetrics_timings (G := Reference.gjson)
      (Reference.clock 3) "m" (startNow (Reference.clock 3))
      (ParseBytes (Reference.quoted "{'prompt_tokens':50,'completion_tokens':25}"))
      (ParseBytes (Reference.quoted
         "{'prompt_n':100,'predicted_n':50,'prompt_per_second':150.5,'predicted_per_second':25.5,'prompt_ms':500.0,'predicted_ms':1500.0}")))
    as (tm & E & Hi & Ho & Hp & Hd & _ & _ & Ht); [reflexivity|].
  exists tm. split; [exact E|].
  rewrite Hi, Ho, Hp, Hd, Ht by reflexivity.
  repeat split; try reflexivity.
  vm_compute in E. injection E as <-. reflexivity.
Defined.

(** ** Bytes, lines and the backward scan *)

Lemma LastIndexByte_spec (s : bytes) (c : byte) :
  (LastIndexByte s c = -1 /\ (c ∉ s))
  \/ (exists a b, s = a ++ c :: b /\ (c ∉ b) /\ LastIndexByte s c = Go.len a).
Proof.
  induction s as [|x s IH].
  - left. split; [reflexivity|]. apply not_elem_of_nil.
  - cbn [LastIndexByte]. destruct IH as [[Hi Hn]|(a & b & Hs & Hb & Hi)].
    + rewrite Hi. cbn [Z.leb Z.compare].
      destruct (Byte.eqb x c) eqn:E.
      * apply Byte.byte_dec_bl in E. subst x. right.
        exists [], s. split; [reflexivity|split; [exact Hn|reflexivity]].
      * apply Byte.eqb_false in E. left. split; [reflexivity|].
        apply not_elem_of_cons. split; [congruence|exact Hn].
    + rewrite Hi. pose proof (len_nonneg a) as Ha.
      destruct (0 <=? Go.len a) eqn:E; [|apply Z.leb_gt in E; lia].
      right. exists (x :: a), b. subst s.
      split; [reflexivity|split; [exact Hb|]].
      unfold Go.len. cbn [length]. lia.
Qed.

Lemma HasPrefix_length (s prefix : bytes) :
  HasPrefix s prefix = true -> (length prefix <= length s)%nat.
Proof.
  revert s. induction prefix as [|p prefix IH]; intros s H.
  - cbn. lia.
  - destruct s as [|c s]; [discriminate|]. cbn in H.
    apply andb_true_iff in H as [_ H]. apply IH in H. cbn. lia.
Qed.

Lemma lines_not_nil (s : bytes) : lines s <> [].
Proof.
  induction s as [|c s IH]; cbn [lines]; [discriminate|].
  destruct (Byte.eqb c newline); [discriminate|].
  destruct (lines s); [contradiction|discriminate].
Qed.

Lemma lines_no_newline (s : bytes) : newline ∉ s -> lines s = [s].
Proof.
  induction s as [|c s IH]; intros Hn; [reflexivity|].
  apply not_elem_of_cons in Hn as [Hc Hs]. cbn [lines].
  destruct (Byte.eqb c newline) eqn:E.
  - apply Byte.byte_dec_bl in E. congruence.
  - rewrite (IH Hs). reflexivity.
Qed.

Lemma lines_app_newline (a b : bytes) :
  lines (a ++ newline :: b) = lines a ++ lines b.
Proof.
  induction a as [|c a IH].
  - reflexivity.
  - cbn [app lines]. destruct (Byte.eqb c newline).
    + rewrite IH. reflexivity.
    + rewrite IH. pose proof (lines_not_nil a) as Ha.
      destruct (lines a) as [|l ls]; [contradiction|]. reflexivity.
Qed.

Lemma slice_app_middle {A} (a b c : list A) :
  Go.slice (a ++ b ++ c) (Go.len a) (Go.len a + Go.len b) = Some b.
Proof.
  pose proof (len_nonneg a). pose proof (len_nonneg b).
  pose proof (len_nonneg c).
  rewrite slice_Some; rewrite ?len_app; try lia.
  f_equal. unfold Go.len. rewrite Nat2Z.id.
  rewrite drop_app_length.
  apply take_app_length'. lia.
Qed.

Section Streaming.
Context {G : GJson} {T : GoText}.
Hypothesis textLaws : GoTextLaws T.

Lemma dataPayload_nil : dataPayload [] = None.
Proof.
  unfold dataPayload. rewrite (TrimSpace_nil T textLaws). reflexivity.
Qed.

(** One iteration of the loop is one more line, at the end, for the
    specification. *)
Lemma scanLine_spec (clk : Clock) (modelID : string) (start : Go.Time)
    (continue : bool -> option (result TokenMetrics))
    (ls : list bytes) (raw : bytes) (found : bool) :
  (forall f, continue f = Some (specLines clk modelID start f ls)) ->
  scanLine clk modelID start continue raw found
  = Some (specLines clk modelID start found (ls ++ [raw])).
Proof.
  intros Hk. unfold scanLine, specLines.
  rewrite omap_app. cbn [omap list_omap]. unfold dataPayload at 2 4.
  destruct (Go.len (TrimSpace raw) =? 0) eqn:El.
  { apply Z.eqb_eq in El. unfold Go.len in El.
    destruct (TrimSpace raw); [|cbn in El; lia].
    cbn [HasPrefix dataPrefix of_string]. rewrite app_nil_r.
    rewrite Hk. reflexivity. }
  destruct (HasPrefix (TrimSpace raw) dataPrefix) eqn:Ep; cbn [negb];
    [|rewrite app_nil_r, Hk; reflexivity].
  pose proof (HasPrefix_length _ _ Ep) as Hlen.
  rewrite slice_from_Some by (unfold Go.len; lia).
  cbn [mbind option_bind].
  replace (Z.to_nat (Go.len dataPrefix)) with (length dataPrefix)
    by (unfold Go.len; lia).
  set (data := TrimSpace (drop (length dataPrefix) (TrimSpace raw))).
  destruct (Go.len data =? 0); cbn [orb];
    [rewrite app_nil_r, Hk; reflexivity|].
  destruct (Equal data doneMarker);
    [rewrite app_nil_r, Hk; reflexivity|].
  rewrite filter_app, existsb_app. cbn [existsb]. rewrite orb_false_r.
  unfold carriesMetrics at 2 4.
  destruct (ValidBytes data) eqn:Ev; cbn [andb].
  - destruct (Exists (Get (ParseBytes data) "usage")
              || Exists (Get (ParseBytes data) "timings")) eqn:Em.
    + rewrite filter_cons_True by (unfold carriesMetrics; rewrite Ev, Em;
                                   reflexivity).
      rewrite filter_nil, last_snoc. reflexivity.
    + rewrite filter_cons_False by (unfold carriesMetrics; rewrite Ev, Em;
                                    discriminate).
      rewrite filter_nil, app_nil_r, Hk, !orb_true_r. reflexivity.
  - rewrite filter_cons_False by (unfold carriesMetrics; rewrite Ev;
                                  discriminate).
    rewrite filter_nil, app_nil_r, orb_false_r, Hk. reflexivity.
Qed.

(** Past the start of the body the loop is over. *)
Lemma scanBackwards_done (fuel : nat) (clk : Clock) (modelID : string)
    (start : Go.Time) (body : bytes) (pos : Z) (found : bool) :
  pos <= 0 ->
  scanBackwards fuel clk modelID start body pos found
  = Some (specLines clk modelID start found []).
Proof.
  intros Hp. destruct fuel; cbn [scanBackwards];
    (destruct (0 <? pos) eqn:E; [apply Z.ltb_lt in E; lia|]);
    unfold specLines; cbn; rewrite orb_false_r; reflexivity.
Qed.

Lemma specLines_empty_line (clk : Clock) (modelID : string) (start : Go.Time)
    (found : bool) :
  specLines clk modelID start found [[]] = specLines clk modelID start found [].
Proof.
  unfold specLines. cbn [omap list_omap]. rewrite dataPayload_nil. reflexivity.
Qed.

(** The loop, started at the end of the prefix [p] of the body, computes what
    the specification says of the lines of [p]. *)
Lemma scanBackwards_spec (clk : Clock) (modelID : string) (start : Go.Time)
    (fuel : nat) :
  forall (p rest : bytes) (found : bool),
    (length p < fuel)%nat ->
    scanBackwards fuel clk modelID start (p ++ rest) (Go.len p) found
    = Some (specLines clk modelID start found (lines p)).
Proof.
  induction fuel as [|fuel IH]; intros p rest found Hfuel; [lia|].
  destruct p as [|x p'].
  { rewrite scanBackwards_done by (unfold Go.len; cbn; lia).
    cbn [lines]. rewrite specLines_empty_line. reflexivity. }
  set (p := x :: p') in *.
  assert (Hpos : 0 < Go.len p) by (unfold Go.len, p; cbn [length]; lia).
  cbn [scanBackwards]. rewrite (proj2 (Z.ltb_lt _ _) Hpos).
  assert (Hhead : Go.slice_to (p ++ rest) (Go.len p) = Some p).
  { unfold Go.slice_to.
    pose proof (slice_app_middle [] p rest) as Hs.
    cbn [app] in Hs. change (Go.len []) with 0 in Hs.
    rewrite Z.add_0_l in Hs. exact Hs. }
  rewrite Hhead. cbn [mbind option_bind].
  destruct (LastIndexByte_spec p newline) as [[Hi Hn]|(a & b & Hs & Hb & Hi)].
  - rewrite Hi. change (-1 =? -1) with true. cbv iota.
    change (0 - 1) with (-1).
    pose proof (slice_app_middle [] p rest) as Hs.
    cbn [app] in Hs. change (Go.len []) with 0 in Hs.
    rewrite Z.add_0_l in Hs. rewrite Hs. cbn [mbind option_bind].
    rewrite (lines_no_newline p Hn).
    apply (scanLine_spec clk modelID start _ [] p found).
    intros f. apply scanBackwards_done. lia.
  - rewrite Hi. pose proof (len_nonneg a) as Ha.
    destruct (Go.len a =? -1) eqn:E; [apply Z.eqb_eq in E; lia|].
    assert (Hraw : Go.slice (p ++ rest) (Go.len a + 1) (Go.len p) = Some b).
    { rewrite Hs.
      replace ((a ++ newline :: b) ++ rest)
        with ((a ++ [newline]) ++ b ++ rest)
        by (rewrite <- !app_assoc; reflexivity).
      replace (Go.len a + 1) with (Go.len (a ++ [newline]))
        by (rewrite len_app; reflexivity).
      replace (Go.len (a ++ newline :: b))
        with (Go.len (a ++ [newline]) + Go.len b)
        by (rewrite !len_app; unfold Go.len; cbn [length]; lia).
      apply slice_app_middle. }
    rewrite Hraw. cbn [mbind option_bind].
    replace (Go.len a + 1 - 1) with (Go.len a) by lia.
    rewrite Hs at 2. rewrite lines_app_newline, (lines_no_newline b Hb).
    apply (scanLine_spec clk modelID start _ (lines a) b found).
    intros f. rewrite Hs, <- app_assoc. apply IH.
    assert (length p = length a + S (length b))%nat
      by (rewrite Hs, length_app; reflexivity).
    lia.
Qed.

(** [processStreamingResponse] never panics, never runs out of fuel, and
    computes what the specification says of the lines of the body. *)
Lemma processStreamingResponse_spec (clk : Clock) (modelID : string)
    (start : Go.Time) (body : bytes) :
  processStreamingResponse clk modelID start body
  = Some (streamingSpec clk modelID start body).
Proof.
  unfold processStreamingResponse, streamingSpec.
  pose proof (scanBackwards_spec clk modelID start (S (length body))
                body [] false) as H.
  rewrite app_nil_r in H. apply H. lia.
Qed.

End Streaming.

(** ** What the specification's definitions say *)

Section StreamSpecFacts.
Context {G : GJson} {T : GoText}.

Lemma snoc_case {A} (l : list A) : l = [] \/ exists l' y, l = l' ++ [y].
Proof.
  induction l as [|y l' _] using rev_ind; [left|right; exists l', y]; reflexivity.
Qed.

(** The last element of [omap f ls] that satisfies [P] comes from a line
    after which no line yields such an element. *)
Lemma last_filter_omap {A B} (f : A -> option B) (P : B -> bool)
    (ls : list A) (d : B) :
  last (filter (fun x => P x = true) (omap f ls)) = Some d
  <-> exists before line after,
        ls = before ++ line :: after
        /\ f line = Some d
        /\ P d = true
        /\ Forall (fun l => forall d', f l = Some d' -> P d' = false) after.
Proof.
  induction ls as [|x ls IH] using rev_ind.
  - split; [discriminate|].
    intros (before & line & after & E & _). destruct before; discriminate E.
  - rewrite omap_app, filter_app. cbn [omap list_omap].
    destruct (f x) as [d'|] eqn:Ef.
    + destruct (P d') eqn:Ep.
      * rewrite filter_cons_True, filter_nil, last_snoc by exact Ep. split.
        -- intros [= <-]. exists ls, x, []. repeat split; auto.
        -- intros (before & line & after & E & Hf & Hp & Hafter).
           destruct (snoc_case after) as [->|(after' & y & ->)].
           ++ apply app_inj_tail in E as [_ <-]. congruence.
           ++ rewrite app_comm_cons, app_assoc in E.
              apply app_inj_tail in E as [_ <-].
              rewrite Forall_app, Forall_singleton in Hafter.
              destruct Hafter as [_ Hy]. specialize (Hy d' Ef). congruence.
      * rewrite filter_cons_False, filter_nil, app_nil_r by congruence.
        rewrite IH. split.
        -- intros (before & line & after & -> & Hf & Hp & Hafter).
           exists before, line, (after ++ [x]).
           rewrite <- app_assoc. repeat split; auto.
           rewrite Forall_app, Forall_singleton. split; [exact Hafter|].
           intros d'' Hd. congruence.
        -- intros (before & line & after & E & Hf & Hp & Hafter).
           destruct (snoc_case after) as [->|(after' & y & ->)].
           ++ apply app_inj_tail in E as [_ <-]. congruence.
           ++ rewrite app_comm_cons, app_assoc in E.
              apply app_inj_tail in E as [-> <-].
              apply Forall_app in Hafter as [Hafter _].
              exists before, line, after'. repeat split; auto.
    + cbn [filter list_filter]. rewrite app_nil_r, IH. split.
      * intros (before & line & after & -> & Hf & Hp & Hafter).
        exists before, line, (after ++ [x]).
        rewrite <- app_assoc. repeat split; auto.
        rewrite Forall_app, Forall_singleton. split; [exact Hafter|].
        intros d'' Hd. congruence.
      * intros (before & line & after & E & Hf & Hp & Hafter).
        destruct (snoc_case after) as [->|(after' & y & ->)].
        -- apply app_inj_tail in E as [_ <-]. congruence.
        -- rewrite app_comm_cons, app_assoc in E.
           apply app_inj_tail in E as [-> <-].
           apply Forall_app in Hafter as [Hafter _].
           exists before, line, after'. repeat split; auto.
Qed.

(** [lastMetricsPayload] is the payload of the last line of the body whose
    payload is valid JSON with [usage] or [timings]. *)
Lemma lastMetricsPayload_Some (body : bytes) (data : bytes) :
  lastMetricsPayload body = Some data
  <-> exists before line after,
        lines body = before ++ line :: after
        /\ dataPayload line = Some data
        /\ carriesMetrics data = true
        /\ Forall (fun l => forall d, dataPayload l = Some d ->
                            carriesMetrics d = false) after.
Proof. apply last_filter_omap. Qed.

(** [someValidPayload]: some line of the body has a payload that is valid
    JSON. *)
Lemma someValidPayload_true (body : bytes) :
  someValidPayload body = true
  <-> exists line data,
        line ∈ lines body /\ dataPayload line = Some data
        /\ ValidBytes data = true.
Proof.
  unfold someValidPayload, payloads. rewrite existsb_exists. split.
  - intros (data & Hin & Hv). apply list_elem_of_In in Hin.
    apply list_elem_of_omap in Hin as (line & Hl & Hd).
    exists line, data. auto.
  - intros (line & data & Hl & Hd & Hv). exists data. split; [|exact Hv].
    apply list_elem_of_In. apply list_elem_of_omap. exists line. auto.
Qed.

End StreamSpecFacts.

(** ** The response tee *)

Section Tee.
Context {W : Type} {RW : ResponseWriter W}.

(** One [Write]: the underlying writer is handed [b] itself; the buffer
    gains all of [b] when the underlying writer took it, and nothing
    otherwise. *)
Lemma Write_spec (now : Go.Time) (w : responseBodyCopier W) (b : bytes) :
  inner (fst (Write now w b)) = fst (rwWrite (inner w) b)
  /\ requestTime (fst (Write now w b)) = requestTime w
  /\ (snd (rwWrite (inner w) b) = (Go.len b, None) ->
      body (fst (Write now w b)) = body w ++ b
      /\ snd (Write now w b) = (Go.len b, None))
  /\ (snd (rwWrite (inner w) b) <> (Go.len b, None) ->
      body (fst (Write now w b)) = body w
      /\ snd (snd (Write now w b)) <> None).
Proof.
  unfold Write, teeWrite.
  destruct (rwWrite (inner w) b) as [w' [n [e|]]]; cbn [fst snd inner body requestTime].
  - split; [reflexivity|]. split; [reflexivity|].
    split; [intros [= Heq]|intros _; split; [reflexivity|discriminate]].
  - destruct (n =? Go.len b) eqn:E; cbn [negb fst snd inner body requestTime].
    + apply Z.eqb_eq in E. subst n.
      split; [reflexivity|]. split; [reflexivity|].
      split; [intros _; split; reflexivity|].
      intros Hne. contradiction.
    + apply Z.eqb_neq in E.
      split; [reflexivity|]. split; [reflexivity|].
      split; [intros [= Heq]; contradiction|].
      intros _. split; [reflexivity|discriminate].
Qed.

Lemma writeAll_inner (now : Go.Time) (bs : list bytes) :
  forall w : responseBodyCopier W,
    inner (writeAll now w bs) = writeAllDirect (inner w) bs.
Proof.
  induction bs as [|b bs IH]; intros w; [reflexivity|].
  cbn [writeAll writeAllDirect foldl].
  change (foldl _ ?u bs) with (writeAll now u bs) at 1.
  rewrite IH. destruct (Write_spec now w b) as (-> & _). reflexivity.
Qed.

Lemma took_true (r : Z * option Go.error) (p : bytes) :
  took r p = true <-> r = (Go.len p, None).
Proof.
  destruct r as [n [e|]]; unfold took; cbn [fst snd].
  - split; discriminate.
  - rewrite Z.eqb_eq. split; [intros ->; reflexivity|intros [= ->]; reflexivity].
Qed.

(** The buffer holds the chunks the underlying writer took in full. *)
Lemma writeAll_body_taken (now : Go.Time) (bs : list bytes) :
  forall w : responseBodyCopier W,
    body (writeAll now w bs) = body w ++ concat (takenChunks (inner w) bs).
Proof.
  induction bs as [|b bs IH]; intros w.
  - cbn. rewrite app_nil_r. reflexivity.
  - cbn [writeAll foldl takenChunks].
    change (foldl _ ?u bs) with (writeAll now u bs) at 1.
    rewrite IH. destruct (Write_spec now w b) as (-> & _ & Hyes & Hno).
    destruct (took (snd (rwWrite (inner w) b)) b) eqn:E.
    + apply took_true in E. destruct (Hyes E) as [-> _].
      rewrite concat_app. cbn [concat]. rewrite app_nil_r, app_assoc.
      reflexivity.
    + assert (Hne : snd (rwWrite (inner w) b) <> (Go.len b, None)).
      { intros Heq. apply took_true in Heq. congruence. }
      destruct (Hno Hne) as [-> _]. reflexivity.
Qed.

Lemma takenChunks_neverFails (bs : list bytes) :
  neverFails -> forall w : W, takenChunks w bs = bs.
Proof.
  intros Hok. induction bs as [|b bs IH]; intros w; [reflexivity|].
  cbn [takenChunks]. rewrite IH.
  rewrite (proj2 (took_true _ _) (Hok w b)). reflexivity.
Qed.

Lemma writeAll_body (now : Go.Time) (bs : list bytes) :
  neverFails ->
  forall w : responseBodyCopier W,
    body (writeAll now w bs) = body w ++ concat bs.
Proof.
  intros Hok w. rewrite writeAll_body_taken, takenChunks_neverFails by exact Hok.
  reflexivity.
Qed.

(** C8, as amended.  Every chunk written through the tee is handed unchanged
    and in order to the underlying [ResponseWriter]; the copy kept for the
    metrics is made of the chunks that writer took in full, whatever their
    size; so, over a writer that takes what it is given, the copy is all that
    was written: it has no maximum size and nothing is dropped from it. *)
Theorem tee_forwards_and_copies_all (now : Go.Time) (writer : W)
    (requestTime : Go.Time) (bs : list bytes) :
  inner (writeAll now (newBodyCopier writer requestTime) bs)
  = writeAllDirect writer bs
  /\ body (writeAll now (newBodyCopier writer requestTime) bs)
     = concat (takenChunks writer bs)
  /\ (neverFails ->
      body (writeAll now (newBodyCopier writer requestTime) bs) = concat bs).
Proof.
  split; [|split].
  - apply writeAll_inner.
  - rewrite writeAll_body_taken. reflexivity.
  - intros Hok. rewrite writeAll_body by exact Hok. reflexivity.
Qed.

End Tee.

Lemma Reference_recorder_neverFails : neverFails (W := Reference.Recorder).
Proof. intros w b. reflexivity. Qed.

Lemma tee_forwards_and_copies_all_witness :
  body (writeAll 1 (newBodyCopier Reference.newRecorder 0)
          [Reference.quoted "ab"; Reference.quoted "cde"])
  = Reference.quoted "abcde".
Proof.
  rewrite (proj2 (proj2 (tee_forwards_and_copies_all 1 Reference.newRecorder 0
                           [Reference.quoted "ab"; Reference.quoted "cde"]))
             Reference_recorder_neverFails).
  reflexivity.
Defined.

(** C8 as stated fails: no maximum bounds the copy.  Whatever the bound, one
    chunk longer than it is copied whole. *)
Lemma tee_copy_cap_counterexample :
  ~ exists cap : Z,
      forall bs : list bytes,
        Go.len (body (writeAll 1 (newBodyCopier Reference.newRecorder 0) bs))
        <= cap.
Proof.
  intros [cap Hcap].
  specialize (Hcap [replicate (S (Z.to_nat cap)) x00]).
  rewrite writeAll_body in Hcap by exact Reference_recorder_neverFails.
  cbn [body newBodyCopier concat app] in Hcap. rewrite app_nil_r in Hcap.
  unfold Go.len in Hcap. rewrite length_replicate in Hcap. lia.
Qed.

(** ** [wrapHandler] *)

Lemma addMetrics_emitted (mp mp' : metricsMonitor) (tm : TokenMetrics) :
  addMetrics mp tm = Some mp' ->
  emitted mp' = emitted mp ++ [{| Metrics := set_ID (nextID mp) tm |}]
  /\ logger mp' = logger mp.
Proof.
  unfold addMetrics.
  destruct (if maxMetrics mp <? _ then _ else _) as [kept|];
    cbn [mbind option_bind]; [|discriminate].
  intros [= <-]. split; reflexivity.
Qed.

Lemma recordsMetric_emitted (mp mp' : metricsMonitor) :
  recordsMetric mp mp' -> length (emitted mp') = S (length (emitted mp)).
Proof.
  intros [tm Htm]. apply addMetrics_emitted in Htm as [-> _].
  rewrite length_app. cbn [length]. lia.
Qed.

Lemma onlyWarns_warn (mp : metricsMonitor) (msg : LogMessage) :
  onlyWarns mp (warn mp msg).
Proof. exists msg. repeat split. Qed.

Lemma onlyWarns_not_recordsMetric (mp mp' : metricsMonitor) :
  onlyWarns mp mp' -> ~ recordsMetric mp mp'.
Proof.
  intros (msg & _ & _ & _ & _ & He) Hr.
  apply recordsMetric_emitted in Hr. rewrite He in Hr. lia.
Qed.

Section WrapHandler.
Context {W : Type} {RW : ResponseWriter W} {G : GJson} {T : GoText}.

Implicit Types (mp : metricsMonitor) (clk : Clock) (modelID : string)
  (writer : W) (request : Request) (next : string -> Request -> HandlerRun W).

Lemma doCalls_requestTime (cs : list (WriterCall W)) :
  forall w : responseBodyCopier W,
    requestTime (foldl doCall w cs) = requestTime w.
Proof.
  induction cs as [|c cs IH]; intros w; [reflexivity|].
  cbn [foldl]. rewrite IH.
  destruct c; cbn [doCall HeaderSet WriteHeader requestTime]; try reflexivity.
  destruct (Write_spec now w b) as (_ & -> & _). reflexivity.
Qed.

Lemma served_requestTime writer clk (run : HandlerRun W) :
  RequestTime (served writer clk run) = startNow clk.
Proof.
  unfold served, runHandler, RequestTime. cbn [fst].
  rewrite doCalls_requestTime. reflexivity.
Qed.

(** [wrapHandler], in terms of the recorder the handler leaves. *)
Lemma wrapHandler_unfold mp clk modelID writer request next :
  let recorder := served writer clk (next modelID request) in
  wrapHandler mp clk modelID writer request next
  = match returned (next modelID request) with
    | Some e =>
        Some {| monitor := mp; client := inner recorder; result_err := Some e |}
    | None =>
        if negb (Status recorder =? StatusOK) then
          Some {| monitor := warn mp (MsgSkippedStatus (Status recorder)
                                        (URLPath request) (body recorder));
                  client := inner recorder; result_err := None |}
        else if Go.len (body recorder) =? 0 then
          Some {| monitor := warn mp MsgSkippedEmptyBody;
                  client := inner recorder; result_err := None |}
        else if Contains (HeaderGet recorder "Content-Type") "text/event-stream"
        then
          r ← processStreamingResponse clk modelID (RequestTime recorder)
                (body recorder);
          match r with
          | Err e =>
              Some {| monitor := warn mp (MsgStreamingError e (URLPath request));
                      client := inner recorder; result_err := None |}
          | Ok tm =>
              mp' ← addMetrics mp tm;
              Some {| monitor := mp'; client := inner recorder;
                      result_err := None |}
          end
        else if ValidBytes (body recorder) then
          match parseMetrics clk modelID (RequestTime recorder)
                  (Get (ParseBytes (body recorder)) "usage")
                  (Get (ParseBytes (body recorder)) "timings") with
          | Err e =>
              Some {| monitor := warn mp (MsgParseError e (URLPath request));
                      client := inner recorder; result_err := None |}
          | Ok tm =>
              mp' ← addMetrics mp tm;
              Some {| monitor := mp'; client := inner recorder;
                      result_err := None |}
          end
        else
          Some {| monitor := warn mp (MsgSkippedInvalidJSON (URLPath request));
                  client := inner recorder; result_err := None |}
    end.
Proof. reflexivity. Qed.

(** The handler failed: its error is returned and nothing else happens. *)
Lemma wrapHandler_failed mp clk modelID writer request next (e : Go.error) :
  returned (next modelID request) = Some e ->
  wrapHandler mp clk modelID writer request next
  = Some {| monitor := mp;
            client := inner (served writer clk (next modelID request));
            result_err := Some e |}.
Proof.
  intros He. rewrite wrapHandler_unfold. cbv zeta. rewrite He. reflexivity.
Qed.

(** Any status other than 200: one warning. *)
Lemma wrapHandler_not_OK mp clk modelID writer request next :
  let recorder := served writer clk (next modelID request) in
  returned (next modelID request) = None ->
  Status recorder <> StatusOK ->
  wrapHandler mp clk modelID writer request next
  = Some {| monitor := warn mp (MsgSkippedStatus (Status recorder)
                                  (URLPath request) (body recorder));
            client := inner recorder; result_err := None |}.
Proof.
  intros recorder Hr Hs. rewrite wrapHandler_unfold. cbv zeta. rewrite Hr.
  fold recorder. apply Z.eqb_neq in Hs. rewrite Hs. reflexivity.
Qed.

(** Status 200 and nothing captured: one warning. *)
Lemma wrapHandler_empty mp clk modelID writer request next :
  let recorder := served writer clk (next modelID request) in
  returned (next modelID request) = None ->
  Status recorder = StatusOK ->
  body recorder = [] ->
  wrapHandler mp clk modelID writer request next
  = Some {| monitor := warn mp MsgSkippedEmptyBody;
            client := inner recorder; result_err := None |}.
Proof.
  intros recorder Hr Hs Hb. rewrite wrapHandler_unfold. cbv zeta. rewrite Hr.
  fold recorder. rewrite Hs, Hb. reflexivity.
Qed.

(** Status 200 and a body: the two parsers. *)
Lemma wrapHandler_parsed mp clk modelID writer request next :
  let recorder := served writer clk (next modelID request) in
  returned (next modelID request) = None ->
  Status recorder = StatusOK ->
  body recorder <> [] ->
  wrapHandler mp clk modelID writer request next
  = if Contains (HeaderGet recorder "Content-Type") "text/event-stream" then
      r ← processStreamingResponse clk modelID (startNow clk) (body recorder);
      match r with
      | Err e =>
          Some {| monitor := warn mp (MsgStreamingError e (URLPath request));
                  client := inner recorder; result_err := None |}
      | Ok tm =>
          mp' ← addMetrics mp tm;
          Some {| monitor := mp'; client := inner recorder; result_err := None |}
      end
    else if ValidBytes (body recorder) then
      match parseMetrics clk modelID (startNow clk)
              (Get (ParseBytes (body recorder)) "usage")
              (Get (ParseBytes (body recorder)) "timings") with
      | Err e =>
          Some {| monitor := warn mp (MsgParseError e (URLPath request));
                  client := inner recorder; result_err := None |}
      | Ok tm =>
          mp' ← addMetrics mp tm;
          Some {| monitor := mp'; client := inner recorder; result_err := None |}
      end
    else
      Some {| monitor := warn mp (MsgSkippedInvalidJSON (URLPath request));
              client := inner recorder; result_err := None |}.
Proof.
  intros recorder Hr Hs Hb. rewrite wrapHandler_unfold. cbv zeta. rewrite Hr.
  fold recorder. rewrite Hs. change (negb (StatusOK =? StatusOK)) with false.
  cbv iota.
  destruct (Go.len (body recorder) =? 0) eqn:El.
  { apply Z.eqb_eq in El. unfold Go.len in El.
    destruct (body recorder); [contradiction|cbn in El; lia]. }
  unfold recorder. rewrite !served_requestTime. reflexivity.
Qed.

(** C2.  [wrapHandler] records a metric only when the handler returned no
    error, the status is in the 2xx range (it is 200) and the captured body
    is not empty; and for a response whose status is outside the 2xx range,
    or whose captured body is empty, it records nothing and logs exactly one
    warning. *)
Theorem wrapHandler_records_only_2xx_with_body
    mp clk modelID writer request next :
  let run := next modelID request in
  let recorder := served writer clk run in
  (forall out,
      wrapHandler mp clk modelID writer request next = Some out ->
      recordsMetric mp (monitor out) ->
      returned run = None
      /\ 200 <= Status recorder < 300
      /\ body recorder <> [])
  /\ (returned run = None ->
      Status recorder < 200 \/ 300 <= Status recorder \/ body recorder = [] ->
      exists out,
        wrapHandler mp clk modelID writer request next = Some out
        /\ onlyWarns mp (monitor out)
        /\ ~ recordsMetric mp (monitor out)
        /\ result_err out = None).
Proof.
  intros run recorder. split.
  - intros out Hout Hrec.
    destruct (returned run) as [e|] eqn:Hr.
    { rewrite (wrapHandler_failed _ _ _ _ _ _ e Hr) in Hout.
      injection Hout as <-. cbn [monitor] in Hrec.
      apply recordsMetric_emitted in Hrec. lia. }
    destruct (decide (Status recorder = StatusOK)) as [Hs|Hs].
    + destruct (decide (body recorder = [])) as [Hb|Hb].
      * rewrite (wrapHandler_empty _ _ _ _ _ _ Hr Hs Hb) in Hout.
        injection Hout as <-. cbn [monitor] in Hrec.
        exfalso. exact (onlyWarns_not_recordsMetric _ _ (onlyWarns_warn _ _) Hrec).
      * split; [reflexivity|]. split; [|exact Hb].
        rewrite Hs. unfold StatusOK. lia.
    + rewrite (wrapHandler_not_OK _ _ _ _ _ _ Hr Hs) in Hout.
      injection Hout as <-. cbn [monitor] in Hrec.
      exfalso. exact (onlyWarns_not_recordsMetric _ _ (onlyWarns_warn _ _) Hrec).
  - intros Hr Hcase.
    destruct (decide (Status recorder = StatusOK)) as [Hs|Hs].
    + assert (Hb : body recorder = []).
      { destruct Hcase as [H1|[H1|H1]]; [| |exact H1];
          rewrite Hs in H1; unfold StatusOK in H1; lia. }
      eexists. split; [apply (wrapHandler_empty _ _ _ _ _ _ Hr Hs Hb)|].
      cbn [monitor result_err]. split; [apply onlyWarns_warn|].
      split; [apply onlyWarns_not_recordsMetric, onlyWarns_warn|reflexivity].
    + eexists. split; [apply (wrapHandler_not_OK _ _ _ _ _ _ Hr Hs)|].
      cbn [monitor result_err]. split; [apply onlyWarns_warn|].
      split; [apply onlyWarns_not_recordsMetric, onlyWarns_warn|reflexivity].
Qed.

End WrapHandler.

Section WrapHandlerLaws.
Context {W : Type} {RW : ResponseWriter W} {G : GJson} {T : GoText}.
Hypothesis gjsonLaws : GJsonLaws G.
Hypothesis textLaws : GoTextLaws T.

Implicit Types (mp : metricsMonitor) (clk : Clock) (modelID : string)
  (writer : W) (request : Request) (next : string -> Request -> HandlerRun W).

(** A response without [usage] and [timings] parses to the unknowns. *)
Lemma parseMetrics_unknown clk modelID (start : Go.Time) :
  exists tm,
    parseMetrics clk modelID start zeroResult zeroResult = Ok tm
    /\ InputTokens tm = 0 /\ OutputTokens tm = 0 /\ CachedTokens tm = -1
    /\ PromptPerSecond tm = (-1)%float /\ TokensPerSecond tm = (-1)%float.
Proof.
  unfold parseMetrics. rewrite (Exists_zeroResult G gjsonLaws).
  cbv beta iota zeta. eexists. split; [reflexivity|]. repeat split.
Qed.

(** C7.  An error of the wrapped handler is returned as it is, and the
    monitor is left as it was: no metric, no log line.  When the wrapped
    handler returns nil, [wrapHandler] returns nil, whatever the parsing of
    the captured response comes to: the monitor has then recorded a metric or
    logged one warning, and the client's writer is as the handler left it. *)
Theorem wrapHandler_error_policy mp clk modelID writer request next :
  let run := next modelID request in
  (forall e,
      returned run = Some e ->
      wrapHandler mp clk modelID writer request next
      = Some {| monitor := mp; client := inner (served writer clk run);
                result_err := Some e |})
  /\ (returned run = None ->
      wellFormed mp ->
      exists out,
        wrapHandler mp clk modelID writer request next = Some out
        /\ result_err out = None
        /\ client out = inner (served writer clk run)
        /\ (recordsMetric mp (monitor out) \/ onlyWarns mp (monitor out))).
Proof.
  intros run. split; [intros e He; apply wrapHandler_failed; exact He|].
  intros Hr Hwf. set (recorder := served writer clk run).
  assert (Hwarn : forall msg,
             exists out,
               Some {| monitor := warn mp msg; client := inner recorder;
                       result_err := None |} = Some out
               /\ result_err out = None
               /\ client out = inner recorder
               /\ (recordsMetric mp (monitor out) \/ onlyWarns mp (monitor out))).
  { intros msg. eexists. split; [reflexivity|]. cbn [result_err client monitor].
    repeat split. right. apply onlyWarns_warn. }
  assert (Hadd : forall tm,
             exists out,
               (mp' ← addMetrics mp tm;
                Some {| monitor := mp'; client := inner recorder;
                        result_err := None |}) = Some out
               /\ result_err out = None
               /\ client out = inner recorder
               /\ (recordsMetric mp (monitor out) \/ onlyWarns mp (monitor out))).
  { intros tm. destruct (addMetrics_total mp tm Hwf) as (mp' & Ea & _).
    rewrite Ea. eexists. split; [reflexivity|].
    cbn [result_err client monitor]. repeat split. left. exists tm. exact Ea. }
  destruct (decide (Status recorder = StatusOK)) as [Hs|Hs];
    [|rewrite (wrapHandler_not_OK _ _ _ _ _ _ Hr Hs); apply Hwarn].
  destruct (decide (body recorder = [])) as [Hb|Hb];
    [rewrite (wrapHandler_empty _ _ _ _ _ _ Hr Hs Hb); apply Hwarn|].
  rewrite (wrapHandler_parsed _ _ _ _ _ _ Hr Hs Hb). fold run. fold recorder.
  destruct (Contains _ _).
  - rewrite (processStreamingResponse_spec textLaws). cbn [mbind option_bind].
    destruct (streamingSpec _ _ _ _) as [tm|e]; [apply Hadd|apply Hwarn].
  - destruct (ValidBytes _); [|apply Hwarn].
    destruct (parseMetrics_Ok clk modelID (startNow clk)
                (Get (ParseBytes (body recorder)) "usage")
                (Get (ParseBytes (body recorder)) "timings")) as (tm & -> & _).
    apply Hadd.
Qed.

(** C3, as amended.  For a response with status 200 (no other status is
    parsed) whose Content-Type contains [text/event-stream]: the metric
    recorded is parsed from the last line prefixed by [data:] whose payload is
    not [[DONE]], is valid JSON and contains [usage] or [timings]; when there
    is no such line but some [data:] payload is valid JSON, a metric with the
    unknown token counts is recorded; otherwise nothing is recorded and one
    warning is logged. *)
Theorem wrapHandler_streaming mp clk modelID writer request next :
  let run := next modelID request in
  let recorder := served writer clk run in
  wellFormed mp ->
  returned run = None ->
  Status recorder = StatusOK ->
  Contains (HeaderGet recorder "Content-Type") "text/event-stream" = true ->
  match lastMetricsPayload (body recorder) with
  | Some data =>
      exists tm mp',
        parseMetrics clk modelID (startNow clk)
          (Get (ParseBytes data) "usage") (Get (ParseBytes data) "timings")
        = Ok tm
        /\ addMetrics mp tm = Some mp'
        /\ wrapHandler mp clk modelID writer request next
           = Some {| monitor := mp'; client := inner recorder;
                     result_err := None |}
  | None =>
      if someValidPayload (body recorder) then
        exists tm mp',
          parseMetrics clk modelID (startNow clk) zeroResult zeroResult = Ok tm
          /\ InputTokens tm = 0 /\ OutputTokens tm = 0 /\ CachedTokens tm = -1
          /\ addMetrics mp tm = Some mp'
          /\ wrapHandler mp clk modelID writer request next
             = Some {| monitor := mp'; client := inner recorder;
                       result_err := None |}
      else
        exists out,
          wrapHandler mp clk modelID writer request next = Some out
          /\ onlyWarns mp (monitor out)
          /\ ~ recordsMetric mp (monitor out)
  end.
Proof.
  intros run recorder Hwf Hr Hs Hc.
  destruct (decide (body recorder = [])) as [Hb|Hb].
  { rewrite Hb. unfold lastMetricsPayload, someValidPayload, payloads.
    cbn [lines omap list_omap]. rewrite (dataPayload_nil textLaws).
    cbn [filter list_filter last existsb].
    eexists. split; [apply (wrapHandler_empty _ _ _ _ _ _ Hr Hs Hb)|].
    cbn [monitor]. split; [apply onlyWarns_warn|].
    apply onlyWarns_not_recordsMetric, onlyWarns_warn. }
  rewrite (wrapHandler_parsed _ _ _ _ _ _ Hr Hs Hb). fold run. fold recorder.
  rewrite Hc, (processStreamingResponse_spec textLaws).
  cbn [mbind option_bind].
  unfold streamingSpec, specLines, lastMetricsPayload, someValidPayload, payloads.
  cbn [orb].
  destruct (last (filter _ (omap dataPayload (lines (body recorder)))))
    as [data|].
  - destruct (parseMetrics_Ok clk modelID (startNow clk)
                (Get (ParseBytes data) "usage")
                (Get (ParseBytes data) "timings")) as (tm & E & _).
    destruct (addMetrics_total mp tm Hwf) as (mp' & Ea & _).
    exists tm, mp'. rewrite E, Ea. repeat split; reflexivity.
  - destruct (existsb ValidBytes _).
    + destruct (parseMetrics_unknown clk modelID (startNow clk))
        as (tm & E & Hi & Ho & Hk & _).
      destruct (addMetrics_total mp tm Hwf) as (mp' & Ea & _).
      exists tm, mp'. rewrite E, Ea. repeat split; assumption.
    + eexists. split; [reflexivity|]. cbn [monitor].
      split; [apply onlyWarns_warn|].
      apply onlyWarns_not_recordsMetric, onlyWarns_warn.
Qed.

End WrapHandlerLaws.

(** ** The wrapper on concrete responses *)

Lemma wellFormed_new (lg : LogMonitor) (cap : Z) :
  0 <= cap -> wellFormed (newMetricsMonitor lg cap).
Proof. intros H. split; [exact H|]. cbn. exact H. Qed.

Lemma wrapHandler_records_only_2xx_with_body_witness :
  exists out,
    wrapHandler (newMetricsMonitor [] 10) (Reference.clock 5) "test-model"
      Reference.newRecorder Reference.testRequest
      (Reference.respond "text/plain" 400 "error") = Some out
    /\ onlyWarns (newMetricsMonitor [] 10) (monitor out)
    /\ getMetrics (monitor out) = [].
Proof.
  destruct (proj2 (wrapHandler_records_only_2xx_with_body
                     (newMetricsMonitor [] 10) (Reference.clock 5) "test-model"
                     Reference.newRecorder Reference.testRequest
                     (Reference.respond "text/plain" 400 "error")))
    as (out & E & Hw & _).
  - reflexivity.
  - right. left. vm_compute. discriminate.
  - exists out. split; [exact E|]. split; [exact Hw|].
    destruct Hw as (_ & _ & Hm & _). exact Hm.
Defined.

Lemma wrapHandler_error_policy_witness :
  exists out,
    wrapHandler (newMetricsMonitor [] 10) (Reference.clock 5) "test-model"
      Reference.newRecorder Reference.testRequest
      (Reference.respond "application/json" 200 "not valid json") = Some out
    /\ result_err out = None.
Proof.
  destruct (proj2 (wrapHandler_error_policy Reference_text_laws
                     (newMetricsMonitor [] 10) (Reference.clock 5) "test-model"
                     Reference.newRecorder Reference.testRequest
                     (Reference.respond "application/json" 200 "not valid json")))
    as (out & E & He & _).
  - reflexivity.
  - apply wellFormed_new. lia.
  - exists out. split; [exact E|exact He].
Defined.

Lemma wrapHandler_streaming_witness :
  exists out,
    wrapHandler (newMetricsMonitor [] 10) (Reference.clock 5) "test-model"
      Reference.newRecorder Reference.testRequest
      (Reference.respond "text/event-stream" 200 Reference.streamWithUsage) = Some out
    /\ recordsMetric (newMetricsMonitor [] 10) (monitor out).
Proof.
  pose proof (wrapHandler_streaming Reference_gjson_laws Reference_text_laws
                (newMetricsMonitor [] 10) (Reference.clock 5) "test-model"
                Reference.newRecorder Reference.testRequest
                (Reference.respond "text/event-stream" 200 Reference.streamWithUsage)
                (wellFormed_new [] 10 ltac:(lia)) eq_refl eq_refl eq_refl) as H.
  destruct (lastMetricsPayload _) as [data|] eqn:E in H;
    [|vm_compute in E; discriminate E].
  destruct H as (tm & mp' & _ & Ha & Hw).
  eexists. split; [exact Hw|]. exists tm. exact Ha.
Defined.

(** C3 as stated fails for the 2xx statuses other than 200.  A 201 response
    with Content-Type [text/event-stream] whose [data:] lines are valid JSON
    without [usage] or [timings] leaves the monitor without a metric, where
    the claim has one with the unknown token counts recorded. *)
Lemma wrapHandler_streaming_counterexample :
  let next :=
    Reference.respond "text/event-stream" 201
      ("data: {'choices':[{'text':'Hello'}]}" +:+ String "010"
       (String "010" "data: [DONE]")) in
  let recorder :=
    served Reference.newRecorder (Reference.clock 5)
      (next "test-model" Reference.testRequest) in
  Status recorder = 201
  /\ Contains (HeaderGet recorder "Content-Type") "text/event-stream" = true
  /\ lastMetricsPayload (body recorder) = None
  /\ someValidPayload (body recorder) = true
  /\ exists out,
       wrapHandler (newMetricsMonitor [] 10) (Reference.clock 5) "test-model"
         Reference.newRecorder Reference.testRequest next = Some out
       /\ getMetrics (monitor out) = []
       /\ emitted (monitor out) = []
       /\ ~ recordsMetric (newMetricsMonitor [] 10) (monitor out).
Proof.
  cbv zeta. split; [reflexivity|]. split; [reflexivity|].
  split; [vm_compute; reflexivity|]. split; [vm_compute; reflexivity|].
  eexists. split; [vm_compute; reflexivity|].
  split; [reflexivity|]. split; [reflexivity|].
  intros Hr. apply recordsMetric_emitted in Hr. discriminate Hr.
Qed.

(** The responses of the test suite. *)
Example wrapHandler_json_usage :
  (fun out => (InputTokens <$> getMetrics (monitor out),
               OutputTokens <$> getMetrics (monitor out),
               CachedTokens <$> getMetrics (monitor out),
               logger (monitor out), result_err out))
  <$> wrapHandler (newMetricsMonitor [] 10) (Reference.clock 0) "test-model"
        Reference.newRecorder Reference.testRequest
        (Reference.respond "application/json" 200
           "{ 'usage': { 'prompt_tokens': 100, 'completion_tokens': 50 } }")
  = Some ([100], [50], [-1], [], None).
Proof. vm_compute. reflexivity. Qed.

Example wrapHandler_stream_usage :
  (fun out => (InputTokens <$> getMetrics (monitor out),
               OutputTokens <$> getMetrics (monitor out),
               Reference.sent (client out)))
  <$> wrapHandler (newMetricsMonitor [] 10) (Reference.clock 0) "test-model"
        Reference.newRecorder Reference.testRequest
        (Reference.respond "text/event-stream" 200 Reference.streamWithUsage)
  = Some ([100], [50], Reference.quoted Reference.streamWithUsage).
Proof. vm_compute. reflexivity. Qed.

Example wrapHandler_stream_no_json :
  (fun out => (getMetrics (monitor out), logger (monitor out)))
  <$> wrapHandler (newMetricsMonitor [] 10) (Reference.clock 0) "test-model"
        Reference.newRecorder Reference.testRequest
        (Reference.respond "text/event-stream" 200
           ("data: not json" +:+ String "010" (String "010" "data: [DONE]")))
  = Some ([], [{| level := LevelWarn;
                  message := MsgStreamingError noValidJSON "/test" |}]).
Proof. vm_compute. reflexivity. Qed.

(** The gate is the status 200 itself: a 201 response with a JSON body that
    carries [usage] is skipped. *)
Example wrapHandler_created_is_skipped :
  (fun out => (getMetrics (monitor out), level <$> logger (monitor out)))
  <$> wrapHandler (newMetricsMonitor [] 10) (Reference.clock 0) "test-model"
        Reference.newRecorder Reference.testRequest
        (Reference.respond "application/json" 201
           "{'usage':{'prompt_tokens':100,'completion_tokens':50}}")
  = Some ([], [LevelWarn]).
Proof. vm_compute. reflexivity. Qed.

(** ** The [UnloadAfter] goroutine *)

Section UnloadAfterFacts.
Context {MacroList Any : Type}.

Implicit Types (config : Config.ModelConfig MacroList Any)
  (ticks : list TickView).

(** The goroutine makes no call, or logs and stops the process. *)
Lemma unloadLoop_calls config (maxDuration : Go.Duration) ticks :
  fst (unloadLoop config maxDuration ticks) = []
  \/ unloadLoop config maxDuration ticks
     = ([ProcessInfof (Config.UnloadAfter config); ProcessStop], true).
Proof.
  induction ticks as [|t ticks IH]; cbn [unloadLoop]; [left; reflexivity|].
  destruct (isReady (CurrentState t)); cbn [negb]; [|left; reflexivity].
  destruct (inFlightRequestsCount t =? 0); cbn [negb]; [|exact IH].
  destruct (maxDuration <? sinceLastRequestHandled t); [right; reflexivity|].
  exact IH.
Qed.

Lemma unloadLoop_pending config ticks (before : list TickView) :
  Forall (ttlPending config) before ->
  unloadLoop config (maxDurationOf config) (before ++ ticks)
  = unloadLoop config (maxDurationOf config) ticks.
Proof.
  induction 1 as [|t before (Hs & Hbusy) _ IH]; [reflexivity|].
  cbn [app unloadLoop]. rewrite Hs. cbn [isReady negb].
  destruct (inFlightRequestsCount t =? 0) eqn:E; cbn [negb]; [|exact IH].
  apply Z.eqb_eq in E.
  destruct (maxDurationOf config <? sinceLastRequestHandled t) eqn:E';
    [|exact IH].
  apply Z.ltb_lt in E'. destruct Hbusy; [contradiction|lia].
Qed.

(** C9.  The goroutine never calls [Sleep].  Once started (the TTL is
    positive), at the first tick that finds the process ready, without a
    request in flight and idle for longer than the TTL, it calls [Stop] and
    returns.  None of this depends on the configuration beyond the TTL: the
    sleep and wake endpoints play no part. *)
Theorem unloadAfter_stops_never_sleeps config ticks :
  (ProcessSleep ∉ fst (unloadAfterMonitor config ticks))
  /\ (forall (before after : list TickView) (t : TickView),
        0 < Config.UnloadAfter config ->
        Forall (ttlPending config) before ->
        ttlExpired config t ->
        unloadAfterMonitor config (before ++ t :: after)
        = ([ProcessInfof (Config.UnloadAfter config); ProcessStop], true))
  /\ (forall config' : Config.ModelConfig MacroList Any,
        Config.UnloadAfter config' = Config.UnloadAfter config ->
        unloadAfterMonitor config' ticks = unloadAfterMonitor config ticks).
Proof.
  split; [|split].
  - unfold unloadAfterMonitor.
    destruct (0 <? Config.UnloadAfter config); [|apply not_elem_of_nil].
    cbv zeta.
    destruct (unloadLoop_calls config (maxDurationOf config) ticks) as [->| ->].
    + apply not_elem_of_nil.
    + cbn [fst]. intros Hin.
      apply elem_of_cons in Hin as [Hin|Hin]; [discriminate Hin|].
      apply elem_of_cons in Hin as [Hin|Hin]; [discriminate Hin|].
      exact (not_elem_of_nil _ Hin).
  - intros before after t Hpos Hbefore (Hs & Hfl & Hexp).
    unfold unloadAfterMonitor.
    rewrite (proj2 (Z.ltb_lt _ _) Hpos). cbv zeta.
    rewrite unloadLoop_pending by exact Hbefore.
    cbn [unloadLoop]. rewrite Hs, Hfl. cbn [isReady negb Z.eqb].
    rewrite (proj2 (Z.ltb_lt _ _) Hexp). reflexivity.
  - intros config' Httl. unfold unloadAfterMonitor, maxDurationOf.
    rewrite Httl. destruct (0 <? Config.UnloadAfter config); [|reflexivity].
    cbv zeta. generalize (Go.wrap (Config.UnloadAfter config * Go.Second)).
    intros d. induction ticks as [|t ticks' IH]; cbn [unloadLoop];
      [reflexivity|].
    rewrite IH, Httl. reflexivity.
Qed.

End UnloadAfterFacts.

(** A model with a TTL of two seconds and sleep endpoints: busy at the first
    tick, idle for three seconds at the second. *)
Lemma unloadAfter_stops_never_sleeps_witness :
  unloadAfterMonitor (Reference.modelConfig 2 "/sleep" "/wake_up")
    [ {| CurrentState := StateReady; inFlightRequestsCount := 1;
         sinceLastRequestHandled := 5000000000 |};
      {| CurrentState := StateReady; inFlightRequestsCount := 0;
         sinceLastRequestHandled := 3000000000 |} ]
  = ([ProcessInfof 2; ProcessStop], true).
Proof.
  apply (proj1 (proj2 (unloadAfter_stops_never_sleeps
                         (Reference.modelConfig 2 "/sleep" "/wake_up") []))
           [ {| CurrentState := StateReady; inFlightRequestsCount := 1;
                sinceLastRequestHandled := 5000000000 |} ]
           []
           {| CurrentState := StateReady; inFlightRequestsCount := 0;
              sinceLastRequestHandled := 3000000000 |}).
  - cbn. lia.
  - constructor; [|constructor]. split; [reflexivity|]. left. cbn. lia.
  - split; [reflexivity|]. split; [reflexivity|]. vm_compute. reflexivity.
Defined.

(** ** [ModelConfig.UnmarshalYAML] *)

Section UnmarshalYAMLFacts.
Context {MacroList Any : Type} (nilMacroList : MacroList) {T : GoText}.

Implicit Types (m decoded : Config.ModelConfig MacroList Any).

Lemma nonEmpty_true (s : string) : Config.nonEmpty s = true <-> s <> "".
Proof.
  unfold Config.nonEmpty. destruct (String.eqb_spec s ""); cbn; split;
    congruence.
Qed.

Lemma nonEmpty_false (s : string) : Config.nonEmpty s = false <-> s = "".
Proof.
  unfold Config.nonEmpty. destruct (String.eqb_spec s ""); cbn; split;
    congruence.
Qed.

(** C10.  When the YAML node decodes, [UnmarshalYAML] returns the error
    "wakeEndpoint required ..." or "sleepEndpoint required ..." exactly when
    one of [sleepEndpoint] and [wakeEndpoint] is set and the other is empty;
    with both set, or neither, it goes on to the checks of the methods, and
    returns nil or the error of an invalid method. *)
Theorem UnmarshalYAML_endpoints (goos : string) m decoded
    (unmarshal : Config.ModelConfig MacroList Any ->
                 Config.ModelConfig MacroList Any * option Go.error) :
  unmarshal (Config.defaultsFor nilMacroList goos) = (decoded, None) ->
  let err := snd (Config.UnmarshalYAML nilMacroList goos m unmarshal) in
  (Config.SleepEndpoint decoded <> "" /\ Config.WakeEndpoint decoded = "" ->
   err = Some Config.errWakeEndpointRequired)
  /\ (Config.WakeEndpoint decoded <> "" /\ Config.SleepEndpoint decoded = "" ->
      err = Some Config.errSleepEndpointRequired)
  /\ ((Config.SleepEndpoint decoded = "" <-> Config.WakeEndpoint decoded = "") ->
      err <> Some Config.errWakeEndpointRequired
      /\ err <> Some Config.errSleepEndpointRequired
      /\ (err = None
          \/ (exists method, err = Some (Config.errInvalidSleepMethod method))
          \/ (exists method, err = Some (Config.errInvalidWakeMethod method)))).
Proof.
  intros Hu err. unfold err, Config.UnmarshalYAML. rewrite Hu. clear err.
  split; [|split].
  - intros [Hs Hw]. apply nonEmpty_true in Hs. apply nonEmpty_false in Hw.
    rewrite Hs, Hw. reflexivity.
  - intros [Hw Hs]. apply nonEmpty_true in Hw. apply nonEmpty_false in Hs.
    rewrite Hw, Hs. reflexivity.
  - intros Hboth.
    assert (Hsame : Config.nonEmpty (Config.SleepEndpoint decoded)
                    = Config.nonEmpty (Config.WakeEndpoint decoded)).
    { destruct (Config.nonEmpty (Config.SleepEndpoint decoded)) eqn:Es;
        destruct (Config.nonEmpty (Config.WakeEndpoint decoded)) eqn:Ew;
        try reflexivity.
      - apply nonEmpty_true in Es. apply nonEmpty_false in Ew. tauto.
      - apply nonEmpty_false in Es. apply nonEmpty_true in Ew. tauto. }
    rewrite Hsame.
    destruct (Config.nonEmpty (Config.WakeEndpoint decoded)); cbn [negb andb];
      repeat match goal with
             | |- context [if ?b then _ else _] => destruct b
             end;
      cbn [snd];
      (split; [discriminate|]); (split; [discriminate|]);
      first [ left; reflexivity
            | right; left; eexists; reflexivity
            | right; right; eexists; reflexivity ].
Qed.

End UnmarshalYAMLFacts.

(** A node that sets [sleepEndpoint] alone is refused. *)
Lemma UnmarshalYAML_endpoints_witness :
  snd (Config.UnmarshalYAML tt "linux" (Reference.modelConfig 0 "" "")
         (fun _ => (Reference.modelConfig 0 "/sleep" "", None)))
  = Some Config.errWakeEndpointRequired.
Proof.
  apply (proj1 (UnmarshalYAML_endpoints tt "linux"
                  (Reference.modelConfig 0 "" "")
                  (Reference.modelConfig 0 "/sleep" "")
                  (fun _ => (Reference.modelConfig 0 "/sleep" "", None))
                  eq_refl)).
  split; [discriminate|reflexivity].
Defined.

Example UnmarshalYAML_both_endpoints :
  (fun m => (Config.SleepMethod m, Config.WakeMethod m))
    (fst (Config.UnmarshalYAML tt "linux" (Reference.modelConfig 0 "" "")
            (fun _ => (Reference.modelConfig 0 "/sleep" "/wake_up", None))))
  = ("POST", "POST")
  /\ snd (Config.UnmarshalYAML tt "linux" (Reference.modelConfig 0 "" "")
            (fun _ => (Reference.modelConfig 0 "/sleep" "/wake_up", None)))
     = None.
Proof. split; vm_compute; reflexivity. Qed.

(* ================================================================== *)
(** * Part III: further properties of the code                         *)
(* ================================================================== *)

(** ** More of the ring of metrics *)

Lemma stamp_app (i : Z) (a b : list TokenMetrics) :
  stamp i (a ++ b) = stamp i a ++ stamp (i + Go.len a) b.
Proof.
  revert i. induction a as [|m a IH]; intros i.
  - cbn [app stamp]. change (Go.len []) with 0. rewrite Z.add_0_r. reflexivity.
  - cbn [app stamp]. rewrite IH. do 3 f_equal. unfold Go.len. cbn [length]. lia.
Qed.

Lemma addMetricsAll_emitted (ms : list TokenMetrics) :
  forall mp : metricsMonitor,
    wellFormed mp ->
    0 <= nextID mp ->
    nextID mp + Go.len ms <= Go.max_int ->
    exists mp',
      addMetricsAll mp ms = Some mp'
      /\ emitted mp' =
           emitted mp ++ ((fun m => {| Metrics := m |}) <$> stamp (nextID mp) ms)
      /\ logger mp' = logger mp.
Proof.
  induction ms as [|m ms IH]; intros mp Hwf Hid Hsum.
  - exists mp. cbn. rewrite app_nil_r. auto.
  - assert (Hl : Go.len (m :: ms) = 1 + Go.len ms)
      by (unfold Go.len; cbn [length]; lia).
    pose proof (len_nonneg ms) as Hms.
    destruct (addMetrics_total mp m Hwf)
      as (mp1 & E1 & Hwf1 & _ & _ & Hn1 & Hg1 & He1).
    rewrite wrap_small in Hn1 by (unfold Go.min_int, Go.max_int in *; lia).
    destruct (IH mp1 Hwf1) as (mp' & E' & He' & Hg'); [lia|lia|].
    exists mp'. cbn [addMetricsAll]. rewrite E1. cbn [mbind option_bind].
    split; [exact E'|]. split; [|congruence].
    rewrite He', He1, Hn1. cbn [stamp fmap list_fmap]. rewrite <- app_assoc.
    reflexivity.
Qed.

(** X1.  From a fresh monitor of capacity [cap >= 0], every inserted record
    is handed to the event bus exactly once, in the order of insertion and
    with the ID it was given, whether or not the ring still holds it; the
    logger is not written to. *)
Theorem addMetrics_emits_every_record (lg : LogMonitor) (cap : Z)
    (ms : list TokenMetrics) :
  0 <= cap ->
  Go.len ms <= Go.max_int ->
  exists mp,
    addMetricsAll (newMetricsMonitor lg cap) ms = Some mp
    /\ emitted mp = (fun m => {| Metrics := m |}) <$> stamp 0 ms
    /\ logger mp = lg.
Proof.
  intros Hcap Hlen.
  destruct (addMetricsAll_emitted ms (newMetricsMonitor lg cap))
    as (mp & E & He & Hg).
  - split; [exact Hcap|]. cbn. exact Hcap.
  - cbn. lia.
  - cbn [nextID newMetricsMonitor]. lia.
  - exists mp. auto.
Qed.

Lemma addMetrics_emits_every_record_witness :
  exists mp,
    addMetricsAll (newMetricsMonitor [] 1) (replicate 3 Reference.blank) = Some mp
    /\ (fun e => ID (Metrics e)) <$> emitted mp = [0; 1; 2]
    /\ ID <$> getMetrics mp = [2].
Proof.
  destruct (addMetrics_emits_every_record [] 1 (replicate 3 Reference.blank))
    as (mp & E & He & _); [lia | vm_compute; discriminate |].
  exists mp. split; [exact E|]. split; [rewrite He; reflexivity|].
  vm_compute in E. injection E as <-. reflexivity.
Defined.

(** X2.  With a negative capacity, [addMetrics] panics on the bounds of the
    slice expression, whatever the monitor holds. *)
Theorem addMetrics_panics_on_negative_capacity (mp : metricsMonitor)
    (m : TokenMetrics) :
  Go.min_int <= maxMetrics mp < 0 ->
  Go.len (metrics mp) < Go.max_int ->
  addMetrics mp m = None.
Proof.
  intros Hc Hlen. unfold addMetrics.
  set (appended := metrics mp ++ [set_ID (nextID mp) m]).
  assert (Happ : Go.len appended = Go.len (metrics mp) + 1)
    by (unfold appended; rewrite len_app; reflexivity).
  pose proof (len_nonneg (metrics mp)) as Hnn.
  destruct (maxMetrics mp <? Go.len appended) eqn:E;
    [|apply Z.ltb_ge in E; lia].
  rewrite slice_from_None; [reflexivity|].
  unfold Go.wrap, Go.min_int, Go.max_int in *.
  destruct (decide (Go.len appended - maxMetrics mp < 2 ^ 63)).
  - right. rewrite Z.mod_small by lia. lia.
  - left.
    replace (Go.len appended - maxMetrics mp + 2 ^ 63)
      with ((Go.len appended - maxMetrics mp - 2 ^ 63) + 1 * 2 ^ 64) by lia.
    rewrite Z.mod_add by lia. rewrite Z.mod_small by lia. lia.
Qed.

Lemma addMetrics_panics_on_negative_capacity_witness :
  addMetrics (newMetricsMonitor [] (-1)) Reference.blank = None.
Proof.
  apply addMetrics_panics_on_negative_capacity.
  - cbn. unfold Go.min_int. lia.
  - vm_compute. reflexivity.
Defined.

(** ** The time of the first byte *)

Section FirstByte.
Context {W : Type} {RW : ResponseWriter W}.

Lemma doCalls_start (cs : list (WriterCall W)) :
  Forall (fun t => t <> 0) (writeTimes cs) ->
  forall w : responseBodyCopier W,
    start (foldl doCall w cs)
    = if Go.IsZero (start w) then firstWriteTime cs else start w.
Proof.
  induction cs as [|c cs IH]; intros Hnz w.
  - cbn. destruct (Go.IsZero (start w)) eqn:E; [|reflexivity].
    apply Z.eqb_eq in E. exact E.
  - cbn [foldl]. destruct c as [k v|code|now b|method];
      cbn [writeTimes omap list_omap] in Hnz;
      try (rewrite (IH Hnz); cbn [doCall HeaderSet WriteHeader start firstWriteTime];
           reflexivity).
    apply Forall_cons in Hnz as [Hnow Hnz].
    rewrite (IH Hnz). cbn [doCall firstWriteTime].
    assert (Hs : start (fst (Write now w b))
                 = if Go.IsZero (start w) then now else start w).
    { unfold Write. destruct (teeWrite (inner w) (body w) b) as [[i' b'] r].
      reflexivity. }
    rewrite Hs. destruct (Go.IsZero (start w)) eqn:E; [|rewrite E; reflexivity].
    unfold Go.IsZero. rewrite (proj2 (Z.eqb_neq _ _) Hnow). reflexivity.
Qed.

(** X3.  The copier's start time is the zero time until the handler writes,
    and from then on the time of its first [Write]: later writes, header
    calls and failures of the underlying writer do not change it. *)
Theorem StartTime_is_first_write (writer : W) (requestTime : Go.Time)
    (cs : list (WriterCall W)) :
  Forall (fun t => t <> 0) (writeTimes cs) ->
  StartTime (foldl doCall (newBodyCopier writer requestTime) cs)
  = firstWriteTime cs
  /\ (writeTimes cs = [] ->
      Go.IsZero (StartTime (foldl doCall (newBodyCopier writer requestTime) cs))
      = true).
Proof.
  intros Hnz. unfold StartTime. rewrite (doCalls_start cs Hnz).
  cbn [start newBodyCopier Go.IsZero]. change (0 =? 0) with true. cbv iota.
  split; [reflexivity|].
  intros Hno. clear Hnz. induction cs as [|c cs IH]; [reflexivity|].
  destruct c; cbn [writeTimes omap list_omap] in Hno; try discriminate Hno;
    cbn [firstWriteTime]; exact (IH Hno).
Qed.

End FirstByte.

Lemma StartTime_is_first_write_witness :
  StartTime (foldl doCall (newBodyCopier Reference.newRecorder 7)
               [CallWriteHeader 200; CallWrite 11 (Reference.quoted "a");
                CallWrite 12 (Reference.quoted "b")])
  = 11.
Proof.
  apply (proj1 (StartTime_is_first_write Reference.newRecorder 7
                  [CallWriteHeader 200; CallWrite 11 (Reference.quoted "a");
                   CallWrite 12 (Reference.quoted "b")]
                  ltac:(repeat constructor; discriminate))).
Defined.

(** ** More of [wrapHandler] *)

Section WrapHandlerCases.
Context {W : Type} {RW : ResponseWriter W} {G : GJson} {T : GoText}.
Hypothesis textLaws : GoTextLaws T.

Implicit Types (mp : metricsMonitor) (clk : Clock) (modelID : string)
  (writer : W) (request : Request) (next : string -> Request -> HandlerRun W).

Lemma streamingSpec_Ok clk modelID (start : Go.Time) (body : bytes)
    (tm : TokenMetrics) :
  streamingSpec clk modelID start body = Ok tm ->
  ID tm = 0 /\ Model tm = modelID /\ Timestamp tm = stampNow clk.
Proof.
  unfold streamingSpec, specLines. cbn [orb].
  destruct (last _) as [data|].
  - destruct (parseMetrics_Ok clk modelID start
                (Get (ParseBytes data) "usage")
                (Get (ParseBytes data) "timings")) as (tm' & -> & H).
    intros [= <-]. exact H.
  - destruct (existsb _ _); [|discriminate].
    destruct (parseMetrics_Ok clk modelID start zeroResult zeroResult)
      as (tm' & -> & H).
    intros [= <-]. exact H.
Qed.

(** The outcomes of [wrapHandler]. *)
Lemma wrapHandler_cases mp clk modelID writer request next (out : Wrapped W) :
  wrapHandler mp clk modelID writer request next = Some out ->
  client out = inner (served writer clk (next modelID request))
  /\ ((exists e,
          returned (next modelID request) = Some e
          /\ result_err out = Some e /\ monitor out = mp)
      \/ (returned (next modelID request) = None
          /\ result_err out = None
          /\ ((exists msg,
                  monitor out = warn mp msg
                  /\ forall e p, msg <> MsgParseError e p)
              \/ (exists tm,
                     addMetrics mp tm = Some (monitor out)
                     /\ ID tm = 0 /\ Model tm = modelID
                     /\ Timestamp tm = stampNow clk)))).
Proof.
  rewrite wrapHandler_unfold. cbv zeta.
  set (recorder := served writer clk (next modelID request)).
  assert (Hwarn : forall msg,
             (forall e p, msg <> MsgParseError e p) ->
             Some {| monitor := warn mp msg; client := inner recorder;
                     result_err := None |} = Some out ->
             client out = inner recorder
             /\ ((exists e, @None Go.error = Some e /\ result_err out = Some e
                            /\ monitor out = mp)
                 \/ (@None Go.error = None /\ result_err out = None
                     /\ ((exists msg', monitor out = warn mp msg'
                                       /\ forall e p, msg' <> MsgParseError e p)
                         \/ (exists tm, addMetrics mp tm = Some (monitor out)
                                        /\ ID tm = 0 /\ Model tm = modelID
                                        /\ Timestamp tm = stampNow clk))))).
  { intros msg Hmsg [= <-]. cbn [client result_err monitor].
    split; [reflexivity|]. right. split; [reflexivity|].
    split; [reflexivity|]. left. exists msg. auto. }
  assert (Hadd : forall tm,
             ID tm = 0 /\ Model tm = modelID /\ Timestamp tm = stampNow clk ->
             (mp' ← addMetrics mp tm;
              Some {| monitor := mp'; client := inner recorder;
                      result_err := None |}) = Some out ->
             client out = inner recorder
             /\ ((exists e, @None Go.error = Some e /\ result_err out = Some e
                            /\ monitor out = mp)
                 \/ (@None Go.error = None /\ result_err out = None
                     /\ ((exists msg', monitor out = warn mp msg'
                                       /\ forall e p, msg' <> MsgParseError e p)
                         \/ (exists tm, addMetrics mp tm = Some (monitor out)
                                        /\ ID tm = 0 /\ Model tm = modelID
                                        /\ Timestamp tm = stampNow clk))))).
  { intros tm Htm. destruct (addMetrics mp tm) as [mp'|] eqn:Ea;
      cbn [mbind option_bind]; [|discriminate].
    intros [= <-]. cbn [client result_err monitor].
    split; [reflexivity|]. right. split; [reflexivity|].
    split; [reflexivity|]. right. exists tm. auto. }
  destruct (returned (next modelID request)) as [e|].
  { intros [= <-]. cbn [client result_err monitor].
    split; [reflexivity|]. left. exists e. auto. }
  destruct (negb (Status recorder =? StatusOK));
    [apply Hwarn; discriminate|].
  destruct (Go.len (body recorder) =? 0); [apply Hwarn; discriminate|].
  destruct (Contains _ _).
  - rewrite (processStreamingResponse_spec textLaws). cbn [mbind option_bind].
    destruct (streamingSpec _ _ _ _) as [tm|e] eqn:Es;
      [|apply Hwarn; discriminate].
    apply Hadd. exact (streamingSpec_Ok _ _ _ _ _ Es).
  - destruct (ValidBytes _); [|apply Hwarn; discriminate].
    destruct (parseMetrics_Ok clk modelID (RequestTime recorder)
                (Get (ParseBytes (body recorder)) "usage")
                (Get (ParseBytes (body recorder)) "timings"))
      as (tm & -> & Htm).
    apply Hadd. exact Htm.
Qed.

(** On a well-formed monitor [wrapHandler] does not panic and leaves a
    well-formed monitor of the same capacity. *)
Lemma wrapHandler_total mp clk modelID writer request next :
  wellFormed mp ->
  exists out,
    wrapHandler mp clk modelID writer request next = Some out
    /\ wellFormed (monitor out)
    /\ maxMetrics (monitor out) = maxMetrics mp.
Proof.
  intros Hwf. rewrite wrapHandler_unfold. cbv zeta.
  set (recorder := served writer clk (next modelID request)).
  assert (Hwarn : forall msg,
             exists out,
               Some {| monitor := warn mp msg; client := inner recorder;
                       result_err := None |} = Some out
               /\ wellFormed (monitor out)
               /\ maxMetrics (monitor out) = maxMetrics mp).
  { intros msg. eexists. split; [reflexivity|]. split; [exact Hwf|reflexivity]. }
  assert (Hadd : forall tm,
             exists out,
               (mp' ← addMetrics mp tm;
                Some {| monitor := mp'; client := inner recorder;
                        result_err := None |}) = Some out
               /\ wellFormed (monitor out)
               /\ maxMetrics (monitor out) = maxMetrics mp).
  { intros tm.
    destruct (addMetrics_total mp tm Hwf) as (mp' & Ea & Hwf' & _ & Hcap & _).
    rewrite Ea. eexists. split; [reflexivity|]. split; [exact Hwf'|exact Hcap]. }
  destruct (returned (next modelID request)) as [e|].
  { eexists. split; [reflexivity|]. split; [exact Hwf|reflexivity]. }
  destruct (negb (Status recorder =? StatusOK)); [apply Hwarn|].
  destruct (Go.len (body recorder) =? 0); [apply Hwarn|].
  destruct (Contains _ _).
  - rewrite (processStreamingResponse_spec textLaws). cbn [mbind option_bind].
    destruct (streamingSpec _ _ _ _) as [tm|e]; [apply Hadd|apply Hwarn].
  - destruct (ValidBytes _); [|apply Hwarn].
    destruct (parseMetrics_Ok clk modelID (RequestTime recorder)
                (Get (ParseBytes (body recorder)) "usage")
                (Get (ParseBytes (body recorder)) "timings"))
      as (tm & -> & _).
    apply Hadd.
Qed.

(** X4.  A call of [wrapHandler] hands at most one event to the event bus.
    When it hands one, the metric in it has the next ID of the monitor, the
    model ID the wrapper was called with and the time stamp read from the
    clock, and the next ID of the monitor has moved on by one; when it hands
    none, the stored metrics and the next ID are as before. *)
Theorem wrapHandler_one_event_per_request
    mp clk modelID writer request next (out : Wrapped W) :
  wrapHandler mp clk modelID writer request next = Some out ->
  (emitted (monitor out) = emitted mp
   /\ metrics (monitor out) = metrics mp
   /\ nextID (monitor out) = nextID mp)
  \/ (exists tm,
         emitted (monitor out) = emitted mp ++ [{| Metrics := tm |}]
         /\ ID tm = nextID mp
         /\ Model tm = modelID
         /\ Timestamp tm = stampNow clk
         /\ nextID (monitor out) = Go.wrap (nextID mp + 1)).
Proof.
  intros Hout. apply wrapHandler_cases in Hout as [_ Hcases].
  destruct Hcases as [(e & _ & _ & ->)|(_ & _ & [(msg & -> & _)|Hadd])].
  - left. auto.
  - left. auto.
  - right. destruct Hadd as (tm & Ea & _ & Hm & Ht).
    exists (set_ID (nextID mp) tm).
    pose proof (addMetrics_emitted _ _ _ Ea) as [He _].
    split; [exact He|]. cbn [ID Model Timestamp set_ID].
    split; [reflexivity|]. split; [exact Hm|]. split; [exact Ht|].
    unfold addMetrics in Ea.
    destruct (if maxMetrics mp <? _ then _ else _) as [kept|];
      cbn [mbind option_bind] in Ea; [|discriminate].
    injection Ea as <-. reflexivity.
Qed.

(** X5.  [parseMetrics] never returns an error, so the branch of
    [wrapHandler] that logs "error parsing metrics" is never taken: a call
    adds nothing to the log, or one line at the warn level that is not that
    message, and in that case it records nothing. *)
Theorem wrapHandler_never_logs_parse_error
    mp clk modelID writer request next (out : Wrapped W) :
  wrapHandler mp clk modelID writer request next = Some out ->
  (forall start usage timings e,
      parseMetrics clk modelID start usage timings <> Err e)
  /\ (logger (monitor out) = logger mp
      \/ exists msg,
           logger (monitor out)
           = logger mp ++ [{| level := LevelWarn; message := msg |}]
           /\ (forall e p, msg <> MsgParseError e p)
           /\ emitted (monitor out) = emitted mp
           /\ metrics (monitor out) = metrics mp).
Proof.
  intros Hout. split.
  { intros start usage timings e.
    destruct (parseMetrics_Ok clk modelID start usage timings) as (tm & -> & _).
    discriminate. }
  apply wrapHandler_cases in Hout as [_ Hcases].
  destruct Hcases as [(e & _ & _ & ->)|(_ & _ & [(msg & -> & Hmsg)|Hadd])].
  - left. reflexivity.
  - right. exists msg. auto.
  - left. destruct Hadd as (tm & Ea & _).
    exact (proj2 (addMetrics_emitted _ _ _ Ea)).
Qed.

(** X6.  Any sequence of requests through [wrapHandler], on a monitor that
    is well formed, runs without a panic whatever the handlers do; the
    monitor stays well formed and keeps its capacity, and every request adds
    at most one entry, an event or a log line. *)
Theorem wrapHandlerAll_preserves_wellFormed (xs : list (Exchange W)) :
  forall mp,
    wellFormed mp ->
    exists mp',
      wrapHandlerAll mp xs = Some mp'
      /\ wellFormed mp'
      /\ maxMetrics mp' = maxMetrics mp
      /\ (length (emitted mp') + length (logger mp')
          <= length (emitted mp) + length (logger mp) + length xs)%nat.
Proof.
  induction xs as [|x xs IH]; intros mp Hwf.
  - exists mp. cbn. split; [reflexivity|]. split; [exact Hwf|]. split; [reflexivity|lia].
  - destruct (wrapHandler_total mp (exClock x) (exModelID x) (exWriter x)
                (exRequest x) (exNext x) Hwf) as (out & Eo & Hwf1 & Hcap1).
    destruct (IH (monitor out) Hwf1) as (mp' & E' & Hwf' & Hcap' & Hlen).
    exists mp'. cbn [wrapHandlerAll]. rewrite Eo. cbn [mbind option_bind].
    split; [exact E'|]. split; [exact Hwf'|]. split; [congruence|].
    assert (Hone : (length (emitted (monitor out)) + length (logger (monitor out))
                    <= S (length (emitted mp) + length (logger mp)))%nat).
    { apply wrapHandler_cases in Eo as [_ Hcases].
      destruct Hcases as [(e & _ & _ & ->)|(_ & _ & [(msg & -> & _)|Hadd])].
      - lia.
      - cbn [warn emitted logger]. unfold Warnf. rewrite length_app.
        cbn [length]. lia.
      - destruct Hadd as (tm & Ea & _).
        apply addMetrics_emitted in Ea as [-> ->]. rewrite length_app.
        cbn [length]. lia. }
    cbn [length]. lia.
Qed.

(** X7.  A response with status 200, a body and a Content-Type other than
    [text/event-stream] is read as one JSON document: when the body is valid
    JSON a metric parsed from its [usage] and [timings] is recorded, with
    the unknown token counts when it has neither; when it is not, nothing is
    recorded and the warning names the path of the request. *)
Theorem wrapHandler_json mp clk modelID writer request next :
  let run := next modelID request in
  let recorder := served writer clk run in
  wellFormed mp ->
  returned run = None ->
  Status recorder = StatusOK ->
  body recorder <> [] ->
  Contains (HeaderGet recorder "Content-Type") "text/event-stream" = false ->
  if ValidBytes (body recorder) then
    exists tm mp',
      parseMetrics clk modelID (startNow clk)
        (Get (ParseBytes (body recorder)) "usage")
        (Get (ParseBytes (body recorder)) "timings") = Ok tm
      /\ addMetrics mp tm = Some mp'
      /\ wrapHandler mp clk modelID writer request next
         = Some {| monitor := mp'; client := inner recorder;
                   result_err := None |}
      /\ (Exists (Get (ParseBytes (body recorder)) "usage") = false ->
          Exists (Get (ParseBytes (body recorder)) "timings") = false ->
          InputTokens tm = 0 /\ OutputTokens tm = 0 /\ CachedTokens tm = -1)
  else
    wrapHandler mp clk modelID writer request next
    = Some {| monitor := warn mp (MsgSkippedInvalidJSON (URLPath request));
              client := inner recorder; result_err := None |}.
Proof.
  intros run recorder Hwf Hr Hs Hb Hc.
  rewrite (wrapHandler_parsed _ _ _ _ _ _ Hr Hs Hb). fold run. fold recorder.
  rewrite Hc. destruct (ValidBytes (body recorder)); [|reflexivity].
  destruct (parseMetrics_Ok clk modelID (startNow clk)
              (Get (ParseBytes (body recorder)) "usage")
              (Get (ParseBytes (body recorder)) "timings")) as (tm & E & _).
  destruct (addMetrics_total mp tm Hwf) as (mp' & Ea & _).
  exists tm, mp'. rewrite E, Ea. split; [reflexivity|]. split; [reflexivity|].
  split; [reflexivity|]. intros Hu Ht.
  destruct (parseMetrics_no_timings_eq clk modelID (startNow clk)
              (Get (ParseBytes (body recorder)) "usage")
              (Get (ParseBytes (body recorder)) "timings") Ht)
    as (i & o & c & E' & Hc' & Hi & Ho).
  rewrite E in E'. injection E' as ->. cbn [InputTokens OutputTokens CachedTokens].
  split; [apply Hi; left; exact Hu|].
  split; [apply Ho; left; exact Hu|apply Hc'; left; exact Hu].
Qed.

End WrapHandlerCases.

Lemma wrapHandler_one_event_per_request_witness :
  exists out tm,
    wrapHandler (newMetricsMonitor [] 10) (Reference.clock 5) "test-model"
      Reference.newRecorder Reference.testRequest
      (Reference.respond "text/event-stream" 200 Reference.streamWithUsage)
    = Some out
    /\ emitted (monitor out) = [{| Metrics := tm |}]
    /\ ID tm = 0 /\ Model tm = "test-model".
Proof.
  destruct (wrapHandler (newMetricsMonitor [] 10) (Reference.clock 5)
              "test-model" Reference.newRecorder Reference.testRequest
              (Reference.respond "text/event-stream" 200
                 Reference.streamWithUsage)) as [out|] eqn:E;
    [|vm_compute in E; discriminate E].
  destruct (wrapHandler_one_event_per_request Reference_text_laws _ _ _ _ _ _ _ E)
    as [(He & _)|(tm & He & Hid & Hm & _)].
  - exfalso. vm_compute in E. injection E as <-. discriminate He.
  - exists out, tm. split; [reflexivity|]. split; [exact He|].
    split; [exact Hid|exact Hm].
Defined.

Lemma wrapHandler_never_logs_parse_error_witness :
  exists out msg,
    wrapHandler (newMetricsMonitor [] 10) (Reference.clock 5) "test-model"
      Reference.newRecorder Reference.testRequest
      (Reference.respond "application/json" 200 "not valid json") = Some out
    /\ logger (monitor out) = [{| level := LevelWarn; message := msg |}]
    /\ forall e p, msg <> MsgParseError e p.
Proof.
  destruct (wrapHandler (newMetricsMonitor [] 10) (Reference.clock 5)
              "test-model" Reference.newRecorder Reference.testRequest
              (Reference.respond "application/json" 200 "not valid json"))
    as [out|] eqn:E; [|vm_compute in E; discriminate E].
  destruct (wrapHandler_never_logs_parse_error Reference_text_laws
              _ _ _ _ _ _ _ E) as [_ [Hl|(msg & Hl & Hmsg & _)]].
  - exfalso. vm_compute in E. injection E as <-. discriminate Hl.
  - exists out, msg. split; [reflexivity|]. split; [exact Hl|exact Hmsg].
Defined.

Lemma wrapHandlerAll_preserves_wellFormed_witness :
  exists mp',
    wrapHandlerAll (newMetricsMonitor [] 1)
      [ {| exClock := Reference.clock 5; exModelID := "a";
           exWriter := Reference.newRecorder;
           exRequest := Reference.testRequest;
           exNext := Reference.respond "text/event-stream" 200
                       Reference.streamWithUsage |};
        {| exClock := Reference.clock 6; exModelID := "b";
           exWriter := Reference.newRecorder;
           exRequest := Reference.testRequest;
           exNext := Reference.respond "text/plain" 500 "error" |} ]
    = Some mp'
    /\ wellFormed mp' /\ maxMetrics mp' = 1.
Proof.
  destruct (wrapHandlerAll_preserves_wellFormed Reference_text_laws
              [ {| exClock := Reference.clock 5; exModelID := "a";
                   exWriter := Reference.newRecorder;
                   exRequest := Reference.testRequest;
                   exNext := Reference.respond "text/event-stream" 200
                               Reference.streamWithUsage |};
                {| exClock := Reference.clock 6; exModelID := "b";
                   exWriter := Reference.newRecorder;
                   exRequest := Reference.testRequest;
                   exNext := Reference.respond "text/plain" 500 "error" |} ]
              (newMetricsMonitor [] 1) (wellFormed_new [] 1 ltac:(lia)))
    as (mp' & E & Hwf & Hcap & _).
  exists mp'. split; [exact E|]. split; [exact Hwf|exact Hcap].
Defined.

Lemma wrapHandler_json_witness :
  exists tm mp',
    addMetrics (newMetricsMonitor [] 10) tm = Some mp'
    /\ wrapHandler (newMetricsMonitor [] 10) (Reference.clock 5) "test-model"
         Reference.newRecorder Reference.testRequest
         (Reference.respond "application/json" 200 "{'id':'x'}")
       = Some {| monitor := mp';
                 client := inner (served Reference.newRecorder (Reference.clock 5)
                                    (Reference.respond "application/json" 200
                                       "{'id':'x'}" "test-model"
                                       Reference.testRequest));
                 result_err := None |}
    /\ InputTokens tm = 0 /\ OutputTokens tm = 0 /\ CachedTokens tm = -1.
Proof.
  pose proof (wrapHandler_json
                (newMetricsMonitor [] 10) (Reference.clock 5) "test-model"
                Reference.newRecorder Reference.testRequest
                (Reference.respond "application/json" 200 "{'id':'x'}")
                (wellFormed_new [] 10 ltac:(lia)) eq_refl eq_refl
                ltac:(vm_compute; discriminate) eq_refl) as H.
  cbv zeta in H.
  destruct (ValidBytes _) eqn:Ev in H; [|vm_compute in Ev; discriminate Ev].
  destruct H as (tm & mp' & _ & Ha & Hw & Hu).
  exists tm, mp'. split; [exact Ha|]. split; [exact Hw|].
  apply Hu; reflexivity.
Defined.

(** ** More of [processStreamingResponse] *)

Section StreamingMore.
Context {G : GJson} {T : GoText}.
Hypothesis textLaws : GoTextLaws T.

Lemma carriesMetrics_valid (ps : list bytes) (d : bytes) :
  last (filter (fun d => carriesMetrics d = true) ps) = Some d ->
  existsb ValidBytes ps = true.
Proof.
  intros Hl. apply last_Some_elem_of in Hl.
  apply list_elem_of_filter in Hl as [Hc Hin].
  apply existsb_exists. exists d. split; [apply list_elem_of_In; exact Hin|].
  unfold carriesMetrics in Hc. apply andb_true_iff in Hc as [Hv _]. exact Hv.
Qed.

(** X8.  [processStreamingResponse] returns for every body, without a
    panic; it returns an error exactly when no [data:] payload of the body is
    valid JSON, the error is then "no valid JSON data found in stream", and
    otherwise it returns a metric. *)
Theorem processStreamingResponse_total (clk : Clock) (modelID : string)
    (start : Go.Time) (body : bytes) :
  exists r,
    processStreamingResponse clk modelID start body = Some r
    /\ (someValidPayload body = false <-> r = Err noValidJSON)
    /\ (someValidPayload body = true <-> exists tm, r = Ok tm)
    /\ (forall e, r = Err e -> e = noValidJSON).
Proof.
  rewrite (processStreamingResponse_spec textLaws). eexists.
  split; [reflexivity|].
  unfold streamingSpec, specLines, someValidPayload, payloads. cbn [orb].
  destruct (last _) as [data|] eqn:El.
  - rewrite (carriesMetrics_valid _ _ El).
    destruct (parseMetrics_Ok clk modelID start
                (Get (ParseBytes data) "usage")
                (Get (ParseBytes data) "timings")) as (tm & -> & _).
    split; [split; discriminate|]. split; [|discriminate].
    split; [eauto|reflexivity].
  - destruct (existsb _ _).
    + destruct (parseMetrics_Ok clk modelID start zeroResult zeroResult)
        as (tm & -> & _).
      split; [split; discriminate|]. split; [|discriminate].
      split; [eauto|reflexivity].
    + split; [split; reflexivity|]. split; [|intros e [= <-]; reflexivity].
      split; [discriminate|intros [tm Htm]; discriminate Htm].
Qed.

(** X9.  Lines after the body that carry no payload (blank lines, comments,
    [event:] lines, [data: [DONE]]) do not change what
    [processStreamingResponse] returns. *)
Theorem processStreamingResponse_trailing_lines (clk : Clock)
    (modelID : string) (start : Go.Time) (body tail : bytes) :
  Forall (fun line => dataPayload line = None) (lines tail) ->
  processStreamingResponse clk modelID start (body ++ newline :: tail)
  = processStreamingResponse clk modelID start body.
Proof.
  intros Htail. rewrite !(processStreamingResponse_spec textLaws). f_equal.
  unfold streamingSpec, specLines. rewrite lines_app_newline, omap_app.
  assert (Hnil : omap dataPayload (lines tail) = []).
  { induction Htail as [|l ls Hl _ IH]; [reflexivity|].
    cbn [omap list_omap]. rewrite Hl. exact IH. }
  rewrite Hnil, app_nil_r. reflexivity.
Qed.

(** X10.  Once a line carries [usage] or [timings], nothing above it counts:
    the result for a body is the result for its part from any line on, as
    soon as that part holds a payload that is valid JSON with [usage] or
    [timings]. *)
Theorem processStreamingResponse_ignores_earlier_lines (clk : Clock)
    (modelID : string) (start : Go.Time) (before rest : bytes) (data : bytes) :
  lastMetricsPayload rest = Some data ->
  processStreamingResponse clk modelID start (before ++ newline :: rest)
  = processStreamingResponse clk modelID start rest
  /\ processStreamingResponse clk modelID start rest
     = Some (parseMetrics clk modelID start
               (Get (ParseBytes data) "usage")
               (Get (ParseBytes data) "timings")).
Proof.
  unfold lastMetricsPayload, payloads. intros Hlast.
  rewrite !(processStreamingResponse_spec textLaws).
  unfold streamingSpec, specLines.
  rewrite lines_app_newline, omap_app, filter_app.
  assert (Hne : filter (fun d => carriesMetrics d = true)
                  (omap dataPayload (lines rest)) <> [])
    by (intros Hnil; rewrite Hnil in Hlast; discriminate Hlast).
  destruct (snoc_case (filter (fun d => carriesMetrics d = true)
                         (omap dataPayload (lines rest))))
    as [Hnil|(l' & y & Hsnoc)]; [contradiction|].
  rewrite Hsnoc in *. rewrite app_assoc, !last_snoc.
  rewrite last_snoc in Hlast. injection Hlast as ->.
  split; reflexivity.
Qed.

End StreamingMore.

Lemma processStreamingResponse_trailing_lines_witness :
  processStreamingResponse (Reference.clock 5) "m" 0
    (Reference.quoted Reference.streamWithUsage
     ++ newline :: Reference.quoted "data: [DONE]")
  = processStreamingResponse (Reference.clock 5) "m" 0
      (Reference.quoted Reference.streamWithUsage).
Proof.
  apply (processStreamingResponse_trailing_lines Reference_text_laws).
  vm_compute. repeat constructor.
Defined.

Lemma processStreamingResponse_ignores_earlier_lines_witness :
  processStreamingResponse (Reference.clock 5) "m" 0
    (Reference.quoted "data: {'usage':{'prompt_tokens':1}}"
     ++ newline :: Reference.quoted "data: {'usage':{'prompt_tokens':2}}")
  = processStreamingResponse (Reference.clock 5) "m" 0
      (Reference.quoted "data: {'usage':{'prompt_tokens':2}}").
Proof.
  apply (proj1 (processStreamingResponse_ignores_earlier_lines
                  (G := Reference.gjson) Reference_text_laws (Reference.clock 5) "m" 0
                  (Reference.quoted "data: {'usage':{'prompt_tokens':1}}")
                  (Reference.quoted "data: {'usage':{'prompt_tokens':2}}")
                  (Reference.quoted "{'usage':{'prompt_tokens':2}}")
                  ltac:(vm_compute; reflexivity))).
Defined.

Lemma processStreamingResponse_total_witness :
  processStreamingResponse (G := Reference.gjson) (Reference.clock 5) "m" 0
    (Reference.quoted "event: ping")
  = Some (Err noValidJSON).
Proof.
  destruct (processStreamingResponse_total (G := Reference.gjson)
              Reference_text_laws (Reference.clock 5) "m" 0
              (Reference.quoted "event: ping")) as (r & E & Hf & _).
  rewrite E. f_equal. apply Hf. vm_compute. reflexivity.
Defined.

(** ** More of [parseMetrics] *)

Section ParseMetricsMore.
Context {G : GJson} {T : GoText}.

(** X11.  Without [timings], the counts come from [usage], and of two keys
    for the same count the first one wins: [prompt_tokens] over
    [input_tokens], [completion_tokens] over [output_tokens]; the cached
    count is [cache_read_input_tokens]. *)
Theorem parseMetrics_usage_precedence (clk : Clock) (modelID : string)
    (start : Go.Time) (usage timings : Result) :
  Exists timings = false ->
  Exists usage = true ->
  exists tm,
    parseMetrics clk modelID start usage timings = Ok tm
    /\ (Exists (Get usage "prompt_tokens") = true ->
        InputTokens tm = Int (Get usage "prompt_tokens"))
    /\ (Exists (Get usage "prompt_tokens") = false ->
        Exists (Get usage "input_tokens") = true ->
        InputTokens tm = Int (Get usage "input_tokens"))
    /\ (Exists (Get usage "completion_tokens") = true ->
        OutputTokens tm = Int (Get usage "completion_tokens"))
    /\ (Exists (Get usage "completion_tokens") = false ->
        Exists (Get usage "output_tokens") = true ->
        OutputTokens tm = Int (Get usage "output_tokens"))
    /\ (Exists (Get usage "cache_read_input_tokens") = true ->
        CachedTokens tm = Int (Get usage "cache_read_input_tokens")).
Proof.
  intros Ht Hu. unfold parseMetrics. rewrite Ht, Hu. cbv beta iota zeta.
  eexists. split; [reflexivity|].
  cbn [InputTokens OutputTokens CachedTokens].
  repeat split; intros; repeat match goal with
                               | H : Exists _ = _ |- _ => rewrite H; clear H
                               end; reflexivity.
Qed.

(** X12.  With a [timings] object that has [cache_n], the metric is a
    function of [timings], the model ID and the time stamp alone: [usage],
    the start of the request and the time elapsed since do not enter it. *)
Theorem parseMetrics_timings_alone (clk clk' : Clock) (modelID : string)
    (start start' : Go.Time) (usage usage' timings : Result) :
  Exists timings = true ->
  Exists (Get timings "cache_n") = true ->
  stampNow clk = stampNow clk' ->
  parseMetrics clk modelID start usage timings
  = parseMetrics clk' modelID start' usage' timings.
Proof.
  intros Ht Hc Hs.
  rewrite (parseMetrics_timings_eq clk _ start usage _ Ht).
  rewrite (parseMetrics_timings_eq clk' _ start' usage' _ Ht).
  rewrite Hc, Hs. reflexivity.
Qed.

End ParseMetricsMore.

Lemma parseMetrics_usage_precedence_witness :
  exists tm,
    parseMetrics (G := Reference.gjson) (Reference.clock 0) "m" 0
      (ParseBytes (Reference.quoted
                     "{'prompt_tokens':3,'input_tokens':9,'output_tokens':4}"))
      zeroResult = Ok tm
    /\ InputTokens tm = 3 /\ OutputTokens tm = 4.
Proof.
  destruct (parseMetrics_usage_precedence (G := Reference.gjson)
              (Reference.clock 0) "m" 0
              (ParseBytes (Reference.quoted
                 "{'prompt_tokens':3,'input_tokens':9,'output_tokens':4}"))
              zeroResult eq_refl eq_refl)
    as (tm & E & Hi & _ & _ & Ho & _).
  exists tm. split; [exact E|].
  split; [rewrite Hi; reflexivity|rewrite Ho; reflexivity].
Defined.

Lemma parseMetrics_timings_alone_witness :
  parseMetrics (G := Reference.gjson)
    {| startNow := 1; sinceNow := 50; stampNow := 60 |} "m" 0
    (ParseBytes (Reference.quoted "{'prompt_tokens':3}"))
    (ParseBytes (Reference.quoted "{'prompt_n':7,'cache_n':2}"))
  = parseMetrics (G := Reference.gjson)
      {| startNow := 2; sinceNow := 700; stampNow := 60 |} "m" 40
      zeroResult (ParseBytes (Reference.quoted "{'prompt_n':7,'cache_n':2}")).
Proof.
  apply (parseMetrics_timings_alone (G := Reference.gjson));
    vm_compute; reflexivity.
Defined.

(** ** More of [ModelConfig.UnmarshalYAML] *)

Section UnmarshalYAMLMore.
Context {MacroList Any : Type} (nilMacroList : MacroList) {T : GoText}.

Implicit Types (m decoded : Config.ModelConfig MacroList Any)
  (unmarshal : Config.ModelConfig MacroList Any ->
               Config.ModelConfig MacroList Any * option Go.error).

Lemma isValidMethod_true (k : string) :
  Config.isValidMethod k = true <-> k ∈ ["GET"; "POST"; "PUT"; "PATCH"].
Proof.
  unfold Config.isValidMethod, Config.validMethods. split.
  - intros H.
    destruct (decide (k = "GET")) as [->|H1]; [set_solver|].
    destruct (decide (k = "POST")) as [->|H2]; [set_solver|].
    destruct (decide (k = "PUT")) as [->|H3]; [set_solver|].
    destruct (decide (k = "PATCH")) as [->|H4]; [set_solver|].
    rewrite !lookup_insert_ne, lookup_empty in H by congruence.
    discriminate H.
  - intros H. repeat (apply elem_of_cons in H as [->|H]; [reflexivity|]).
    exfalso. exact (not_elem_of_nil _ H).
Qed.

Lemma set_SleepMethod_same m :
  Config.set_SleepMethod _ _ (Config.SleepMethod m) m = m.
Proof. destruct m. reflexivity. Qed.

Lemma set_WakeMethod_same m :
  Config.set_WakeMethod _ _ (Config.WakeMethod m) m = m.
Proof. destruct m. reflexivity. Qed.

(** What [UnmarshalYAML] accepts. *)
Lemma UnmarshalYAML_accepted (goos : string) m decoded unmarshal m' :
  unmarshal (Config.defaultsFor nilMacroList goos) = (decoded, None) ->
  Config.UnmarshalYAML nilMacroList goos m unmarshal = (m', None) ->
  (Config.SleepEndpoint m' = "" <-> Config.WakeEndpoint m' = "")
  /\ (Config.SleepEndpoint m' = "" /\ Config.SleepMethod m' = ""
      \/ Config.SleepMethod m' ∈ ["GET"; "POST"; "PUT"; "PATCH"])
  /\ (Config.WakeEndpoint m' = "" /\ Config.WakeMethod m' = ""
      \/ Config.WakeMethod m' ∈ ["GET"; "POST"; "PUT"; "PATCH"])
  /\ m' = Config.set_WakeMethod _ _ (Config.WakeMethod m')
            (Config.set_SleepMethod _ _ (Config.SleepMethod m') decoded).
Proof.
  intros Hu. unfold Config.UnmarshalYAML. rewrite Hu.
  destruct (Config.nonEmpty (Config.SleepEndpoint decoded)) eqn:Ese;
    destruct (Config.nonEmpty (Config.WakeEndpoint decoded)) eqn:Ewe;
    cbn [andb negb]; try discriminate;
    destruct (Config.nonEmpty (Config.SleepMethod decoded)) eqn:Esm;
    destruct (Config.nonEmpty (Config.WakeMethod decoded)) eqn:Ewm;
    cbn [andb negb Config.SleepMethod Config.WakeMethod Config.set_SleepMethod
         Config.set_WakeMethod Config.SleepEndpoint Config.WakeEndpoint];
    rewrite ?Ese, ?Ewe, ?Esm, ?Ewm;
    cbn [andb negb Config.SleepMethod Config.WakeMethod Config.set_SleepMethod
         Config.set_WakeMethod Config.SleepEndpoint Config.WakeEndpoint];
    change (Config.nonEmpty "POST") with true; cbn [andb negb];
    rewrite ?Ese, ?Ewe, ?Esm, ?Ewm; cbn [andb negb];
    repeat match goal with
           | |- context [Config.isValidMethod ?k] =>
               let E := fresh "Ev" in
               destruct (Config.isValidMethod k) eqn:E; cbn [negb];
               [apply isValidMethod_true in E|try discriminate]
           end;
    cbn [andb negb Config.SleepMethod Config.WakeMethod Config.set_SleepMethod
         Config.set_WakeMethod Config.SleepEndpoint Config.WakeEndpoint];
    rewrite ?Ese, ?Ewe, ?Esm, ?Ewm;
    cbn [andb negb Config.SleepMethod Config.WakeMethod Config.set_SleepMethod
         Config.set_WakeMethod Config.SleepEndpoint Config.WakeEndpoint];
    try discriminate;
    intros [= <-];
    cbn [Config.SleepMethod Config.WakeMethod Config.set_SleepMethod
         Config.set_WakeMethod Config.SleepEndpoint Config.WakeEndpoint];
    try apply nonEmpty_true in Ese; try apply nonEmpty_false in Ese;
    try apply nonEmpty_true in Ewe; try apply nonEmpty_false in Ewe;
    try apply nonEmpty_true in Esm; try apply nonEmpty_false in Esm;
    try apply nonEmpty_true in Ewm; try apply nonEmpty_false in Ewm;
    (split; [tauto|]);
    (split; [first [right; assumption | left; split; assumption]|]);
    (split; [first [right; assumption | left; split; assumption]|]);
    destruct decoded; cbn in *; subst; reflexivity.
Qed.

(** X13.  When the YAML node does not decode, [UnmarshalYAML] returns the
    error of the decoder and leaves the receiver as it was.  When it decodes,
    what the receiver held before is gone whatever is returned: the receiver
    is the decoded value, except for the two methods, and when an endpoint is
    missing it is the decoded value as it is. *)
Theorem UnmarshalYAML_receiver (goos : string) m unmarshal :
  (forall partial e,
      unmarshal (Config.defaultsFor nilMacroList goos) = (partial, Some e) ->
      Config.UnmarshalYAML nilMacroList goos m unmarshal = (m, Some e))
  /\ (forall decoded,
         unmarshal (Config.defaultsFor nilMacroList goos) = (decoded, None) ->
         let out := Config.UnmarshalYAML nilMacroList goos m unmarshal in
         fst out = Config.set_WakeMethod _ _ (Config.WakeMethod (fst out))
                     (Config.set_SleepMethod _ _ (Config.SleepMethod (fst out))
                        decoded)
         /\ (snd out = Some Config.errWakeEndpointRequired
             \/ snd out = Some Config.errSleepEndpointRequired ->
             fst out = decoded)).
Proof.
  split.
  - intros partial e Hu. unfold Config.UnmarshalYAML. rewrite Hu. reflexivity.
  - intros decoded Hu. cbv zeta. unfold Config.UnmarshalYAML. rewrite Hu.
    destruct (Config.nonEmpty (Config.SleepEndpoint decoded) && _).
    { cbn [fst snd]. split; [|reflexivity].
      rewrite set_SleepMethod_same, set_WakeMethod_same. reflexivity. }
    destruct (Config.nonEmpty (Config.WakeEndpoint decoded) && _).
    { cbn [fst snd]. split; [|reflexivity].
      rewrite set_SleepMethod_same, set_WakeMethod_same. reflexivity. }
    split.
    + repeat match goal with
             | |- context [if ?b then _ else _] => destruct b
             end;
        cbn [fst]; destruct decoded; reflexivity.
    + repeat match goal with
             | |- context [if ?b then _ else _] => destruct b
             end;
        cbn [snd]; intros [H|H]; discriminate H.
Qed.

(** X14.  A configuration that [UnmarshalYAML] accepts has both endpoints or
    neither; each of its methods is one of GET, POST, PUT and PATCH, or is
    empty, which it can be only when its endpoint is empty; and nothing but
    the two methods differs from what was decoded. *)
Theorem UnmarshalYAML_accepts (goos : string) m decoded unmarshal :
  unmarshal (Config.defaultsFor nilMacroList goos) = (decoded, None) ->
  snd (Config.UnmarshalYAML nilMacroList goos m unmarshal) = None ->
  let m' := fst (Config.UnmarshalYAML nilMacroList goos m unmarshal) in
  (Config.SleepEndpoint m' = "" <-> Config.WakeEndpoint m' = "")
  /\ (Config.SleepEndpoint m' = "" /\ Config.SleepMethod m' = ""
      \/ Config.SleepMethod m' ∈ ["GET"; "POST"; "PUT"; "PATCH"])
  /\ (Config.WakeEndpoint m' = "" /\ Config.WakeMethod m' = ""
      \/ Config.WakeMethod m' ∈ ["GET"; "POST"; "PUT"; "PATCH"])
  /\ m' = Config.set_WakeMethod _ _ (Config.WakeMethod m')
            (Config.set_SleepMethod _ _ (Config.SleepMethod m') decoded).
Proof.
  intros Hu Hnone. cbv zeta.
  apply (UnmarshalYAML_accepted goos m decoded unmarshal); [exact Hu|].
  destruct (Config.UnmarshalYAML nilMacroList goos m unmarshal) as [m' err].
  cbn [snd] in Hnone. rewrite Hnone. reflexivity.
Qed.


(** X16.  With both endpoints and no method, both methods become POST; with
    no endpoint and no method the decoded configuration is accepted as it
    is. *)
Theorem UnmarshalYAML_default_methods (goos : string) m decoded unmarshal :
  unmarshal (Config.defaultsFor nilMacroList goos) = (decoded, None) ->
  Config.SleepMethod decoded = "" ->
  Config.WakeMethod decoded = "" ->
  (Config.SleepEndpoint decoded <> "" ->
   Config.WakeEndpoint decoded <> "" ->
   ToUpper "POST" = "POST" ->
   Config.UnmarshalYAML nilMacroList goos m unmarshal
   = (Config.set_WakeMethod _ _ "POST"
        (Config.set_SleepMethod _ _ "POST" decoded), None))
  /\ (Config.SleepEndpoint decoded = "" ->
      Config.WakeEndpoint decoded = "" ->
      Config.UnmarshalYAML nilMacroList goos m unmarshal = (decoded, None)).
Proof.
  intros Hu Hsm Hwm. unfold Config.UnmarshalYAML. rewrite Hu.
  split.
  - intros Hse Hwe Hup. apply nonEmpty_true in Hse, Hwe.
    apply nonEmpty_false in Hsm, Hwm.
    repeat (rewrite ?Hse, ?Hwe, ?Hsm, ?Hwm, ?Hup;
            cbn [andb negb Config.WakeEndpoint Config.SleepEndpoint
                 Config.WakeMethod Config.SleepMethod Config.set_SleepMethod
                 Config.set_WakeMethod];
            change (Config.nonEmpty "POST") with true;
            change (Config.isValidMethod "POST") with true).
    reflexivity.
  - intros Hse Hwe. apply nonEmpty_false in Hse, Hwe, Hsm, Hwm.
    repeat (rewrite ?Hse, ?Hwe, ?Hsm, ?Hwm; cbn [andb negb]).
    reflexivity.
Qed.

(** X17.  [UnmarshalYAML] is idempotent on what it accepts: a node that
    decodes to an accepted configuration is accepted, and gives that
    configuration again. *)
Theorem UnmarshalYAML_idempotent (goos : string) m m0 decoded m'
    unmarshal unmarshal' :
  (forall k, k ∈ ["GET"; "POST"; "PUT"; "PATCH"] -> ToUpper k = k) ->
  unmarshal (Config.defaultsFor nilMacroList goos) = (decoded, None) ->
  Config.UnmarshalYAML nilMacroList goos m unmarshal = (m', None) ->
  unmarshal' (Config.defaultsFor nilMacroList goos) = (m', None) ->
  Config.UnmarshalYAML nilMacroList goos m0 unmarshal' = (m', None).
Proof.
  intros Hup Hu Hacc Hu'.
  destruct (UnmarshalYAML_accepted goos m decoded unmarshal m' Hu Hacc)
    as (Hends & Hs & Hw & _).
  unfold Config.UnmarshalYAML. rewrite Hu'.
  assert (Hsv : Config.nonEmpty (Config.SleepMethod m') = true ->
                Config.SleepMethod m' ∈ ["GET"; "POST"; "PUT"; "PATCH"]).
  { intros Hne. apply nonEmpty_true in Hne.
    destruct Hs as [[_ Hs]|Hs]; [congruence|exact Hs]. }
  assert (Hwv : Config.nonEmpty (Config.WakeMethod m') = true ->
                Config.WakeMethod m' ∈ ["GET"; "POST"; "PUT"; "PATCH"]).
  { intros Hne. apply nonEmpty_true in Hne.
    destruct Hw as [[_ Hw]|Hw]; [congruence|exact Hw]. }
  assert (Hse : Config.nonEmpty (Config.SleepEndpoint m') = true ->
                Config.nonEmpty (Config.SleepMethod m') = true).
  { intros Hne. apply nonEmpty_true in Hne. apply nonEmpty_true.
    destruct Hs as [[Hs _]|Hs]; [congruence|].
    intros Heq. rewrite Heq in Hs.
    repeat (apply elem_of_cons in Hs as [Hs|Hs]; [discriminate Hs|]).
    exact (not_elem_of_nil _ Hs). }
  assert (Hwe : Config.nonEmpty (Config.WakeEndpoint m') = true ->
                Config.nonEmpty (Config.WakeMethod m') = true).
  { intros Hne. apply nonEmpty_true in Hne. apply nonEmpty_true.
    destruct Hw as [[Hw _]|Hw]; [congruence|].
    intros Heq. rewrite Heq in Hw.
    repeat (apply elem_of_cons in Hw as [Hw|Hw]; [discriminate Hw|]).
    exact (not_elem_of_nil _ Hw). }
  assert (Hsame : Config.nonEmpty (Config.SleepEndpoint m')
                  = Config.nonEmpty (Config.WakeEndpoint m')).
  { destruct (Config.nonEmpty (Config.SleepEndpoint m')) eqn:Es;
      destruct (Config.nonEmpty (Config.WakeEndpoint m')) eqn:Ew;
      try reflexivity.
    - apply nonEmpty_true in Es. apply nonEmpty_false in Ew. tauto.
    - apply nonEmpty_false in Es. apply nonEmpty_true in Ew. tauto. }
  assert (Hs1 : Config.nonEmpty (Config.SleepMethod m') = true ->
                ToUpper (Config.SleepMethod m') = Config.SleepMethod m'
                /\ Config.isValidMethod (Config.SleepMethod m') = true).
  { intros Hne. split; [apply Hup, Hsv, Hne|apply isValidMethod_true, Hsv, Hne]. }
  assert (Hw1 : Config.nonEmpty (Config.WakeMethod m') = true ->
                ToUpper (Config.WakeMethod m') = Config.WakeMethod m'
                /\ Config.isValidMethod (Config.WakeMethod m') = true).
  { intros Hne. split; [apply Hup, Hwv, Hne|apply isValidMethod_true, Hwv, Hne]. }
  rewrite Hsame in *.
  destruct (Config.nonEmpty (Config.WakeEndpoint m')) eqn:Ewe;
    destruct (Config.nonEmpty (Config.SleepMethod m')) eqn:Esm;
    destruct (Config.nonEmpty (Config.WakeMethod m')) eqn:Ewm;
    try (specialize (Hse eq_refl); discriminate Hse);
    try (specialize (Hwe eq_refl); discriminate Hwe);
    try (destruct (Hs1 eq_refl) as [Hsu Hsok]);
    try (destruct (Hw1 eq_refl) as [Hwu Hwok]);
    clear Hs1 Hw1 Hsv Hwv Hse Hwe;
    repeat (rewrite ?Ewe, ?Esm, ?Ewm, ?Hsu, ?Hsok, ?Hwu, ?Hwok,
              ?set_SleepMethod_same, ?set_WakeMethod_same;
            cbn [andb negb]);
    reflexivity.
Qed.

End UnmarshalYAMLMore.

Lemma UnmarshalYAML_receiver_witness :
  Config.UnmarshalYAML tt "linux" (Reference.modelConfig 7 "" "")
    (fun defaults => (defaults, Some "yaml: line 3: cannot unmarshal"))
  = (Reference.modelConfig 7 "" "", Some "yaml: line 3: cannot unmarshal").
Proof.
  apply (proj1 (UnmarshalYAML_receiver tt "linux"
                  (Reference.modelConfig 7 "" "")
                  (fun defaults =>
                     (defaults, Some "yaml: line 3: cannot unmarshal")))
           (Config.defaultsFor tt "linux")).
  reflexivity.
Defined.

Lemma UnmarshalYAML_accepts_witness :
  Config.SleepMethod
    (fst (Config.UnmarshalYAML tt "linux" (Reference.modelConfig 0 "" "")
            (fun _ => (Config.set_SleepMethod _ _ "put"
                         (Reference.modelConfig 0 "/sleep" "/wake_up"), None))))
  ∈ ["GET"; "POST"; "PUT"; "PATCH"].
Proof.
  destruct (UnmarshalYAML_accepts (T := Reference.text) tt "linux"
              (Reference.modelConfig 0 "" "")
              (Config.set_SleepMethod _ _ "put"
                 (Reference.modelConfig 0 "/sleep" "/wake_up"))
              (fun _ => (Config.set_SleepMethod _ _ "put"
                           (Reference.modelConfig 0 "/sleep" "/wake_up"), None))
              eq_refl ltac:(vm_compute; reflexivity))
    as (_ & [[He _]|Hs] & _).
  - vm_compute in He. discriminate He.
  - exact Hs.
Defined.


Lemma UnmarshalYAML_default_methods_witness :
  Config.UnmarshalYAML tt "linux" (Reference.modelConfig 0 "" "")
    (fun _ => (Reference.modelConfig 0 "/sleep" "/wake_up", None))
  = (Config.set_WakeMethod _ _ "POST"
       (Config.set_SleepMethod _ _ "POST"
          (Reference.modelConfig 0 "/sleep" "/wake_up")), None).
Proof.
  apply (proj1 (UnmarshalYAML_default_methods (T := Reference.text) tt "linux"
                  (Reference.modelConfig 0 "" "")
                  (Reference.modelConfig 0 "/sleep" "/wake_up")
                  (fun _ => (Reference.modelConfig 0 "/sleep" "/wake_up", None))
                  eq_refl eq_refl eq_refl));
    [discriminate|discriminate|reflexivity].
Defined.

Lemma UnmarshalYAML_idempotent_witness :
  let accepted :=
    Config.set_WakeMethod _ _ "POST"
      (Config.set_SleepMethod _ _ "PATCH"
         (Reference.modelConfig 0 "/sleep" "/wake_up")) in
  Config.UnmarshalYAML tt "linux" (Reference.modelConfig 3 "" "")
    (fun _ => (accepted, None))
  = (accepted, None).
Proof.
  cbv zeta.
  apply (UnmarshalYAML_idempotent (T := Reference.text) tt "linux" (Reference.modelConfig 0 "" "")
           (Reference.modelConfig 3 "" "")
           (Config.set_SleepMethod _ _ "patch"
              (Reference.modelConfig 0 "/sleep" "/wake_up"))
           _
           (fun _ => (Config.set_SleepMethod _ _ "patch"
                        (Reference.modelConfig 0 "/sleep" "/wake_up"), None))).
  - intros k Hk.
    repeat (apply elem_of_cons in Hk as [->|Hk]; [reflexivity|]).
    exfalso. exact (not_elem_of_nil _ Hk).
  - reflexivity.
  - reflexivity.
  - reflexivity.
Defined.

(** ** Package [config]: the request filters *)

Lemma String_leb_trans (a b c : string) :
  String.leb a b = true -> String.leb b c = true -> String.leb a c = true.
Proof.
  unfold String.leb. revert b c.
  induction a as [|x a IH]; intros [|y b] [|z c]; cbn [String.compare];
    try (intros; reflexivity); try (intros; discriminate).
  unfold Ascii.compare.
  destruct (N.compare_spec (N_of_ascii x) (N_of_ascii y)) as [Hxy|Hxy|Hxy];
    destruct (N.compare_spec (N_of_ascii y) (N_of_ascii z)) as [Hyz|Hyz|Hyz];
    destruct (N.compare_spec (N_of_ascii x) (N_of_ascii z)) as [Hxz|Hxz|Hxz];
    try (intros; reflexivity); try (intros; discriminate); try lia.
  apply IH.
Qed.

Lemma stringLe_total : Total Filters.stringLe.
Proof.
  intros a b. unfold Filters.stringLe.
  destruct (String.leb_total a b) as [-> | ->]; [left|right]; exact I.
Qed.

Lemma stringLe_trans : Transitive Filters.stringLe.
Proof.
  intros a b c. unfold Filters.stringLe. rewrite !Is_true_true.
  apply String_leb_trans.
Qed.

Lemma Sort_Permutation (l : list string) : Filters.Sort l ≡ₚ l.
Proof. apply merge_sort_Permutation. Qed.

Lemma Sort_sorted (l : list string) :
  StronglySorted Filters.stringLe (Filters.Sort l).
Proof.
  apply (@StronglySorted_merge_sort _ Filters.stringLe _ stringLe_trans
           stringLe_total).
Qed.

Section SanitizeFacts.
Context {T : GoText}.

(** The loop keeps [cleaned] free of duplicates, with [seen] its set of
    members, and adds the trimmed parameters that pass the test. *)
Lemma cleanLoop_spec (params : list string) :
  forall (cleaned : list string) (seen : gmap string bool),
    (forall x, default false (seen !! x) = true <-> x ∈ cleaned) ->
    NoDup cleaned ->
    NoDup (Filters.cleanLoop params cleaned seen)
    /\ forall x,
         x ∈ Filters.cleanLoop params cleaned seen
         <-> x ∈ cleaned
             \/ (x <> "model" /\ x <> ""
                 /\ exists p, p ∈ params /\ x = Filters.TrimSpaceString p).
Proof.
  induction params as [|param params IH]; intros cleaned seen Hseen Hnd.
  - cbn [Filters.cleanLoop]. split; [exact Hnd|]. intros x. split; [auto|].
    intros [Hx|(_ & _ & p & Hp & _)]; [exact Hx|].
    exfalso. exact (not_elem_of_nil _ Hp).
  - cbn [Filters.cleanLoop].
    set (trimmed := Filters.TrimSpaceString param).
    destruct (String.eqb_spec trimmed "model") as [Hm|Hm]; cbn [orb].
    { destruct (IH cleaned seen Hseen Hnd) as [Hnd' Hin].
      split; [exact Hnd'|]. intros x. rewrite Hin. split.
      - intros [Hx|(H1 & H2 & p & Hp & Hxp)]; [left; exact Hx|].
        right. split; [exact H1|]. split; [exact H2|].
        exists p. split; [apply elem_of_cons; right; exact Hp|exact Hxp].
      - intros [Hx|(H1 & H2 & p & Hp & Hxp)]; [left; exact Hx|].
        apply elem_of_cons in Hp as [->|Hp]; [fold trimmed in Hxp; congruence|].
        right. split; [exact H1|]. split; [exact H2|]. exists p. auto. }
    destruct (String.eqb_spec trimmed "") as [He|He]; cbn [orb].
    { destruct (IH cleaned seen Hseen Hnd) as [Hnd' Hin].
      split; [exact Hnd'|]. intros x. rewrite Hin. split.
      - intros [Hx|(H1 & H2 & p & Hp & Hxp)]; [left; exact Hx|].
        right. split; [exact H1|]. split; [exact H2|].
        exists p. split; [apply elem_of_cons; right; exact Hp|exact Hxp].
      - intros [Hx|(H1 & H2 & p & Hp & Hxp)]; [left; exact Hx|].
        apply elem_of_cons in Hp as [->|Hp]; [fold trimmed in Hxp; congruence|].
        right. split; [exact H1|]. split; [exact H2|]. exists p. auto. }
    destruct (default false (seen !! trimmed)) eqn:Es.
    { apply Hseen in Es.
      destruct (IH cleaned seen Hseen Hnd) as [Hnd' Hin].
      split; [exact Hnd'|]. intros x. rewrite Hin. split.
      - intros [Hx|(H1 & H2 & p & Hp & Hxp)]; [left; exact Hx|].
        right. split; [exact H1|]. split; [exact H2|].
        exists p. split; [apply elem_of_cons; right; exact Hp|exact Hxp].
      - intros [Hx|(H1 & H2 & p & Hp & Hxp)]; [left; exact Hx|].
        apply elem_of_cons in Hp as [->|Hp];
          [fold trimmed in Hxp; left; congruence|].
        right. split; [exact H1|]. split; [exact H2|]. exists p. auto. }
    assert (Hnot : trimmed ∉ cleaned).
    { intros Hin. apply Hseen in Hin. congruence. }
    destruct (IH (cleaned ++ [trimmed]) (<[trimmed := true]> seen))
      as [Hnd' Hin].
    { intros x. rewrite elem_of_app, list_elem_of_singleton.
      destruct (decide (x = trimmed)) as [->|Hne].
      - rewrite lookup_insert_eq. cbn. split; auto.
      - rewrite lookup_insert_ne by congruence. rewrite Hseen.
        split; [auto|]. intros [Hx|Hx]; [exact Hx|contradiction]. }
    { apply NoDup_app. split; [exact Hnd|].
      split; [|apply NoDup_singleton].
      intros x Hx Hx'. apply list_elem_of_singleton in Hx'. subst x.
      contradiction. }
    split; [exact Hnd'|]. intros x. rewrite Hin.
    rewrite elem_of_app, list_elem_of_singleton. split.
    + intros [[Hx| ->]|(H1 & H2 & p & Hp & Hxp)].
      * left. exact Hx.
      * right. split; [exact Hm|]. split; [exact He|].
        exists param. split; [apply elem_of_cons; left; reflexivity|reflexivity].
      * right. split; [exact H1|]. split; [exact H2|].
        exists p. split; [apply elem_of_cons; right; exact Hp|exact Hxp].
    + intros [Hx|(H1 & H2 & p & Hp & Hxp)]; [left; left; exact Hx|].
      apply elem_of_cons in Hp as [->|Hp]; [left; right; exact Hxp|].
      right. split; [exact H1|]. split; [exact H2|]. exists p. auto.
Qed.

(** X18.  [SanitizedStripParams] never fails.  What it returns is sorted
    and without duplicates; its members are the entries of the
    comma-separated list, trimmed, other than [model] and the empty string:
    the model parameter can never be stripped. *)
Theorem SanitizedStripParams_spec (f : Config.ModelFilters) :
  GoTextLaws T ->
  exists out,
    Filters.SanitizedStripParams f = (out, None)
    /\ NoDup out
    /\ StronglySorted Filters.stringLe out
    /\ ("model" ∉ out)
    /\ (forall x,
          x ∈ out
          <-> x <> "model" /\ x <> ""
              /\ exists p, p ∈ Filters.Split (Config.StripParams f) ","
                           /\ x = Filters.TrimSpaceString p).
Proof.
  intros laws. unfold Filters.SanitizedStripParams.
  destruct (String.eqb_spec (Config.StripParams f) "") as [He|He].
  - exists []. split; [reflexivity|]. split; [constructor|].
    split; [constructor|]. split; [apply not_elem_of_nil|].
    intros x. split; [intros Hx; exfalso; exact (not_elem_of_nil _ Hx)|].
    intros (_ & Hne & p & Hp & Hx). rewrite He in Hp. cbn in Hp.
    apply list_elem_of_singleton in Hp. subst p.
    unfold Filters.TrimSpaceString in Hx. cbn in Hx.
    rewrite (TrimSpace_nil T laws) in Hx. cbn in Hx. contradiction.
  - cbv zeta. eexists. split; [reflexivity|].
    destruct (cleanLoop_spec (Filters.Split (Config.StripParams f) ",") [] ∅)
      as [Hnd Hin].
    { intros x. rewrite lookup_empty. cbn. split; [discriminate|].
      intros Hx. exfalso. exact (not_elem_of_nil _ Hx). }
    { constructor. }
    assert (Hmem : forall x,
               x ∈ Filters.Sort
                     (Filters.cleanLoop
                        (Filters.Split (Config.StripParams f) ",") [] ∅)
               <-> x <> "model" /\ x <> ""
                   /\ exists p, p ∈ Filters.Split (Config.StripParams f) ","
                                /\ x = Filters.TrimSpaceString p).
    { intros x. rewrite (Sort_Permutation _), Hin. split; [|auto].
      intros [Hx|Hx]; [exfalso; exact (not_elem_of_nil _ Hx)|exact Hx]. }
    split; [rewrite (Sort_Permutation _); exact Hnd|].
    split; [apply Sort_sorted|].
    split; [|exact Hmem].
    intros Hmodel. apply Hmem in Hmodel as [Hne _]. congruence.
Qed.

End SanitizeFacts.

(** X19.  [ModelFilters.UnmarshalYAML] changes the receiver only when it
    returns nil; the value under [stripParams] is kept when it is not empty,
    and the legacy key [strip_params] is then not looked at; otherwise the
    value under the legacy key is taken, and an error of that decoding is
    returned under the prefix of the legacy key. *)
Theorem ModelFilters_UnmarshalYAML_keys (m : Config.ModelFilters)
    (node : Filters.Node) :
  let out := Filters.UnmarshalYAML m node in
  let decoded := fst (Filters.decodeFilters node {| Config.StripParams := "" |}) in
  (snd out <> None -> fst out = m)
  /\ (snd out = None ->
      Config.StripParams (fst out)
      = if String.eqb (Config.StripParams decoded) ""
        then fst (Filters.decodeLegacy node "")
        else Config.StripParams decoded)
  /\ (forall node',
         Filters.decodeFilters node' = Filters.decodeFilters node ->
         snd (Filters.decodeFilters node {| Config.StripParams := "" |}) = None ->
         Config.StripParams decoded <> "" ->
         Filters.UnmarshalYAML m node' = (decoded, None))
  /\ (forall e,
         snd (Filters.decodeFilters node {| Config.StripParams := "" |}) = None ->
         Config.StripParams decoded = "" ->
         snd (Filters.decodeLegacy node "") = Some e ->
         out = (m, Some (Filters.errLegacy e))).
Proof.
  cbv zeta. unfold Filters.UnmarshalYAML.
  destruct (Filters.decodeFilters node {| Config.StripParams := "" |})
    as [decoded [e|]] eqn:Ed; cbn [fst snd].
  { split; [reflexivity|]. split; [discriminate|].
    split; [discriminate|discriminate]. }
  destruct (String.eqb_spec (Config.StripParams decoded) "") as [He|He].
  - destruct (Filters.decodeLegacy node "") as [legacy [e|]] eqn:El;
      cbn [fst snd].
    + split; [reflexivity|]. split; [discriminate|].
      split; [intros; contradiction|]. intros e' _ _ [= <-]. reflexivity.
    + split; [intros H; contradiction|]. split; [reflexivity|].
      split; [intros; contradiction|]. discriminate.
  - cbn [fst snd]. split; [intros H; contradiction|]. split; [reflexivity|].
    split; [|intros; contradiction].
    intros node' Hsame _ _. rewrite Hsame, Ed.
    destruct (String.eqb_spec (Config.StripParams decoded) "");
      [contradiction|reflexivity].
Qed.

Lemma SanitizedStripParams_spec_witness :
  exists out,
    Filters.SanitizedStripParams
      {| Config.StripParams := "top_k, model,temperature,,top_k" |} = (out, None)
    /\ NoDup out /\ ("model" ∉ out) /\ "top_k" ∈ out.
Proof.
  destruct (SanitizedStripParams_spec
              {| Config.StripParams := "top_k, model,temperature,,top_k" |}
              Reference_text_laws) as (out & E & Hnd & _ & Hm & Hin).
  exists out. split; [exact E|]. split; [exact Hnd|]. split; [exact Hm|].
  apply Hin. split; [discriminate|]. split; [discriminate|].
  exists "top_k". split; [|reflexivity].
  vm_compute. repeat constructor.
Defined.

Lemma ModelFilters_UnmarshalYAML_keys_witness :
  let node :=
    {| Filters.decodeFilters := fun d => (d, None);
       Filters.decodeLegacy := fun _ => ("temperature", None) |} in
  Config.StripParams
    (fst (Filters.UnmarshalYAML {| Config.StripParams := "old" |} node))
  = "temperature".
Proof.
  cbv zeta.
  rewrite (proj1 (proj2 (ModelFilters_UnmarshalYAML_keys
                           {| Config.StripParams := "old" |}
                           {| Filters.decodeFilters := fun d => (d, None);
                              Filters.decodeLegacy :=
                                fun _ => ("temperature", None) |}))
             eq_refl).
  reflexivity.
Defined.

(** ** More of the [UnloadAfter] goroutine *)

Section UnloadAfterMore.
Context {MacroList Any : Type}.

Implicit Types (config : Config.ModelConfig MacroList Any)
  (ticks : list TickView).

Lemma isReady_false (s : ProcessState) : s <> StateReady -> isReady s = false.
Proof. destruct s; try reflexivity. contradiction. Qed.

Lemma isReady_true (s : ProcessState) : isReady s = true -> s = StateReady.
Proof. destruct s; try discriminate. reflexivity. Qed.

Lemma unloadLoop_stop config ticks :
  ProcessStop ∈ fst (unloadLoop config (maxDurationOf config) ticks) ->
  exists before t after,
    ticks = before ++ t :: after
    /\ Forall (ttlPending config) before
    /\ ttlExpired config t.
Proof.
  induction ticks as [|t ticks IH]; cbn [unloadLoop fst].
  { intros Hin. exfalso. exact (not_elem_of_nil _ Hin). }
  destruct (isReady (CurrentState t)) eqn:Er; cbn [negb fst];
    [|intros Hin; exfalso; exact (not_elem_of_nil _ Hin)].
  apply isReady_true in Er.
  destruct (inFlightRequestsCount t =? 0) eqn:Ef; cbn [negb].
  - apply Z.eqb_eq in Ef.
    destruct (maxDurationOf config <? sinceLastRequestHandled t) eqn:Ed.
    + intros _. apply Z.ltb_lt in Ed. exists [], t, ticks.
      split; [reflexivity|]. split; [constructor|]. repeat split; assumption.
    + apply Z.ltb_ge in Ed. intros Hin.
      destruct (IH Hin) as (before & t' & after & -> & Hb & Ht).
      exists (t :: before), t', after. split; [reflexivity|].
      split; [|exact Ht]. constructor; [|exact Hb].
      split; [exact Er|right; exact Ed].
  - apply Z.eqb_neq in Ef. intros Hin.
    destruct (IH Hin) as (before & t' & after & -> & Hb & Ht).
    exists (t :: before), t', after. split; [reflexivity|].
    split; [|exact Ht]. constructor; [|exact Hb].
    split; [exact Er|left; exact Ef].
Qed.

(** X20.  The goroutine stops the process only for a positive TTL, and only
    at a tick that finds it ready, without a request in flight and idle for
    longer than the TTL, every tick before having found it ready and busy or
    not yet idle for that long. *)
Theorem unloadAfter_stops_only_when_expired config ticks :
  ProcessStop ∈ fst (unloadAfterMonitor config ticks) ->
  0 < Config.UnloadAfter config
  /\ exists before t after,
       ticks = before ++ t :: after
       /\ Forall (ttlPending config) before
       /\ ttlExpired config t.
Proof.
  unfold unloadAfterMonitor.
  destruct (0 <? Config.UnloadAfter config) eqn:Ep.
  - cbv zeta. intros Hin. split; [apply Z.ltb_lt; exact Ep|].
    apply unloadLoop_stop. exact Hin.
  - intros Hin. exfalso. exact (not_elem_of_nil _ Hin).
Qed.

(** X21.  For a TTL of up to 9223372036 seconds the product with
    [time.Second] does not wrap around, and a process that was never idle
    for longer than the TTL is not stopped. *)
Theorem unloadAfter_exact_ttl config ticks :
  0 < Config.UnloadAfter config <= 9223372036 ->
  maxDurationOf config = Config.UnloadAfter config * 1000000000
  /\ (Forall (fun t => sinceLastRequestHandled t
                       <= Config.UnloadAfter config * 1000000000) ticks ->
      fst (unloadAfterMonitor config ticks) = []).
Proof.
  intros Httl.
  assert (Hmax : maxDurationOf config = Config.UnloadAfter config * 1000000000).
  { unfold maxDurationOf. change Go.Second with 1000000000.
    apply wrap_small. unfold Go.min_int, Go.max_int. lia. }
  split; [exact Hmax|]. intros Hidle.
  unfold unloadAfterMonitor. destruct (0 <? Config.UnloadAfter config);
    [|reflexivity].
  cbv zeta. rewrite Hmax.
  induction Hidle as [|t ticks Ht _ IH]; cbn [unloadLoop]; [reflexivity|].
  destruct (isReady (CurrentState t)); cbn [negb]; [|reflexivity].
  destruct (inFlightRequestsCount t =? 0); cbn [negb]; [|exact IH].
  destruct (_ <? sinceLastRequestHandled t) eqn:Ed; [|exact IH].
  apply Z.ltb_lt in Ed. lia.
Qed.

(** X22.  While every tick finds the process ready and busy, or not yet
    idle for the TTL, the goroutine makes no call and goes on waiting; at the
    first tick that finds the process in another state it returns without a
    call, and the ticks after it are not looked at. *)
Theorem unloadAfter_returns_when_not_ready config
    (before after : list TickView) (t : TickView) :
  0 < Config.UnloadAfter config ->
  Forall (ttlPending config) before ->
  unloadAfterMonitor config before = ([], false)
  /\ (CurrentState t <> StateReady ->
      unloadAfterMonitor config (before ++ t :: after) = ([], true)).
Proof.
  intros Hpos Hbefore. unfold unloadAfterMonitor.
  rewrite (proj2 (Z.ltb_lt _ _) Hpos). cbv zeta. split.
  - rewrite <- (app_nil_r before) at 1.
    rewrite unloadLoop_pending by exact Hbefore. reflexivity.
  - intros Hs. rewrite unloadLoop_pending by exact Hbefore.
    cbn [unloadLoop]. rewrite (isReady_false _ Hs). reflexivity.
Qed.

End UnloadAfterMore.

Lemma unloadAfter_stops_only_when_expired_witness :
  exists before t after,
    [ {| CurrentState := StateReady; inFlightRequestsCount := 1;
         sinceLastRequestHandled := 5000000000 |};
      {| CurrentState := StateReady; inFlightRequestsCount := 0;
         sinceLastRequestHandled := 3000000000 |} ]
    = before ++ t :: after
    /\ ttlExpired (Reference.modelConfig 2 "" "") t.
Proof.
  destruct (unloadAfter_stops_only_when_expired
              (Reference.modelConfig 2 "" "")
              [ {| CurrentState := StateReady; inFlightRequestsCount := 1;
                   sinceLastRequestHandled := 5000000000 |};
                {| CurrentState := StateReady; inFlightRequestsCount := 0;
                   sinceLastRequestHandled := 3000000000 |} ])
    as (_ & before & t & after & E & _ & Ht).
  - vm_compute. apply elem_of_cons. right. apply elem_of_cons. left. reflexivity.
  - exists before, t, after. split; [exact E|exact Ht].
Defined.

Lemma unloadAfter_exact_ttl_witness :
  maxDurationOf (Reference.modelConfig 600 "" "") = 600000000000
  /\ fst (unloadAfterMonitor (Reference.modelConfig 600 "" "")
            [ {| CurrentState := StateReady; inFlightRequestsCount := 0;
                 sinceLastRequestHandled := 600000000000 |} ]) = [].
Proof.
  destruct (unloadAfter_exact_ttl (Reference.modelConfig 600 "" "")
              [ {| CurrentState := StateReady; inFlightRequestsCount := 0;
                   sinceLastRequestHandled := 600000000000 |} ])
    as [Hmax Hsafe]; [cbn; lia|].
  split; [exact Hmax|]. apply Hsafe.
  constructor; [cbn; lia|constructor].
Defined.

Lemma unloadAfter_returns_when_not_ready_witness :
  unloadAfterMonitor (Reference.modelConfig 2 "" "")
    [ {| CurrentState := StateReady; inFlightRequestsCount := 1;
         sinceLastRequestHandled := 5000000000 |};
      {| CurrentState := StateStopping; inFlightRequestsCount := 0;
         sinceLastRequestHandled := 9000000000 |};
      {| CurrentState := StateReady; inFlightRequestsCount := 0;
         sinceLastRequestHandled := 9000000000 |} ]
  = ([], true).
Proof.
  apply (proj2 (unloadAfter_returns_when_not_ready
                  (Reference.modelConfig 2 "" "")
                  [ {| CurrentState := StateReady; inFlightRequestsCount := 1;
                       sinceLastRequestHandled := 5000000000 |} ]
                  [ {| CurrentState := StateReady; inFlightRequestsCount := 0;
                       sinceLastRequestHandled := 9000000000 |} ]
                  {| CurrentState := StateStopping; inFlightRequestsCount := 0;
                     sinceLastRequestHandled := 9000000000 |}
                  ltac:(cbn; lia)
                  ltac:(constructor; [split; [reflexivity|left; cbn; lia]
                                     |constructor]))).
  discriminate.
Defined.

(** ** The wrapper is transparent to the client *)

Section Transparent.
Context {W : Type} {RW : ResponseWriter W} {G : GJson} {T : GoText}.

Lemma doCalls_inner (cs : list (WriterCall W)) :
  forall w : responseBodyCopier W,
    inner (foldl doCall w cs) = foldl doCallDirect (inner w) cs.
Proof.
  induction cs as [|c cs IH]; intros w; [reflexivity|].
  cbn [foldl]. rewrite IH. f_equal.
  destruct c as [k v|code|now b|method];
    cbn [doCall doCallDirect HeaderSet WriteHeader inner]; try reflexivity.
  unfold Write, teeWrite.
  destruct (rwWrite (inner w) b) as [w' [n [e|]]]; [reflexivity|].
  destruct (negb (n =? Go.len b)); reflexivity.
Qed.

(** X23.  Whatever [wrapHandler] makes of the response, the client's
    writer ends as if the handler had been given it directly: every call of
    the handler reaches it unchanged and in order, also when a write fails or
    the response is not parsed. *)
Theorem wrapHandler_transparent (mp : metricsMonitor) (clk : Clock)
    (modelID : string) (writer : W) (request : Request)
    (next : string -> Request -> HandlerRun W) (out : Wrapped W) :
  wrapHandler mp clk modelID writer request next = Some out ->
  client out = foldl doCallDirect writer (calls (next modelID request))
  /\ result_err out = returned (next modelID request).
Proof.
  rewrite wrapHandler_unfold. cbv zeta.
  assert (Hin : inner (served writer clk (next modelID request))
                = foldl doCallDirect writer (calls (next modelID request))).
  { unfold served, runHandler. cbn [fst]. rewrite doCalls_inner. reflexivity. }
  rewrite <- Hin. set (recorder := served writer clk (next modelID request)).
  destruct (returned (next modelID request)) as [e|];
    [intros [= <-]; split; reflexivity|].
  destruct (negb (Status recorder =? StatusOK));
    [intros [= <-]; split; reflexivity|].
  destruct (Go.len (body recorder) =? 0);
    [intros [= <-]; split; reflexivity|].
  destruct (Contains _ _).
  - destruct (processStreamingResponse _ _ _ _) as [[tm|e]|];
      cbn [mbind option_bind]; [| |discriminate].
    + destruct (addMetrics mp tm); cbn [mbind option_bind]; [|discriminate].
      intros [= <-]; split; reflexivity.
    + intros [= <-]; split; reflexivity.
  - destruct (ValidBytes _); [|intros [= <-]; split; reflexivity].
    destruct (parseMetrics _ _ _ _ _) as [tm|e];
      [|intros [= <-]; split; reflexivity].
    destruct (addMetrics mp tm); cbn [mbind option_bind]; [|discriminate].
    intros [= <-]; split; reflexivity.
Qed.

End Transparent.

(** X24.  A monitor of capacity zero stores nothing, and still hands every
    metric to the event bus and counts the IDs. *)
Theorem addMetrics_zero_capacity (mp : metricsMonitor) (m : TokenMetrics) :
  maxMetrics mp = 0 ->
  metrics mp = [] ->
  exists mp',
    addMetrics mp m = Some mp'
    /\ getMetrics mp' = []
    /\ emitted mp' = emitted mp ++ [{| Metrics := set_ID (nextID mp) m |}]
    /\ nextID mp' = Go.wrap (nextID mp + 1).
Proof.
  intros Hcap Hnone.
  assert (Hwf : wellFormed mp).
  { split; [lia|]. rewrite Hnone, Hcap. unfold Go.len. cbn [length]. lia. }
  destruct (addMetrics_total mp m Hwf) as (mp' & E & _ & Hm & _ & Hn & _ & He).
  exists mp'. split; [exact E|]. split; [|split; assumption].
  unfold getMetrics. rewrite Hm, Hcap, Hnone. reflexivity.
Qed.

Lemma wrapHandler_transparent_witness :
  exists out,
    wrapHandler (newMetricsMonitor [] 10) (Reference.clock 5) "test-model"
      Reference.newRecorder Reference.testRequest
      (Reference.respond "text/plain" 500 "error") = Some out
    /\ client out
       = foldl doCallDirect Reference.newRecorder
           (calls (Reference.respond "text/plain" 500 "error" "test-model"
                     Reference.testRequest)).
Proof.
  destruct (wrapHandler (newMetricsMonitor [] 10) (Reference.clock 5)
              "test-model" Reference.newRecorder Reference.testRequest
              (Reference.respond "text/plain" 500 "error")) as [out|] eqn:E;
    [|vm_compute in E; discriminate E].
  exists out. split; [reflexivity|].
  exact (proj1 (wrapHandler_transparent _ _ _ _ _ _ _ E)).
Defined.

Lemma addMetrics_zero_capacity_witness :
  exists mp',
    addMetrics (newMetricsMonitor [] 0) Reference.blank = Some mp'
    /\ getMetrics mp' = []
    /\ length (emitted mp') = 1%nat.
Proof.
  destruct (addMetrics_zero_capacity (newMetricsMonitor [] 0) Reference.blank
              eq_refl eq_refl) as (mp' & E & Hm & He & _).
  exists mp'. split; [exact E|]. split; [exact Hm|]. rewrite He. reflexivity.
Defined.
